(** * Preview locomotion engine (dwl/simulation/PreviewLocomotion.cpp)

    A shallow embedding of the multi-phase preview generator of the
    Dynamic Whole-body Locomotion library, and the properties of its phase
    sequencing, sampling policy, support-region maintenance and guards.

    Conventions of the embedding.
    - [double] is read as the rational it stands for ([Q]); every arithmetic
      expression is written as in the source, so that time stamps are
      compared syntactically. Sums and products are exact; the quotient
      whose integer part is a number of samples is rounded to the nearest
      double ([double_div]).
    - [unsigned int] is a [Z] in the range [0, 2^32) with the wrap-around of
      [+] written out ([uadd]); the conversion of a [double] to
      [unsigned int] is undefined outside that range.
    - [std::map<std::string, T>] is a [gmap string T]; [std::vector<T>] is a
      [list T].
    - Undefined behaviour of the source (a write past the end of a vector,
      [back()] of an empty vector, dereferencing [end()]) is an explicit
      [Undefined] outcome.
    - The engine object is threaded explicitly through every member
      function. *)

From Stdlib Require Import QArith Qround Qabs Qpower Lqa.
From stdpp Require Import gmap strings list pretty sorting.

Local Open Scope Z_scope.

(** ** Outcomes of a computation *)

Inductive Fault : Type :=
| OutOfBounds      (* operator[] past the end of a std::vector *)
| BackOfEmpty      (* back() of an empty std::vector *)
| EndIterator      (* find(name)->second when find returns end() *)
| BadConversion    (* double to unsigned int outside the range of the type *)
| LengthError.     (* resize with a size above max_size() *)

Inductive outcome (A : Type) : Type :=
| Ok (a : A)
| Undefined (f : Fault).
Arguments Ok {A} a.
Arguments Undefined {A} f.

#[global] Instance outcome_ret : MRet outcome := fun A a => Ok a.
#[global] Instance outcome_bind : MBind outcome := fun A B k m =>
  match m with
  | Ok a => k a
  | Undefined f => Undefined f
  end.

Definition is_Ok {A} (m : outcome A) : Prop := exists a, m = Ok a.

(** ** Scalars *)

Definition Qlt_bool (a b : Q) : bool := negb (Qle_bool b a).

(** [unsigned int] arithmetic. *)
Definition UINT_MOD : Z := 4294967296.
Definition uadd (a b : Z) : Z := (a + b) mod UINT_MOD.

(** Doubles are modelled by the rationals they stand for. Sums, products and
    comparisons are taken exactly; the quotient whose integer part decides a
    number of samples is rounded as the machine rounds it, since the integer
    part of a quotient just below an integer depends on it: IEEE-754 binary64,
    round to nearest, ties to even. *)

(** The integer nearest to [x], the even one of the two at a tie. *)
Definition round_nearest_even (x : Q) : Z :=
  let f := Qfloor x in
  match (x - inject_Z f ?= 1 # 2)%Q with
  | Lt => f
  | Gt => f + 1
  | Eq => if Z.even f then f else f + 1
  end.

(** [floor(log2 x)] for a positive [x]. *)
Definition Qlog2 (x : Q) : Z :=
  let e0 := Z.log2 (Qnum x) - Z.log2 (Zpos (Qden x)) in
  if Qle_bool (Qpower 2 e0) x then e0 else e0 - 1.

(** The double nearest to [x]: 53 significant bits, that is a multiple of
    [2 ^ (e - 52)] where [2 ^ e <= |x| < 2 ^ (e + 1)], the exponent [e] not
    below -1022 (subnormal numbers). A magnitude beyond the largest double
    is left as it is: the only use below rejects anything from [2 ^ 32] on,
    as it does an infinity. *)
Definition round_double (x : Q) : Q :=
  if Qeq_bool x 0 then 0%Q
  else
    let a := Qabs x in
    let e := Z.max (Qlog2 a) (-1022) in
    let ulp := Qpower 2 (e - 52) in
    let m := round_nearest_even (a / ulp) in
    ((if Qle_bool 0 x then 1 else -1) * inject_Z m * ulp)%Q.

(** [a / b] on doubles, for [b] other than zero. *)
Definition double_div (a b : Q) : Q := round_double (a / b).

(** [unsigned int n = floor(a / b)]: the quotient of two doubles, rounded
    down, then converted. A zero divisor gives an infinity or a NaN, whose
    conversion is undefined, as is that of a value outside [0, 2^32). *)
Definition floor_div (a b : Q) : outcome Z :=
  if Qeq_bool b 0 then Undefined BadConversion
  else
    let n := Qfloor (double_div a b) in
    if bool_decide (0 <= n < UINT_MOD) then Ok n else Undefined BadConversion.

(** ** Vectors *)

Record Vector2d : Type := mkVector2d { X2 : Q; Y2 : Q }.
Record Vector3d : Type := mkVector3d { X : Q; Y : Q; Z3 : Q }.

Definition Vector2d_Zero : Vector2d := mkVector2d 0 0.
Definition Vector3d_Zero : Vector3d := mkVector3d 0 0 0.

Definition vadd (a b : Vector3d) : Vector3d :=
  mkVector3d (X a + X b) (Y a + Y b) (Z3 a + Z3 b).
Definition vsub (a b : Vector3d) : Vector3d :=
  mkVector3d (X a - X b) (Y a - Y b) (Z3 a - Z3 b).
Definition vneg (a : Vector3d) : Vector3d :=
  mkVector3d (- X a) (- Y a) (- Z3 a).
(** [v * s] and [s * v] *)
Definition vmulr (a : Vector3d) (s : Q) : Vector3d :=
  mkVector3d (X a * s) (Y a * s) (Z3 a * s).
Definition vmull (s : Q) (a : Vector3d) : Vector3d :=
  mkVector3d (s * X a) (s * Y a) (s * Z3 a).
Definition head2 (a : Vector3d) : Vector2d := mkVector2d (X a) (Y a).
Definition set_Z (a : Vector3d) (z : Q) : Vector3d := mkVector3d (X a) (Y a) z.

(** ** Reduced-body data model *)

Record ReducedBodyState : Type := mkReducedBodyState {
  time : Q;
  com_pos : Vector3d;
  com_vel : Vector3d;
  com_acc : Vector3d;
  angular_pos : Vector3d;
  angular_vel : Vector3d;
  angular_acc : Vector3d;
  cop : Vector3d;
  support_region : gmap string Vector3d;
  foot_pos : gmap string Vector3d;
  foot_vel : gmap string Vector3d;
  foot_acc : gmap string Vector3d
}.

(** Modelled from the spec: the declaration of [ReducedBodyState] is not
    part of the sources at hand; a default-constructed state has every
    vector at zero and every mapping empty. *)
Definition ReducedBodyState_default : ReducedBodyState :=
  mkReducedBodyState 0 Vector3d_Zero Vector3d_Zero Vector3d_Zero
    Vector3d_Zero Vector3d_Zero Vector3d_Zero Vector3d_Zero ∅ ∅ ∅ ∅.

Definition getRPY_W (s : ReducedBodyState) : Vector3d := angular_pos s.

Definition set_time (t : Q) (s : ReducedBodyState) : ReducedBodyState :=
  mkReducedBodyState t (com_pos s) (com_vel s) (com_acc s)
    (angular_pos s) (angular_vel s) (angular_acc s) (cop s)
    (support_region s) (foot_pos s) (foot_vel s) (foot_acc s).

Definition set_com (p v a : Vector3d) (s : ReducedBodyState) : ReducedBodyState :=
  mkReducedBodyState (time s) p v a
    (angular_pos s) (angular_vel s) (angular_acc s) (cop s)
    (support_region s) (foot_pos s) (foot_vel s) (foot_acc s).

Definition set_support_region (r : gmap string Vector3d) (s : ReducedBodyState)
  : ReducedBodyState :=
  mkReducedBodyState (time s) (com_pos s) (com_vel s) (com_acc s)
    (angular_pos s) (angular_vel s) (angular_acc s) (cop s)
    r (foot_pos s) (foot_vel s) (foot_acc s).

(** [state.foot_pos[name] = p; state.foot_vel[name] = v; state.foot_acc[name] = a] *)
Definition set_foot (name : string) (p v a : Vector3d) (s : ReducedBodyState)
  : ReducedBodyState :=
  mkReducedBodyState (time s) (com_pos s) (com_vel s) (com_acc s)
    (angular_pos s) (angular_vel s) (angular_acc s) (cop s)
    (support_region s)
    (<[name := p]> (foot_pos s)) (<[name := v]> (foot_vel s))
    (<[name := a]> (foot_acc s)).

Abbreviation ReducedBodyTrajectory := (list ReducedBodyState).

Inductive TypeOfPhases : Type := STANCE | FLIGHT.

#[global] Instance TypeOfPhases_eq_dec : EqDecision TypeOfPhases.
Proof. solve_decision. Defined.

(** Modelled from the spec: the declaration of [PreviewPhase] is not part of
    the sources at hand. A phase carries its type, the list of feet that
    swing, the explicit set of swinging foot names and a mapping from foot
    name to its planar footstep shift; a foot without a registered shift has
    the zero shift. *)
Record PreviewPhase : Type := mkPreviewPhase {
  type : TypeOfPhases;
  feet : list string;
  swing_feet : gset string;
  feet_shift : gmap string Vector2d
}.

Definition getTypeOfPhase (p : PreviewPhase) : TypeOfPhases := type p.
Definition isSwingFoot (p : PreviewPhase) (name : string) : bool :=
  bool_decide (name ∈ swing_feet p).
Definition getFootShift (p : PreviewPhase) (name : string) : Vector2d :=
  default Vector2d_Zero (feet_shift p !! name).
Definition setTypeOfPhase (t : TypeOfPhases) (p : PreviewPhase) : PreviewPhase :=
  mkPreviewPhase t (feet p) (swing_feet p) (feet_shift p).
Definition push_back_feet (name : string) (p : PreviewPhase) : PreviewPhase :=
  mkPreviewPhase (type p) (feet p ++ [name]) (swing_feet p) (feet_shift p).
Definition setSwingFoot (name : string) (p : PreviewPhase) : PreviewPhase :=
  mkPreviewPhase (type p) (feet p) ({[name]} ∪ swing_feet p) (feet_shift p).
Definition setFootShift (name : string) (s : Vector2d) (p : PreviewPhase)
  : PreviewPhase :=
  mkPreviewPhase (type p) (feet p) (swing_feet p) (<[name := s]> (feet_shift p)).

Record PreviewParams : Type := mkPreviewParams {
  duration : Q;
  cop_shift : Vector2d;
  head_acc : Q;
  phase : PreviewPhase
}.

Record PreviewControl : Type := mkPreviewControl {
  params : list PreviewParams
}.

Record SwingParams : Type := mkSwingParams {
  swing_duration : Q;
  swing_feet_shift : gmap string Vector3d
}.

Record StepParameters : Type := mkStepParameters {
  step_duration : Q;
  step_height : Q
}.

Record CartTableProperties : Type := mkCartTableProperties {
  ct_mass : Q;
  ct_gravity : Q
}.

Record CartTableControlParams : Type := mkCartTableControlParams {
  ctl_duration : Q;
  ctl_cop_shift : Vector2d
}.

(** ** Collaborators

    The cart-table model, the foot-spline generator, the frame
    transformations, the terrain map and the YAML reader are used by
    PreviewLocomotion.cpp but defined elsewhere. They are interfaces here;
    every result below holds for any implementation of them. *)

(** Modelled from the spec: the cart-table model is not part of the sources
    at hand. [initResponse] computes and caches the closed-form
    coefficients of a phase from its start state and control parameters;
    [computeResponse] evaluates the cached solution at an absolute time,
    writing the state it is given; [computeSystemEnergy] is the closed-form
    energy of a phase (it may refresh the cache); the pendulum height is
    fixed once the model is loaded. *)
Class CartTableModel : Type := {
  Coefficients : Type;
  cart_init : CartTableProperties -> Q -> ReducedBodyState ->
              CartTableControlParams -> Coefficients;
  cart_eval : CartTableProperties -> Q -> option Coefficients ->
              ReducedBodyState -> Q -> ReducedBodyState;
  cart_energy : CartTableProperties -> Q -> option Coefficients ->
                ReducedBodyState -> CartTableControlParams ->
                Vector3d * option Coefficients
}.

(** Modelled from the spec: the swing generator is not part of the sources
    at hand. [setParameters] fixes the boundary conditions of one foot;
    [generateTrajectory] evaluates position, velocity and acceleration. *)
Class FootSplinePatternGenerator : Type := {
  Spline : Type;
  Spline_default : Spline;
  setParameters : Spline -> Q -> Vector3d -> Vector3d -> StepParameters -> Spline;
  generateTrajectory : Spline -> Q -> Vector3d * Vector3d * Vector3d
}.

(** The frame transformations [frame_tf_] (defined elsewhere): a vector and
    a roll-pitch-yaw orientation to a vector. *)
Class FrameTF : Type := {
  fromBaseToWorldFrame : Vector3d -> Vector3d -> Vector3d;
  fromWorldToBaseFrame : Vector3d -> Vector3d -> Vector3d
}.

(** The terrain map [terrain_] (defined elsewhere). *)
Record TerrainMap : Type := mkTerrainMap {
  isTerrainInformation : bool;
  getTerrainHeight : Vector2d -> Q
}.

Definition YamlNamespace : Type := list string.

(** Modelled from the spec: the YAML reader is not part of the sources at
    hand. A description is a namespaced key/value structure; [read] returns
    whether the key is present and writes its target only then. *)
Record YamlWrapper : Type := mkYamlWrapper {
  read_Vector3d : YamlNamespace -> string -> option Vector3d;
  read_Vector2d : YamlNamespace -> string -> option Vector2d;
  read_double : YamlNamespace -> string -> option Q;
  read_int : YamlNamespace -> string -> option Z
}.

(** Monadic left fold: a [for] loop whose body may be undefined. *)
Fixpoint foldM {A B : Type} (f : B -> A -> outcome B) (l : list A) (b : B)
  : outcome B :=
  match l with
  | [] => Ok b
  | a :: l' => b' ← f b a; foldM f l' b'
  end.

(** [v[i] = x] on a [std::vector]. *)
Definition vector_set {A : Type} (i : Z) (x : A) (v : list A) : outcome (list A) :=
  if bool_decide (0 <= i < Z.of_nat (length v))
  then Ok (<[Z.to_nat i := x]> v)
  else Undefined OutOfBounds.

(** [v.back()] *)
Definition back {A : Type} (v : list A) : outcome A :=
  match last v with
  | Some a => Ok a
  | None => Undefined BackOfEmpty
  end.

(** [v[i]] read on a [std::vector], [i] a container index. *)
Definition vector_get {A : Type} (i : nat) (v : list A) : outcome A :=
  match v !! i with
  | Some a => Ok a
  | None => Undefined OutOfBounds
  end.

Section PreviewLocomotion.

Context {cart : CartTableModel} {swing : FootSplinePatternGenerator}
        {frame_tf_ : FrameTF}.

Record CartTable : Type := mkCartTable {
  properties_ : CartTableProperties;
  height_ : Q;
  response_ : option Coefficients
}.

Definition setModelProperties (model : CartTableProperties) (ct : CartTable)
  : CartTable :=
  mkCartTable model (height_ ct) (response_ ct).

Definition initResponse (state : ReducedBodyState)
    (model_params : CartTableControlParams) (ct : CartTable) : CartTable :=
  mkCartTable (properties_ ct) (height_ ct)
    (Some (cart_init (properties_ ct) (height_ ct) state model_params)).

Definition computeResponse (ct : CartTable) (state : ReducedBodyState) (t : Q)
  : ReducedBodyState :=
  cart_eval (properties_ ct) (height_ ct) (response_ ct) state t.

Definition computeSystemEnergy (state : ReducedBodyState)
    (model_params : CartTableControlParams) (ct : CartTable)
  : Vector3d * CartTable :=
  let r := cart_energy (properties_ ct) (height_ ct) (response_ ct)
             state model_params in
  (r.1, mkCartTable (properties_ ct) (height_ ct) r.2).

Definition getPendulumHeight (ct : CartTable) : Q := height_ ct.

(** The engine object. The first nine fields are its configuration, fixed
    by the constructor, the setters and [resetFromURDFModel]; the last five
    are the context that the preview functions mutate. *)
Record PreviewLocomotion : Type := mkPreviewLocomotion {
  robot_model_ : bool;
  sample_time_ : Q;
  gravity_ : Q;
  mass_ : Q;
  num_feet_ : nat;
  feet_names_ : list string;
  step_height_ : Q;
  force_threshold_ : Q;
  stance_posture_ : gmap string Vector3d;
  terrain_ : TerrainMap;
  cart_table_ : CartTable;
  actual_state_ : ReducedBodyState;
  phase_state_ : ReducedBodyState;
  swing_params_ : SwingParams;
  feet_spline_generator_ : gmap string Spline
}.

Definition set_sample_time_ (v : Q) (e : PreviewLocomotion) : PreviewLocomotion :=
  mkPreviewLocomotion (robot_model_ e) v (gravity_ e) (mass_ e)
    (num_feet_ e) (feet_names_ e) (step_height_ e) (force_threshold_ e)
    (stance_posture_ e) (terrain_ e) (cart_table_ e) (actual_state_ e)
    (phase_state_ e) (swing_params_ e) (feet_spline_generator_ e).

Definition set_step_height_ (v : Q) (e : PreviewLocomotion) : PreviewLocomotion :=
  mkPreviewLocomotion (robot_model_ e) (sample_time_ e) (gravity_ e) (mass_ e)
    (num_feet_ e) (feet_names_ e) v (force_threshold_ e)
    (stance_posture_ e) (terrain_ e) (cart_table_ e) (actual_state_ e)
    (phase_state_ e) (swing_params_ e) (feet_spline_generator_ e).

Definition set_force_threshold_ (v : Q) (e : PreviewLocomotion) : PreviewLocomotion :=
  mkPreviewLocomotion (robot_model_ e) (sample_time_ e) (gravity_ e) (mass_ e)
    (num_feet_ e) (feet_names_ e) (step_height_ e) v
    (stance_posture_ e) (terrain_ e) (cart_table_ e) (actual_state_ e)
    (phase_state_ e) (swing_params_ e) (feet_spline_generator_ e).

Definition set_cart_table_ (v : CartTable) (e : PreviewLocomotion) : PreviewLocomotion :=
  mkPreviewLocomotion (robot_model_ e) (sample_time_ e) (gravity_ e) (mass_ e)
    (num_feet_ e) (feet_names_ e) (step_height_ e) (force_threshold_ e)
    (stance_posture_ e) (terrain_ e) v (actual_state_ e)
    (phase_state_ e) (swing_params_ e) (feet_spline_generator_ e).

Definition set_actual_state_ (v : ReducedBodyState) (e : PreviewLocomotion)
  : PreviewLocomotion :=
  mkPreviewLocomotion (robot_model_ e) (sample_time_ e) (gravity_ e) (mass_ e)
    (num_feet_ e) (feet_names_ e) (step_height_ e) (force_threshold_ e)
    (stance_posture_ e) (terrain_ e) (cart_table_ e) v
    (phase_state_ e) (swing_params_ e) (feet_spline_generator_ e).

Definition set_phase_state_ (v : ReducedBodyState) (e : PreviewLocomotion)
  : PreviewLocomotion :=
  mkPreviewLocomotion (robot_model_ e) (sample_time_ e) (gravity_ e) (mass_ e)
    (num_feet_ e) (feet_names_ e) (step_height_ e) (force_threshold_ e)
    (stance_posture_ e) (terrain_ e) (cart_table_ e) (actual_state_ e)
    v (swing_params_ e) (feet_spline_generator_ e).

Definition set_swing_params_ (v : SwingParams) (e : PreviewLocomotion)
  : PreviewLocomotion :=
  mkPreviewLocomotion (robot_model_ e) (sample_time_ e) (gravity_ e) (mass_ e)
    (num_feet_ e) (feet_names_ e) (step_height_ e) (force_threshold_ e)
    (stance_posture_ e) (terrain_ e) (cart_table_ e) (actual_state_ e)
    (phase_state_ e) v (feet_spline_generator_ e).

Definition set_feet_spline_generator_ (v : gmap string Spline)
    (e : PreviewLocomotion) : PreviewLocomotion :=
  mkPreviewLocomotion (robot_model_ e) (sample_time_ e) (gravity_ e) (mass_ e)
    (num_feet_ e) (feet_names_ e) (step_height_ e) (force_threshold_ e)
    (stance_posture_ e) (terrain_ e) (cart_table_ e) (actual_state_ e)
    (phase_state_ e) (swing_params_ e) v.

(** The constructor: no robot model, a sample time of one millisecond. *)
Definition PreviewLocomotion_new : PreviewLocomotion :=
  mkPreviewLocomotion false (1 # 1000) (981 # 100) 0 0 [] (1 # 10) 0 ∅
    (mkTerrainMap false (fun _ => 0%Q))
    (mkCartTable (mkCartTableProperties 0 0) 0 None)
    ReducedBodyState_default ReducedBodyState_default
    (mkSwingParams 0 ∅) ∅.

Definition setSampleTime (sample_time : Q) := set_sample_time_ sample_time.
Definition setStepHeight (step_height : Q) := set_step_height_ step_height.
Definition setForceThreshold (force_threshold : Q) :=
  set_force_threshold_ force_threshold.
Definition getSampleTime (e : PreviewLocomotion) : Q := sample_time_ e.

(** [stance_posture_.find(name)->second] *)
Definition find_stance (e : PreviewLocomotion) (name : string) : outcome Vector3d :=
  match stance_posture_ e !! name with
  | Some v => Ok v
  | None => Undefined EndIterator
  end.


(** *** Swing-foot generation *)

(** Getting the swing shift of one foot of the phase: the body of the first
    loop of [initSwing]. *)
Definition swing_shift_step (e : PreviewLocomotion) (params : PreviewParams)
    (terminal_state : ReducedBodyState)
    (swing_shift : gmap string Vector3d) (name : string)
  : outcome (gmap string Vector3d) :=
  stance ← find_stance e name;
  (* Getting the footshift control parameter *)
  let footshift_2d := getFootShift (phase params) name in
  let footshift := mkVector3d (X2 footshift_2d) (Y2 footshift_2d) 0 in
  (* Computing the foothold position w.r.t. the world *)
  let foothold :=
    vadd (com_pos terminal_state)
      (fromBaseToWorldFrame (vadd stance footshift)
         (getRPY_W terminal_state)) in
  let footshift :=
    if isTerrainInformation (terrain_ e) then
      let foothold_2d := head2 foothold in
      set_Z footshift
        (getTerrainHeight (terrain_ e) foothold_2d -
           (Z3 (com_pos terminal_state) + Z3 stance))
    else
      let comz_shift :=
        (Z3 (com_pos terminal_state) - Z3 (com_pos (actual_state_ e)))%Q in
      let footshift_z :=
        (- (getPendulumHeight (cart_table_ e) + Z3 stance))%Q in
      set_Z footshift (footshift_z - comz_shift) in
  Ok (<[name := footshift]> swing_shift).

(** Initializing the generator of one foot of the state, if it swings: the
    body of the second loop of [initSwing]. *)
Definition spline_step (e : PreviewLocomotion) (state : ReducedBodyState)
    (params : PreviewParams)
    (generators : gmap string Spline) (foot_it : string * Vector3d)
  : outcome (gmap string Spline) :=
  let name := foot_it.1 in
  (* Checking the feet that swing *)
  match swing_feet_shift (swing_params_ e) !! name with
  | Some footshift =>
      (* Getting the actual position of the contact w.r.t the CoM frame *)
      let actual_pos := foot_it.2 in
      (* Getting the target position of the contact w.r.t the CoM frame *)
      stance_pos ← find_stance e name;
      let target_pos := vadd stance_pos footshift in
      (* Initializing the foot pattern generator *)
      let step_params := mkStepParameters (duration params) (step_height_ e) in
      Ok (<[name := setParameters
                       (default Spline_default (generators !! name))
                       (time state) actual_pos target_pos step_params]>
            generators)
  | None => Ok generators
  end.

(** [initSwing] resolves the swing target of every foot of the phase
    against the terminal CoM state and creates one generator per foot of the
    state that swings. The feet of the state are visited in the order of
    [map_to_list]; the source visits them in the order of their names, and
    every iteration writes the generator of its own foot only. *)
Definition initSwing (state : ReducedBodyState) (params : PreviewParams)
    (e : PreviewLocomotion) : outcome PreviewLocomotion :=
  (* Updating the phase state *)
  let e := set_phase_state_ state e in
  (* Computing the terminal CoM state for getting the foothold position *)
  let terminal_state :=
    computeResponse (cart_table_ e) ReducedBodyState_default
      (time state + duration params) in
  (* Getting the swing shift per foot *)
  swing_shift ← foldM (swing_shift_step e params terminal_state)
                  (feet (phase params)) ∅;
  (* Adding the swing pattern *)
  let e := set_swing_params_ (mkSwingParams (duration params) swing_shift) e in
  (* Generating the actual state for every feet *)
  let e := set_feet_spline_generator_ ∅ e in
  generators ← foldM (spline_step e state params)
                 (map_to_list (foot_pos state)) ∅;
  Ok (set_feet_spline_generator_ generators e).

(** One foot of [generateSwing]. [feet_spline_generator_[name]] inserts a
    default generator when the foot has none. *)
Definition generateSwing_foot (t : Q)
    (acc : ReducedBodyState * PreviewLocomotion) (foot_it : string * Vector3d)
  : ReducedBodyState * PreviewLocomotion :=
  let state := acc.1 in
  let e := acc.2 in
  let name := foot_it.1 in
  match swing_feet_shift (swing_params_ e) !! name with
  | Some _ =>
      let generator := default Spline_default (feet_spline_generator_ e !! name) in
      let e := set_feet_spline_generator_
                 (<[name := generator]> (feet_spline_generator_ e)) e in
      let r := generateTrajectory generator t in
      (set_foot name r.1.1 r.1.2 r.2 state, e)
  | None =>
      let actual_pos := foot_it.2 in
      let com_disp := vsub (com_pos state) (com_pos (phase_state_ e)) in
      (set_foot name
         (vsub actual_pos (fromWorldToBaseFrame com_disp (getRPY_W state)))
         (fromWorldToBaseFrame (vneg (com_vel state)) (getRPY_W state))
         (fromWorldToBaseFrame (vneg (com_acc state)) (getRPY_W state))
         state, e)
  end.

(** The feet are visited in the order of [map_to_list]; the source visits
    them in the order of their names. Every iteration writes the entries of
    its own foot only. *)
Definition generateSwing (state : ReducedBodyState) (t : Q)
    (e : PreviewLocomotion) : ReducedBodyState * PreviewLocomotion :=
  foldl (generateSwing_foot t) (state, e)
    (map_to_list (foot_pos (phase_state_ e))).

(** *** Stance and flight phases *)

(** The time offset of sample [k]: the last one is pinned to the duration. *)
Definition sample_offset (e : PreviewLocomotion) (params : PreviewParams)
    (num_samples k : Z) : Q :=
  if bool_decide (k = num_samples) then duration params
  else (sample_time_ e * inject_Z (uadd k 1))%Q.

(** Body of the sampling loop of [stancePreview]. [current_state] lives
    across the iterations. *)
Definition stance_step (state : ReducedBodyState) (params : PreviewParams)
    (full : bool) (num_samples idx : Z)
    (acc : ReducedBodyState * ReducedBodyTrajectory * PreviewLocomotion)
    (k : Z)
  : outcome (ReducedBodyState * ReducedBodyTrajectory * PreviewLocomotion) :=
  let current_state := acc.1.1 in
  let trajectory := acc.1.2 in
  let e := acc.2 in
  let t := sample_offset e params num_samples k in
  let current_state := set_time (time state + t) current_state in
  let current_state :=
    computeResponse (cart_table_ e) current_state (time current_state) in
  let r := if full then generateSwing current_state (time current_state) e
           else (current_state, e) in
  trajectory ← vector_set (k - idx) r.1 trajectory;
  Ok (r.1, trajectory, r.2).

Definition stancePreview (trajectory : ReducedBodyTrajectory)
    (state : ReducedBodyState) (params : PreviewParams) (full : bool)
    (e : PreviewLocomotion)
  : outcome (ReducedBodyTrajectory * PreviewLocomotion) :=
  (* Checking the preview duration *)
  if full && Qlt_bool (duration params) (sample_time_ e) then Ok (trajectory, e)
  else
    let model_params :=
      mkCartTableControlParams (duration params) (cop_shift params) in
    let e := set_cart_table_ (initResponse state model_params (cart_table_ e)) e in
    (* Computing the number of samples and initial index *)
    num_samples ← floor_div (duration params) (sample_time_ e);
    r ← (if full then
           let trajectory :=
             resize (Z.to_nat (uadd num_samples 1)) ReducedBodyState_default
               trajectory in
           e ← initSwing state params e;
           Ok (0, trajectory, e)
         else
           Ok (num_samples, resize 1 ReducedBodyState_default trajectory, e));
    let idx := r.1.1 in
    let current_state := state in
    r ← foldM (stance_step state params full num_samples idx)
          (seqZ idx (uadd num_samples 1 - idx)) (current_state, r.1.2, r.2);
    Ok (r.1.2, r.2).

(** Body of the sampling loop of [flightPreview]. *)
Definition flight_step (state : ReducedBodyState) (params : PreviewParams)
    (full : bool) (num_samples idx : Z)
    (acc : ReducedBodyTrajectory * PreviewLocomotion) (k : Z)
  : outcome (ReducedBodyTrajectory * PreviewLocomotion) :=
  let trajectory := acc.1 in
  let e := acc.2 in
  let gravity_vec := set_Z Vector3d_Zero (- gravity_ e) in
  let t := sample_offset e params num_samples k in
  let current_state := ReducedBodyState_default in
  let current_state := set_time (time state + t) current_state in
  (* Computing the CoM motion according to the projectile EoM *)
  let current_state :=
    set_com
      (vadd (vadd (com_pos state) (vmulr (com_vel state) t))
         (vmulr (vmulr (vmull (1 # 2) gravity_vec) t) t))
      (vadd (com_vel state) (vmulr gravity_vec t))
      gravity_vec
      current_state in
  let r := if full then generateSwing current_state (time current_state) e
           else (current_state, e) in
  trajectory ← vector_set (k - idx) r.1 trajectory;
  Ok (trajectory, r.2).

Definition flightPreview (trajectory : ReducedBodyTrajectory)
    (state : ReducedBodyState) (params : PreviewParams) (full : bool)
    (e : PreviewLocomotion)
  : outcome (ReducedBodyTrajectory * PreviewLocomotion) :=
  (* Checking the preview duration *)
  if full && Qlt_bool (duration params) (sample_time_ e) then Ok (trajectory, e)
  else
    (* Computing the number of samples and initial index *)
    num_samples ← floor_div (duration params) (sample_time_ e);
    r ← (if full then
           let trajectory :=
             resize (Z.to_nat num_samples) ReducedBodyState_default trajectory in
           e ← initSwing state params e;
           Ok (0, trajectory, e)
         else
           Ok (num_samples, resize 1 ReducedBodyState_default trajectory, e));
    let idx := r.1.1 in
    foldM (flight_step state params full num_samples idx)
      (seqZ idx (uadd num_samples 1 - idx)) (r.1.2, r.2).


(** *** Multi-phase preview *)

Definition MSG_NO_MODEL : string := "Error: the robot model was not initialized".

(** [a > b] on doubles *)
Definition Qgt_bool (a b : Q) : bool := Qlt_bool b a.

(** The foothold that [multiPhasePreview] computes for foot [name] with
    nominal stance offset [stance], from the parameters [p] of the phase in
    which the foot swung and the state [actual_state] (the two occurrences in
    the source are the same statements): the CoM position plus the rotated
    stance offset and commanded shift, with z from the terrain height-map or,
    without one, from the flat-terrain fallback that compensates the drift of
    the CoM height. *)
Definition foothold_position (e : PreviewLocomotion) (p : PreviewParams)
    (name : string) (stance : Vector3d) (actual_state : ReducedBodyState)
  : Vector3d :=
  (* Getting the footshift control parameter *)
  let footshift_2d := getFootShift (phase p) name in
  let footshift := mkVector3d (X2 footshift_2d) (Y2 footshift_2d) 0 in
  (* Computing the foothold position w.r.t. the world *)
  let foothold :=
    vadd (com_pos actual_state)
      (fromBaseToWorldFrame (vadd stance footshift) (getRPY_W actual_state)) in
  if isTerrainInformation (terrain_ e) then
    let foothold_2d := head2 foothold in
    set_Z foothold (getTerrainHeight (terrain_ e) foothold_2d)
  else
    let comz_shift :=
      (Z3 (com_pos actual_state) - Z3 (com_pos (actual_state_ e)))%Q in
    let footshift_z := (- (getPendulumHeight (cart_table_ e) + Z3 stance))%Q in
    set_Z foothold (footshift_z - comz_shift).

(** [actual_state.support_region[name] = foothold] *)
Definition commit_foothold (e : PreviewLocomotion) (p : PreviewParams)
    (name : string) (actual_state : ReducedBodyState)
  : outcome ReducedBodyState :=
  stance ← find_stance e name;
  let foothold := foothold_position e p name stance actual_state in
  Ok (set_support_region (<[name := foothold]> (support_region actual_state))
        actual_state).

(** Foot [name] in the loop that updates the support region of the start
    state of phase [k > 0]. *)
Definition support_foot (e : PreviewLocomotion) (control : PreviewControl)
    (k : nat) (preview_params : PreviewParams)
    (actual_state : ReducedBodyState) (name : string)
  : outcome ReducedBodyState :=
  (* Removing the swing foot of the actual phase *)
  let actual_state :=
    if isSwingFoot (phase preview_params) name
    then set_support_region (delete name (support_region actual_state))
           actual_state
    else actual_state in
  (* Adding the foothold target of the previous phase *)
  previous ← vector_get (k - 1) (params control);
  if isSwingFoot (phase previous) name
     && Qgt_bool (duration previous) (sample_time_ e)
  then commit_foothold e previous name actual_state
  else Ok actual_state.

(** Body of that loop: [for (f = 0; f < num_feet_; f++)] with
    [name = feet_names_[f]]. *)
Definition support_step (e : PreviewLocomotion) (control : PreviewControl)
    (k : nat) (preview_params : PreviewParams)
    (actual_state : ReducedBodyState) (f : nat) : outcome ReducedBodyState :=
  name ← vector_get f (feet_names_ e);
  support_foot e control k preview_params actual_state name.

(** The start state of phase [k]. *)
Definition phase_start (e : PreviewLocomotion) (state : ReducedBodyState)
    (control : PreviewControl) (k : nat) (preview_params : PreviewParams)
    (trajectory : ReducedBodyTrajectory) : outcome ReducedBodyState :=
  if bool_decide (k = 0%nat) then Ok state
  else
    actual_state ← back trajectory;
    (* Updating the support region for this phase *)
    if Qgt_bool (duration preview_params) (sample_time_ e)
    then foldM (support_step e control k preview_params)
           (seq 0 (num_feet_ e)) actual_state
    else Ok actual_state.

(** Computing the preview of the actual phase, into a fresh [phase_traj]. *)
Definition phase_dispatch (actual_state : ReducedBodyState)
    (preview_params : PreviewParams) (full : bool) (e : PreviewLocomotion)
  : outcome (ReducedBodyTrajectory * PreviewLocomotion) :=
  let phase_traj : ReducedBodyTrajectory := [] in
  if bool_decide (type (phase preview_params) = STANCE)
  then stancePreview phase_traj actual_state preview_params full e
  else flightPreview phase_traj actual_state preview_params full e.

(** Appending the phase trajectory, then the sanity action: defining the
    actual state if there isn't a trajectory. *)
Definition append_phase (state : ReducedBodyState)
    (trajectory phase_traj : ReducedBodyTrajectory) : ReducedBodyTrajectory :=
  let trajectory := trajectory ++ phase_traj in
  if bool_decide (length trajectory = 0%nat) then trajectory ++ [state]
  else trajectory.

(** Body of the loop over the phases. *)
Definition phase_iteration (state : ReducedBodyState) (control : PreviewControl)
    (full : bool) (acc : ReducedBodyTrajectory * PreviewLocomotion) (k : nat)
  : outcome (ReducedBodyTrajectory * PreviewLocomotion) :=
  let trajectory := acc.1 in
  let e := acc.2 in
  (* Getting the preview params of the actual phase *)
  preview_params ← vector_get k (params control);
  (* Getting the actual preview state for this phase *)
  actual_state ← phase_start e state control k preview_params trajectory;
  (* Computing the preview of the actual phase *)
  r ← phase_dispatch actual_state preview_params full e;
  Ok (append_phase state trajectory r.1, r.2).

(** Foot [name] in the loop that builds the trailing state. *)
Definition trailing_foot (e : PreviewLocomotion) (end_control : PreviewParams)
    (actual_state : ReducedBodyState) (name : string)
  : outcome ReducedBodyState :=
  (* Adding the foothold target of the current phase *)
  if isSwingFoot (phase end_control) name
     && Qgt_bool (duration end_control) (sample_time_ e)
  then commit_foothold e end_control name actual_state
  else Ok actual_state.

Definition trailing_step (e : PreviewLocomotion) (end_control : PreviewParams)
    (actual_state : ReducedBodyState) (f : nat) : outcome ReducedBodyState :=
  name ← vector_get f (feet_names_ e);
  trailing_foot e end_control actual_state name.

(** Adding the latest state. *)
Definition add_latest_state (control : PreviewControl)
    (trajectory : ReducedBodyTrajectory) (e : PreviewLocomotion)
  : outcome ReducedBodyTrajectory :=
  actual_state ← back trajectory;
  end_control ← back (params control);
  actual_state ← foldM (trailing_step e end_control) (seq 0 (num_feet_ e))
                   actual_state;
  Ok (trajectory ++ [actual_state]).

(** The loop over the phases, from the cleared trajectory. *)
Definition phase_loop (state : ReducedBodyState) (control : PreviewControl)
    (full : bool) (e : PreviewLocomotion)
  : outcome (ReducedBodyTrajectory * PreviewLocomotion) :=
  foldM (phase_iteration state control full)
    (seq 0 (length (params control))) ([], e).

(** [multiPhasePreview] returns the output trajectory, the engine and what
    it printed. *)
Definition multiPhasePreview (trajectory : ReducedBodyTrajectory)
    (state : ReducedBodyState) (control : PreviewControl) (full : bool)
    (e : PreviewLocomotion)
  : outcome (ReducedBodyTrajectory * PreviewLocomotion * list string) :=
  (* Checking that the robot model was initialized *)
  if negb (robot_model_ e) then Ok (trajectory, e, [MSG_NO_MODEL])
  else
    (* Updating the actual state *)
    let e := set_actual_state_ state e in
    (* Clearing the trajectory, computing the preview for multi-phase *)
    r ← phase_loop state control full e;
    trajectory ← add_latest_state control r.1 r.2;
    Ok (trajectory, r.2, []).

(** *** Multi-phase energy *)

(** Body of the loop over the phases of [multiPhaseEnergy]. *)
Definition energy_step
    (acc : Vector3d * ReducedBodyState * PreviewLocomotion)
    (preview_params : PreviewParams)
  : Vector3d * ReducedBodyState * PreviewLocomotion :=
  let com_energy := acc.1.1 in
  let actual_state := acc.1.2 in
  let e := acc.2 in
  (* Computing the CoM energy of this phase *)
  let r :=
    if bool_decide (type (phase preview_params) = STANCE) then
      let model_params :=
        mkCartTableControlParams (duration preview_params)
          (cop_shift preview_params) in
      let r := computeSystemEnergy actual_state model_params (cart_table_ e) in
      (vadd com_energy r.1, set_cart_table_ r.2 e)
    else (* Flight phase *)
      (com_energy, e) in
  (* Updating the actual state *)
  let t := (time actual_state + duration preview_params)%Q in
  (r.1, computeResponse (cart_table_ r.2) actual_state t, r.2).

(** [multiPhaseEnergy] returns the energy, the engine and what it printed. *)
Definition multiPhaseEnergy (com_energy : Vector3d) (state : ReducedBodyState)
    (control : PreviewControl) (e : PreviewLocomotion)
  : Vector3d * PreviewLocomotion * list string :=
  (* Checking that the robot model was initialized *)
  if negb (robot_model_ e) then (com_energy, e, [MSG_NO_MODEL])
  else
    (* Updating the actual state *)
    let e := set_actual_state_ state e in
    (* Initializing the CoM energy vector *)
    let com_energy := Vector3d_Zero in
    let r := foldl energy_step (com_energy, state, e) (params control) in
    (r.1.1, r.2, []).


(** *** Reading a preview sequence *)

Definition set_com_pos (v : Vector3d) (s : ReducedBodyState) : ReducedBodyState :=
  set_com v (com_vel s) (com_acc s) s.
Definition set_com_vel (v : Vector3d) (s : ReducedBodyState) : ReducedBodyState :=
  set_com (com_pos s) v (com_acc s) s.
Definition set_cop (v : Vector3d) (s : ReducedBodyState) : ReducedBodyState :=
  mkReducedBodyState (time s) (com_pos s) (com_vel s) (com_acc s)
    (angular_pos s) (angular_vel s) (angular_acc s) v
    (support_region s) (foot_pos s) (foot_vel s) (foot_acc s).

Definition set_duration (v : Q) (p : PreviewParams) : PreviewParams :=
  mkPreviewParams v (cop_shift p) (head_acc p) (phase p).
Definition set_cop_shift (v : Vector2d) (p : PreviewParams) : PreviewParams :=
  mkPreviewParams (duration p) v (head_acc p) (phase p).
Definition set_head_acc (v : Q) (p : PreviewParams) : PreviewParams :=
  mkPreviewParams (duration p) (cop_shift p) v (phase p).
Definition set_phase (v : PreviewPhase) (p : PreviewParams) : PreviewParams :=
  mkPreviewParams (duration p) (cop_shift p) (head_acc p) v.

Definition MSG_NO_COM_POS : string := "Error: the CoM height was not found".
Definition MSG_NO_COM_VEL : string := "Error: the CoM velocity was not found".
Definition MSG_NO_COP : string := "Error: the CoP was not found".
Definition MSG_NO_NUMBER_PHASE : string := "Error: the number_phase was not found".
Definition MSG_NO_DURATION (k : nat) : string :=
  "Error: the duration of phase_" +:+ pretty k +:+ " was not found".
Definition MSG_NO_HEAD_ACC (k : nat) : string :=
  "Error: the head_acc of phase_" +:+ pretty k +:+ " was not found".

Definition state_ns : YamlNamespace := ["preview_sequence"; "state"].
Definition control_ns : YamlNamespace := ["preview_sequence"; "preview_control"].
Definition phase_ns (k : nat) : YamlNamespace :=
  ["preview_sequence"; "preview_control"; "phase_" +:+ pretty k].

(** Reading the footstep shifts of phase [k]: the loop over [feet_names_]. *)
Definition read_foot_shift (yaml_reader : YamlWrapper) (k : nat)
    (p : PreviewParams) (name : string) : PreviewParams :=
  match read_Vector2d yaml_reader (phase_ns k) name with
  | Some foot_shift =>
      set_phase
        (setFootShift name foot_shift
           (setSwingFoot name (push_back_feet name (phase p)))) p
  | None => p
  end.

(** Reading [control.params[k]]. The second component is the message printed
    when the function returns from inside the loop. *)
Definition read_phase (yaml_reader : YamlWrapper) (e : PreviewLocomotion)
    (k : nat) (p : PreviewParams) : PreviewParams * option string :=
  (* Reading the preview duration *)
  match read_double yaml_reader (phase_ns k) "duration" with
  | None => (p, Some (MSG_NO_DURATION k))
  | Some d =>
      let p := set_duration d p in
      (* Reading the preview CoP shift *)
      let p :=
        match read_Vector2d yaml_reader (phase_ns k) "cop_shift" with
        | Some c => set_phase (setTypeOfPhase STANCE (phase p)) (set_cop_shift c p)
        | None => p
        end in
      (* Reading the preview parameters for stance phase *)
      let r :=
        if bool_decide (getTypeOfPhase (phase p) = STANCE) then
          match read_double yaml_reader (phase_ns k) "head_acc" with
          | None => (p, Some (MSG_NO_HEAD_ACC k))
          | Some h => (set_head_acc h p, None)
          end
        else (p, None) in
      match r.2 with
      | Some msg => r
      | None =>
          (* Reading the footstep shifts *)
          (foldl (read_foot_shift yaml_reader k) r.1 (feet_names_ e), None)
      end
  end.

(** The loop over the phases; it stops at the first phase that prints. *)
Fixpoint read_phases (yaml_reader : YamlWrapper) (e : PreviewLocomotion)
    (ks : list nat) (control : PreviewControl)
  : outcome (PreviewControl * list string) :=
  match ks with
  | [] => Ok (control, [])
  | k :: ks' =>
      p ← vector_get k (params control);
      let r := read_phase yaml_reader e k p in
      let control := mkPreviewControl (<[k := r.1]> (params control)) in
      match r.2 with
      | Some msg => Ok (control, [msg])
      | None => read_phases yaml_reader e ks' control
      end
  end.

(** [readPreviewSequence] is a [void] function: what the caller holds after
    the call is the state and the control it passed by reference. The third
    component is what the function printed. The description read from
    [filename] is given as [yaml_reader]; [PreviewParams_default] is a
    default-constructed [PreviewParams], whose declaration is not part of
    the sources at hand. A negative [number_phase] makes [resize] throw. *)
Definition readPreviewSequence (PreviewParams_default : PreviewParams)
    (state : ReducedBodyState) (control : PreviewControl)
    (yaml_reader : YamlWrapper) (e : PreviewLocomotion)
  : outcome (ReducedBodyState * PreviewControl * list string) :=
  (* Checking that the robot model was initialized *)
  if negb (robot_model_ e) then Ok (state, control, [MSG_NO_MODEL])
  else
    (* Reading the state *)
    match read_Vector3d yaml_reader state_ns "com_pos" with
    | None => Ok (state, control, [MSG_NO_COM_POS])
    | Some v =>
    let state := set_com_pos v state in
    match read_Vector3d yaml_reader state_ns "com_vel" with
    | None => Ok (state, control, [MSG_NO_COM_VEL])
    | Some v =>
    let state := set_com_vel v state in
    match read_Vector3d yaml_reader state_ns "cop" with
    | None => Ok (state, control, [MSG_NO_COP])
    | Some v =>
    let state := set_cop v state in
    (* Reading the number of phases *)
    match read_int yaml_reader control_ns "number_phase" with
    | None => Ok (state, control, [MSG_NO_NUMBER_PHASE])
    | Some num_phases =>
    if bool_decide (num_phases < 0) then Undefined LengthError
    else
      let control :=
        mkPreviewControl
          (resize (Z.to_nat num_phases) PreviewParams_default (params control)) in
      (* Reading the preview parameters per phase *)
      r ← read_phases yaml_reader e (seq 0 (Z.to_nat num_phases)) control;
      Ok (state, r.1, r.2)
    end end end end.

End PreviewLocomotion.

(** ** Loading a robot model

    [resetFromURDFModel] hands the robot description to the floating-base
    system, the dynamics and the kinematics, none of which is part of the
    sources at hand, and copies what they report into the engine. What they
    report for a description is given as a record. *)
Record LoadedModel : Type := mkLoadedModel {
  (** [system_.getRBDModel().gravity.norm()] *)
  model_gravity : Q;
  (** [system_.getTotalMass()] *)
  model_mass : Q;
  (** [system_.getNumberOfEndEffectors(model::FOOT)] *)
  model_num_feet : nat;
  (** [system_.getEndEffectorNames(model::FOOT)] *)
  model_feet_names : list string;
  (** [system_.getSystemCoM(rbd::Vector6d::Zero(), q0)] for the default
      posture [q0] *)
  model_com : Vector3d;
  (** [kinematics_.computeForwardKinematics(stance_posture_, ...)]: the
      content of its output argument after the call, from its content before
      the call and the names of the feet *)
  model_forward_kinematics :
    gmap string Vector3d -> list string -> gmap string Vector3d
}.

Section Loading.

Context {cart : CartTableModel} {swing : FootSplinePatternGenerator}.

(** Body of the loop that converts the stance posture to the CoM frame: the
    iterator reads the entry of the map as it is at that point, and
    [stance_posture_[name]] overwrites it. *)
Definition com_frame_step (actual_system_com_ : Vector3d)
    (stance_posture : gmap string Vector3d) (name : string)
  : gmap string Vector3d :=
  match stance_posture !! name with
  | Some stance => <[name := vsub stance actual_system_com_]> stance_posture
  | None => stance_posture
  end.

(** [resetFromURDFModel] returns the engine and [actual_system_com_], a member
    that only the whole-body conversions read. *)
Definition resetFromURDFModel (m : LoadedModel) (e : PreviewLocomotion)
  : PreviewLocomotion * Vector3d :=
  (* Getting the gravity magnitude, the total mass, the feet *)
  let gravity := model_gravity m in
  let mass := model_mass m in
  let num_feet := model_num_feet m in
  let feet_names := model_feet_names m in
  (* Getting the default position of the CoM system *)
  let actual_system_com_ := model_com m in
  (* Computing the stance posture using the default position *)
  let stance_posture :=
    model_forward_kinematics m (stance_posture_ e) feet_names in
  (* Converting to the CoM frame *)
  let stance_posture :=
    foldl (com_frame_step actual_system_com_) stance_posture
      (map_to_list stance_posture).*1 in
  (* Setting up the cart-table model *)
  let model := mkCartTableProperties mass gravity in
  (mkPreviewLocomotion true (sample_time_ e) gravity mass num_feet feet_names
     (step_height_ e) (force_threshold_ e) stance_posture (terrain_ e)
     (setModelProperties model (cart_table_ e)) (actual_state_ e)
     (phase_state_ e) (swing_params_ e) (feet_spline_generator_ e),
   actual_system_com_).

End Loading.

(** ** Whole-body trajectories

    [toWholeBodyState] writes [full_state] through the interface of
    [WholeBodyState] and calls the kinematics solvers; neither is part of the
    sources at hand. It is given as a function that, from the content of
    [full_state] before the call, the reduced state and the state of the
    solvers, gives the content of [full_state] and the state of the solvers
    after the call, when the call is defined (it reads [feet_names_[f]] for
    every [f < num_feet_]). *)
Section WholeBodyTrajectory.

Context {WholeBodyState Solvers : Type}.
Variable WholeBodyState_default : WholeBodyState.
Variable toWholeBodyState :
  WholeBodyState -> ReducedBodyState -> Solvers ->
  outcome (WholeBodyState * Solvers).

(** Body of the loop of [toWholeBodyTrajectory]; [full_state] is declared
    before the loop and passed to every call. *)
Definition whole_body_step (reduced_traj : ReducedBodyTrajectory)
    (acc : WholeBodyState * list WholeBodyState * Solvers) (k : nat)
  : outcome (WholeBodyState * list WholeBodyState * Solvers) :=
  let full_state := acc.1.1 in
  let full_traj := acc.1.2 in
  reduced_state ← vector_get k reduced_traj;
  r ← toWholeBodyState full_state reduced_state acc.2;
  full_traj ← vector_set (Z.of_nat k) r.1 full_traj;
  Ok (r.1, full_traj, r.2).

Definition toWholeBodyTrajectory (full_traj : list WholeBodyState)
    (reduced_traj : ReducedBodyTrajectory) (solvers : Solvers)
  : outcome (list WholeBodyState * Solvers) :=
  (* Getting the number of points defined in the reduced-body trajectory *)
  let traj_size := Z.to_nat (Z.of_nat (length reduced_traj) mod UINT_MOD) in
  (* Resizing the full trajectory vector *)
  let full_traj := resize traj_size WholeBodyState_default [] in
  (* Getting the full trajectory *)
  r ← foldM (whole_body_step reduced_traj) (seq 0 traj_size)
        (WholeBodyState_default, full_traj, solvers);
  Ok (r.1.2, r.2).

(** The successive conversion of a sequence of reduced states into one and
    the same whole-body state, from a default-constructed one. *)
Definition converted (reduced : list ReducedBodyState) (solvers : Solvers)
  : outcome (WholeBodyState * Solvers) :=
  foldM (fun acc reduced_state => toWholeBodyState acc.1 reduced_state acc.2)
    reduced (WholeBodyState_default, solvers).

End WholeBodyTrajectory.


(** ** A concrete engine

    A small implementation of the collaborators, used to evaluate the
    functions above on concrete inputs: a cart-table whose response moves
    the CoM at constant velocity from the cached start state, a swing
    generator that interpolates linearly, and frames that coincide. *)

Definition toy_cart : CartTableModel := {|
  Coefficients := ReducedBodyState;
  cart_init := fun _ _ state _ => state;
  cart_eval := fun _ _ cache state t =>
    match cache with
    | Some s0 =>
        set_time t
          (set_com (vadd (com_pos s0) (vmulr (com_vel s0) (t - time s0)))
             (com_vel s0) Vector3d_Zero state)
    | None => state
    end;
  cart_energy := fun props _ cache state p =>
    (vmull (ct_mass props * ctl_duration p) (com_vel state), cache)
|}.

Definition toy_swing : FootSplinePatternGenerator := {|
  Spline := Q * Vector3d * Vector3d * StepParameters;
  Spline_default := (0%Q, Vector3d_Zero, Vector3d_Zero, mkStepParameters 1 0);
  setParameters := fun _ t0 p0 p1 sp => (t0, p0, p1, sp);
  generateTrajectory := fun g t =>
    let t0 := g.1.1.1 in
    let p0 := g.1.1.2 in
    let p1 := g.1.2 in
    let d := step_duration g.2 in
    (vadd p0 (vmulr (vsub p1 p0) ((t - t0) / d)), vmulr (vsub p1 p0) (/ d),
     Vector3d_Zero)
|}.

Definition toy_frame : FrameTF := {|
  fromBaseToWorldFrame := fun v _ => v;
  fromWorldToBaseFrame := fun v _ => v
|}.

Abbreviation ToyEngine :=
  (@PreviewLocomotion toy_cart toy_swing).

(** A biped with feet LF and RF, loaded, sampling every 0.1 s, standing
    0.5 m above flat ground. *)
Definition toy_stance_posture : gmap string Vector3d :=
  <["LF" := mkVector3d (1 # 5) (1 # 10) (- (1 # 2))]>
    (<["RF" := mkVector3d (1 # 5) (- (1 # 10)) (- (1 # 2))]> ∅).

Definition toy_engine : ToyEngine :=
  mkPreviewLocomotion true (1 # 10) (981 # 100) 30 2 ["LF"; "RF"] (1 # 10) 0
    toy_stance_posture
    (mkTerrainMap false (fun _ => 0%Q))
    (mkCartTable (mkCartTableProperties 30 (981 # 100)) (1 # 2) None)
    ReducedBodyState_default ReducedBodyState_default
    (mkSwingParams 0 ∅) ∅.

(** The same engine before a robot model is loaded. *)
Definition toy_engine_unloaded : ToyEngine :=
  mkPreviewLocomotion false (1 # 10) (981 # 100) 30 2 ["LF"; "RF"] (1 # 10) 0
    toy_stance_posture
    (mkTerrainMap false (fun _ => 0%Q))
    (mkCartTable (mkCartTableProperties 30 (981 # 100)) (1 # 2) None)
    ReducedBodyState_default ReducedBodyState_default
    (mkSwingParams 0 ∅) ∅.

Definition toy_state : ReducedBodyState :=
  mkReducedBodyState 0 (mkVector3d 0 0 (1 # 2)) (mkVector3d (1 # 10) 0 0)
    Vector3d_Zero Vector3d_Zero Vector3d_Zero Vector3d_Zero Vector3d_Zero
    toy_stance_posture toy_stance_posture ∅ ∅.

Definition no_swing (t : TypeOfPhases) : PreviewPhase := mkPreviewPhase t [] ∅ ∅.
Definition swing_LF (t : TypeOfPhases) : PreviewPhase :=
  mkPreviewPhase t ["LF"] {["LF"]} (<["LF" := mkVector2d (1 # 10) 0]> ∅).

(** A stance phase of 0.5 s without swinging feet. *)
Definition stance_05 : PreviewParams :=
  mkPreviewParams (1 # 2) Vector2d_Zero 0 (no_swing STANCE).
(** A stance phase of 0.4 s in which LF swings. *)
Definition stance_04_LF : PreviewParams :=
  mkPreviewParams (2 # 5) Vector2d_Zero 0 (swing_LF STANCE).
(** A flight phase of 0.5 s. *)
Definition flight_05 : PreviewParams :=
  mkPreviewParams (1 # 2) Vector2d_Zero 0 (no_swing FLIGHT).
(** Phases as long as the sample time. *)
Definition stance_01 : PreviewParams :=
  mkPreviewParams (1 # 10) Vector2d_Zero 0 (no_swing STANCE).
Definition flight_01 : PreviewParams :=
  mkPreviewParams (1 # 10) Vector2d_Zero 0 (no_swing FLIGHT).

(** Phases shorter than the sample time. *)
Definition stance_005 : PreviewParams :=
  mkPreviewParams (1 # 20) Vector2d_Zero 0 (no_swing STANCE).
Definition flight_005 : PreviewParams :=
  mkPreviewParams (1 # 20) Vector2d_Zero 0 (no_swing FLIGHT).

(** A stance phase as long as the sample time in which LF swings. *)
Definition stance_01_LF : PreviewParams :=
  mkPreviewParams (1 # 10) Vector2d_Zero 0 (swing_LF STANCE).

(** The doubles nearest to 0.1 and to 0.3; 0.5 is a double. *)
Definition double_01 : Q := 3602879701896397 # 36028797018963968.
Definition double_03 : Q := 5404319552844595 # 18014398509481984.

(** The engine with the double 0.1 for its sample time. *)
Definition toy_engine_double : ToyEngine :=
  mkPreviewLocomotion true double_01 (981 # 100) 30 2 ["LF"; "RF"] (1 # 10) 0
    toy_stance_posture
    (mkTerrainMap false (fun _ => 0%Q))
    (mkCartTable (mkCartTableProperties 30 (981 # 100)) (1 # 2) None)
    ReducedBodyState_default ReducedBodyState_default
    (mkSwingParams 0 ∅) ∅.

(** A stance phase that lasts the double 0.3, without swinging feet. *)
Definition stance_03 : PreviewParams :=
  mkPreviewParams double_03 Vector2d_Zero 0 (no_swing STANCE).

(** The engine once a call has recorded [toy_state] as its initial state. *)
Definition toy_engine_started : ToyEngine :=
  set_actual_state_ toy_state toy_engine.

(** What the first iteration of the loop over the phases leaves, in summary
    mode, for a phase of 0.4 s in which LF swings followed by a phase of
    0.5 s: the trajectory, its last state and the engine. *)
Definition toy_two_phases : PreviewControl :=
  mkPreviewControl [stance_04_LF; stance_05].

Definition toy_first_phase : ReducedBodyTrajectory :=
  match phase_iteration (frame_tf_ := toy_frame) toy_state toy_two_phases false
          ([], toy_engine_started) 0 with
  | Ok acc => acc.1
  | Undefined _ => []
  end.

Definition toy_first_end : ReducedBodyState :=
  default toy_state (last toy_first_phase).

Definition toy_engine_first : ToyEngine :=
  match phase_iteration (frame_tf_ := toy_frame) toy_state toy_two_phases false
          ([], toy_engine_started) 0 with
  | Ok acc => acc.2
  | Undefined _ => toy_engine_started
  end.


(** A default-constructed [PreviewParams]. *)
Definition toy_default_params : PreviewParams :=
  mkPreviewParams 0 Vector2d_Zero 0 (no_swing STANCE).

(** Three descriptions with the state keys present. The first gives no
    [number_phase]; the second announces no phase; the third announces one
    phase and gives nothing for it. *)
Definition yaml_state (ns : YamlNamespace) (key : string) : option Vector3d :=
  if bool_decide (ns = state_ns) then
    if bool_decide (key = "com_pos") then Some (mkVector3d 0 0 (1 # 2))
    else if bool_decide (key = "com_vel") then Some (mkVector3d (1 # 10) 0 0)
    else if bool_decide (key = "cop") then Some Vector3d_Zero
    else None
  else None.

Definition yaml_without_number_phase : YamlWrapper :=
  mkYamlWrapper yaml_state (fun _ _ => None) (fun _ _ => None) (fun _ _ => None).

Definition yaml_zero_phases : YamlWrapper :=
  mkYamlWrapper yaml_state (fun _ _ => None) (fun _ _ => None)
    (fun ns key =>
       if bool_decide (ns = control_ns) && bool_decide (key = "number_phase")
       then Some 0 else None).

Definition yaml_phase_without_duration : YamlWrapper :=
  mkYamlWrapper yaml_state (fun _ _ => None) (fun _ _ => None)
    (fun ns key =>
       if bool_decide (ns = control_ns) && bool_decide (key = "number_phase")
       then Some 1 else None).


(** A stance phase of 0.4 s in which a foot that the engine does not know,
    LH, swings. *)
Definition stance_04_LH : PreviewParams :=
  mkPreviewParams (2 # 5) Vector2d_Zero 0
    (mkPreviewPhase STANCE ["LH"] {["LH"]} (<["LH" := mkVector2d (1 # 10) 0]> ∅)).

(** A complete description: one phase of 0.4 s that shifts LF. *)
Definition yaml_one_phase : YamlWrapper :=
  mkYamlWrapper yaml_state
    (fun ns key =>
       if bool_decide (ns = phase_ns 0) && bool_decide (key = "LF")
       then Some (mkVector2d (1 # 10) 0) else None)
    (fun ns key =>
       if bool_decide (ns = phase_ns 0) then
         if bool_decide (key = "duration") then Some (2 # 5)%Q
         else if bool_decide (key = "head_acc") then Some 0%Q
         else None
       else None)
    (fun ns key =>
       if bool_decide (ns = control_ns) && bool_decide (key = "number_phase")
       then Some 1 else None).

(** A description that announces a negative number of phases. *)
Definition yaml_negative_phases : YamlWrapper :=
  mkYamlWrapper yaml_state (fun _ _ => None) (fun _ _ => None)
    (fun ns key =>
       if bool_decide (ns = control_ns) && bool_decide (key = "number_phase")
       then Some (-1) else None).


(** What the collaborators report for the biped: the feet LF and RF, at
    0.2 m ahead of the base and 0.1 m to its sides, 0.4 m below it, the CoM
    0.1 m above the base. *)
Definition toy_model : LoadedModel :=
  mkLoadedModel (981 # 100) 30 2 ["LF"; "RF"] (mkVector3d 0 0 (1 # 10))
    (fun _ names =>
       list_to_map
         (zip names [mkVector3d (1 # 5) (1 # 10) (- (2 # 5));
                     mkVector3d (1 # 5) (- (1 # 10)) (- (2 # 5))])).

(** A whole-body state reduced to its time stamp and its contact positions,
    with the statements of [toWholeBodyState] that write them: the time is
    overwritten, the contact positions are written foot by foot. *)
Definition toy_WholeBodyState : Type := Q * gmap string Vector3d.

Definition toy_toWholeBodyState (full_state : toy_WholeBodyState)
    (reduced_state : ReducedBodyState) (solvers : unit)
  : outcome (toy_WholeBodyState * unit) :=
  Ok ((time reduced_state,
       map_fold (fun name foot_pos contact_pos =>
                   <[name := foot_pos]> contact_pos)
         full_state.2 (foot_pos reduced_state)),
      solvers).


(** The time stamps of a whole-body trajectory and its contact positions
    for one foot. *)
Definition toy_contact (name : string)
    (r : outcome (list toy_WholeBodyState * unit))
  : outcome (list (Q * option Vector3d)) :=
  match r with
  | Ok v => Ok ((fun full_state => (full_state.1, full_state.2 !! name)) <$> v.1)
  | Undefined f => Undefined f
  end.

(** ** Vocabulary of the properties *)

Section Vocabulary.

Context {cart : CartTableModel} {swing : FootSplinePatternGenerator}.

(** Foot [name] has a nominal stance posture in the engine. *)
Definition has_stance (e : PreviewLocomotion) (name : string) : Prop :=
  is_Some (stance_posture_ e !! name).

(** The contract of the cart-table response that the sampling relies on:
    evaluating the response of a state at the time that state already carries
    leaves this time stamp in place. *)
Definition response_keeps_time : Prop :=
  forall props h cache s, time (cart_eval props h cache s (time s)) = time s.

End Vocabulary.

Section SupportVocabulary.

Context {cart : CartTableModel} {swing : FootSplinePatternGenerator}
        {frame_tf_ : FrameTF}.

(** Foot [name] swung during the phase of parameters [p], and that phase
    lasted longer than the sample time: its foothold is committed. *)
Definition committed (e : PreviewLocomotion) (p : PreviewParams)
    (name : string) : bool :=
  isSwingFoot (phase p) name && Qgt_bool (duration p) (sample_time_ e).

(** The shape shared by the two loops over the feet of [multiPhasePreview]:
    drop the foot from the support region if [remove] says so, then commit its
    foothold if it swung in the phase of parameters [p]. *)
Definition update_foot (e : PreviewLocomotion) (remove : string -> bool)
    (p : PreviewParams) (actual_state : ReducedBodyState) (name : string)
  : outcome ReducedBodyState :=
  let actual_state :=
    if remove name
    then set_support_region (delete name (support_region actual_state))
           actual_state
    else actual_state in
  if isSwingFoot (phase p) name && Qgt_bool (duration p) (sample_time_ e)
  then commit_foothold e p name actual_state
  else Ok actual_state.

(** The foothold of a foot as the properties word it, from the state [s0]
    the loop works on: the CoM position plus the nominal stance offset
    [stance] and the commanded shift [shift], rotated by the orientation of
    [s0]. Its height is the height of the terrain at that point when the
    engine has a terrain map; without one it is the height of flat ground
    below the pendulum, less the drift of the CoM height since the initial
    state [actual_state_]. *)
Definition foothold_target (e : PreviewLocomotion) (shift : Vector2d)
    (stance : Vector3d) (s0 : ReducedBodyState) : Vector3d :=
  let target :=
    vadd (com_pos s0)
      (fromBaseToWorldFrame (vadd stance (mkVector3d (X2 shift) (Y2 shift) 0))
         (getRPY_W s0)) in
  mkVector3d (X target) (Y target)
    (if isTerrainInformation (terrain_ e)
     then getTerrainHeight (terrain_ e) (mkVector2d (X target) (Y target))
     else (- (getPendulumHeight (cart_table_ e) + Z3 stance)
           - (Z3 (com_pos s0) - Z3 (com_pos (actual_state_ e))))%Q).

(** The support region after such a loop over the feet [names], as a lookup
    table: the foothold for a visited foot that swung in the phase of
    parameters [p]; nothing for a visited foot that is removed and not
    committed; the entry [R0] had otherwise. [s0] is the state the footholds
    are computed from. *)
Definition support_after (e : PreviewLocomotion) (remove : string -> bool)
    (p : PreviewParams) (s0 : ReducedBodyState) (names : list string)
    (R0 : gmap string Vector3d) (name : string) : option Vector3d :=
  if decide (name ∈ names) then
    if committed e p name
    then (fun stance =>
            foothold_target e (getFootShift (phase p) name) stance s0)
           <$> stance_posture_ e !! name
    else if remove name then None else R0 !! name
  else R0 !! name.

End SupportVocabulary.

Section ConfigVocabulary.

Context {cart : CartTableModel} {swing : FootSplinePatternGenerator}.

(** The configuration of an engine: what the constructor, the setters and
    [resetFromURDFModel] fix, as opposed to the context that a preview
    mutates (the cached cart-table response, the phase state, the swing
    parameters and the generators). *)
Definition config_of (e : PreviewLocomotion) :=
  (robot_model_ e, sample_time_ e, gravity_ e, mass_ e, num_feet_ e,
   feet_names_ e, step_height_ e, force_threshold_ e, stance_posture_ e,
   terrain_ e, properties_ (cart_table_ e), height_ (cart_table_ e)).


(** What a preview keeps fixed once it has recorded the initial state: the
    configuration and [actual_state_]. *)
Definition persistent (e : PreviewLocomotion) :=
  (config_of e, actual_state_ e).

(** The feet that the loops [for (f = 0; f < num_feet_; f++)] visit. *)
Definition visited_feet (e : PreviewLocomotion) : list string :=
  take (num_feet_ e) (feet_names_ e).


End ConfigVocabulary.


(** A computation that does not end in [back()] of an empty vector. *)
Definition back_in_bounds {A : Type} (m : outcome A) : Prop :=
  m <> Undefined BackOfEmpty.


Section EnergyVocabulary.

Context {cart : CartTableModel} {swing : FootSplinePatternGenerator}.

(** The energies that the phases contribute, in order, as the spec words
    them: a STANCE phase contributes the energy that [computeSystemEnergy]
    gives for the running state and the phase parameters, a FLIGHT phase
    contributes nothing, and after each phase the running state is advanced by
    one call of [computeResponse] to the end of the phase. *)
Fixpoint stance_energies (state : ReducedBodyState) (e : PreviewLocomotion)
    (ps : list PreviewParams) : list Vector3d :=
  match ps with
  | [] => []
  | p :: ps' =>
      match type (phase p) with
      | STANCE =>
          let r := computeSystemEnergy state
                     (mkCartTableControlParams (duration p) (cop_shift p))
                     (cart_table_ e) in
          let e' := set_cart_table_ r.2 e in
          r.1 :: stance_energies
                   (computeResponse (cart_table_ e') state
                      (time state + duration p)) e' ps'
      | FLIGHT =>
          stance_energies
            (computeResponse (cart_table_ e) state (time state + duration p))
            e ps'
      end
  end.

Definition is_stance (p : PreviewParams) : bool :=
  bool_decide (type (phase p) = STANCE).

End EnergyVocabulary.

(** The phase [control.params[k]] once its duration [d] and, if present, its
    CoP shift have been read: the point at which [head_acc] is looked up. *)
Definition phase_header (yaml_reader : YamlWrapper) (k : nat) (d : Q)
    (p : PreviewParams) : PreviewParams :=
  match read_Vector2d yaml_reader (phase_ns k) "cop_shift" with
  | Some c =>
      set_phase (setTypeOfPhase STANCE (phase (set_duration d p)))
        (set_cop_shift c (set_duration d p))
  | None => set_duration d p
  end.


(** Two computations agree up to [R]: both are defined with results related
    by [R], or both are undefined for the same reason. *)
Definition agree {A B : Type} (R : A -> B -> Prop)
    (m1 : outcome A) (m2 : outcome B) : Prop :=
  match m1, m2 with
  | Ok a, Ok b => R a b
  | Undefined f1, Undefined f2 => f1 = f2
  | _, _ => False
  end.


Section AgreementVocabulary.

Context {cart : CartTableModel} {swing : FootSplinePatternGenerator}.


End AgreementVocabulary.


(** A vector with its coordinates in lowest terms. *)
Definition vred (v : Vector3d) : Vector3d :=
  mkVector3d (Qred (X v)) (Qred (Y v)) (Qred (Z3 v)).

Section ObservationVocabulary.

Context {cart : CartTableModel} {swing : FootSplinePatternGenerator}.

(** The time stamps of the samples that a phase preview returns. *)
Definition sample_times
    (r : outcome (ReducedBodyTrajectory * PreviewLocomotion))
  : outcome (list Q) :=
  match r with
  | Ok v => Ok (time <$> v.1)
  | Undefined f => Undefined f
  end.

(** The time stamps of the output trajectory of [multiPhasePreview]. *)
Definition preview_times
    (r : outcome (ReducedBodyTrajectory * PreviewLocomotion * list string))
  : outcome (list Q) :=
  match r with
  | Ok v => Ok (time <$> v.1.1)
  | Undefined f => Undefined f
  end.

(** The output trajectory of [multiPhasePreview] and what it printed. *)
Definition preview_result
    (r : outcome (ReducedBodyTrajectory * PreviewLocomotion * list string))
  : outcome (ReducedBodyTrajectory * list string) :=
  match r with
  | Ok v => Ok (v.1.1, v.2)
  | Undefined f => Undefined f
  end.

(** The time stamps of the samples that a phase preview returns, in lowest
    terms. *)
Definition reduced_sample_times
    (r : outcome (ReducedBodyTrajectory * PreviewLocomotion))
  : outcome (list Q) :=
  match r with
  | Ok v => Ok ((fun s => Qred (time s)) <$> v.1)
  | Undefined f => Undefined f
  end.

(** The number of samples that a phase preview returns, and the number of
    states in the output trajectory of [multiPhasePreview]. *)
Definition sample_count
    (r : outcome (ReducedBodyTrajectory * PreviewLocomotion))
  : outcome nat :=
  match r with
  | Ok v => Ok (length v.1)
  | Undefined f => Undefined f
  end.

Definition preview_length
    (r : outcome (ReducedBodyTrajectory * PreviewLocomotion * list string))
  : outcome nat :=
  match r with
  | Ok v => Ok (length v.1.1)
  | Undefined f => Undefined f
  end.

(** The time stamps of the output trajectory of [multiPhasePreview] with,
    for each state, the entry of foot [name] in its support region, all in
    lowest terms. *)
Definition preview_support (name : string)
    (r : outcome (ReducedBodyTrajectory * PreviewLocomotion * list string))
  : outcome (list (Q * option Vector3d)) :=
  match r with
  | Ok v =>
      Ok ((fun s => (Qred (time s), vred <$> support_region s !! name))
            <$> v.1.1)
  | Undefined f => Undefined f
  end.

End ObservationVocabulary.

Definition is_Ok_bool {A : Type} (m : outcome A) : bool :=
  match m with
  | Ok _ => true
  | Undefined _ => false
  end.


(** ** Vocabulary of the further properties *)

Section FurtherVocabulary.

Context {cart : CartTableModel} {swing : FootSplinePatternGenerator}.

(** A second contract of the cart-table response: it leaves the support
    region of the state it writes as it is (the source keeps one
    [current_state] per phase on this ground: "the support region remains
    constant during this phase"). *)
Definition response_keeps_support : Prop :=
  forall props h cache s t,
    support_region (cart_eval props h cache s t) = support_region s.

(** The times at which the phases of a control sequence end, from the time
    [t0] at which the first one starts. *)
Fixpoint phase_end_times (t0 : Q) (ps : list PreviewParams) : list Q :=
  match ps with
  | [] => []
  | p :: ps' => (t0 + duration p)%Q :: phase_end_times (t0 + duration p) ps'
  end.

Definition end_time (t0 : Q) (ps : list PreviewParams) : Q :=
  foldl (fun t p => (t + duration p)%Q) t0 ps.

(** The duration of a phase can be sampled by the engine: it is not
    negative and its number of samples, plus one, fits an [unsigned int]. *)
Definition samplable (e : PreviewLocomotion) (p : PreviewParams) : Prop :=
  (0 <= duration p)%Q /\ Qfloor (double_div (duration p) (sample_time_ e)) + 1 < UINT_MOD.

(** The state that [flightPreview] builds for the time offset [t] of a
    sample, before any swing generation: a fresh state with the time stamp
    and the CoM of the projectile equations. *)
Definition flight_state (e : PreviewLocomotion) (state : ReducedBodyState)
    (t : Q) : ReducedBodyState :=
  let gravity_vec := set_Z Vector3d_Zero (- gravity_ e) in
  set_com
    (vadd (vadd (com_pos state) (vmulr (com_vel state) t))
       (vmulr (vmulr (vmull (1 # 2) gravity_vec) t) t))
    (vadd (com_vel state) (vmulr gravity_vec t))
    gravity_vec
    (set_time (time state + t) ReducedBodyState_default).


(** The feet of the engine for which phase [k] of a description gives a
    footstep shift, in the order of [feet_names_]. *)
Definition shifted_feet (yaml_reader : YamlWrapper) (e : PreviewLocomotion)
    (k : nat) : list string :=
  filter (fun name => is_Some (read_Vector2d yaml_reader (phase_ns k) name))
    (feet_names_ e).

(** Phase [k] of a description has the keys that are required whatever its
    type. *)
Definition phase_complete (yaml_reader : YamlWrapper) (k : nat) : Prop :=
  is_Some (read_double yaml_reader (phase_ns k) "duration") /\
  is_Some (read_double yaml_reader (phase_ns k) "head_acc").

(** The state keys of a description are all present. *)
Definition state_complete (yaml_reader : YamlWrapper) : Prop :=
  is_Some (read_Vector3d yaml_reader state_ns "com_pos") /\
  is_Some (read_Vector3d yaml_reader state_ns "com_vel") /\
  is_Some (read_Vector3d yaml_reader state_ns "cop").


(** The number of samples that a phase contributes to a preview in full
    mode: none below the sample time and, from it on, one more than the
    integer part of [duration / sample_time], the quotient of the two doubles
    as the machine rounds it. *)
Definition phase_samples (e : PreviewLocomotion) (p : PreviewParams) : nat :=
  if Qlt_bool (duration p) (sample_time_ e) then 0%nat
  else S (Z.to_nat (Qfloor (double_div (duration p) (sample_time_ e)))).

(** A phase that a preview in full mode can sample: it is shorter than the
    sample time, or it is a STANCE phase whose number of samples fits an
    [unsigned int] and whose feet have a stance posture. *)
Definition full_samplable (e : PreviewLocomotion) (p : PreviewParams) : Prop :=
  (duration p < sample_time_ e)%Q \/
  (type (phase p) = STANCE /\
   Qfloor (double_div (duration p) (sample_time_ e)) + 1 < UINT_MOD /\
   Forall (has_stance e) (feet (phase p))).

(** The number of states in the trajectory after the phases [ps] of a
    preview in full mode: the samples of the phases, the first phase
    counting for one state at least. *)
Definition full_preview_length (e : PreviewLocomotion)
    (ps : list PreviewParams) : nat :=
  match ps with
  | [] => 0%nat
  | p :: ps' =>
      (Nat.max 1 (phase_samples e p) + sum_list (phase_samples e <$> ps'))%nat
  end.

End FurtherVocabulary.


Section SwingVocabulary.

Context {cart : CartTableModel} {swing : FootSplinePatternGenerator}
        {frame_tf_ : FrameTF}.

(** Two reduced states that differ in their foot entries at most. *)
Definition same_body (s1 s2 : ReducedBodyState) : Prop :=
  time s1 = time s2 /\ com_pos s1 = com_pos s2 /\ com_vel s1 = com_vel s2 /\
  com_acc s1 = com_acc s2 /\ angular_pos s1 = angular_pos s2 /\
  angular_vel s1 = angular_vel s2 /\ angular_acc s1 = angular_acc s2 /\
  cop s1 = cop s2 /\ support_region s1 = support_region s2.

(** Position, velocity and acceleration that [generateSwing] gives foot
    [name], whose position at the start of the phase is [actual_pos]: the
    value of its generator if the foot swings, else the stance position seen
    from the displaced CoM frame. *)
Definition swing_foot_state (e : PreviewLocomotion) (state : ReducedBodyState)
    (t : Q) (name : string) (actual_pos : Vector3d)
  : Vector3d * Vector3d * Vector3d :=
  match swing_feet_shift (swing_params_ e) !! name with
  | Some _ =>
      generateTrajectory
        (default Spline_default (feet_spline_generator_ e !! name)) t
  | None =>
      let com_disp := vsub (com_pos state) (com_pos (phase_state_ e)) in
      (vsub actual_pos (fromWorldToBaseFrame com_disp (getRPY_W state)),
       fromWorldToBaseFrame (vneg (com_vel state)) (getRPY_W state),
       fromWorldToBaseFrame (vneg (com_acc state)) (getRPY_W state))
  end.

(** The three foot entries of a state for one foot. *)
Definition foot_entry (s : ReducedBodyState) (name : string)
  : option Vector3d * option Vector3d * option Vector3d :=
  (foot_pos s !! name, foot_vel s !! name, foot_acc s !! name).

End SwingVocabulary.


(** * Floating-base system (dwl/model/FloatingBaseSystem.cpp)

    The class keeps the books of the joints of a robot: the six coordinates
    of its floating base, its actuated joints and its end-effectors, and
    converts between the pair (base state, joint state) and the generalized
    state of the rigid-body dynamics library. *)

(** ** Outcomes of a call

    Besides returning, a function of this class may fail an [assert], call
    [exit] after printing, or run into undefined behaviour. *)
Inductive Stop : Type :=
| AssertionFailure            (* assert(...) does not hold *)
| ExitFailure                 (* exit(EXIT_FAILURE), after printing *)
| Indeterminate               (* use of a variable that was never written *)
| UndefinedBehaviour (f : Fault).

Inductive run (A : Type) : Type :=
| Return (a : A)
| Stopped (s : Stop).
Arguments Return {A} a.
Arguments Stopped {A} s.

#[global] Instance run_ret : MRet run := fun A a => Return a.
#[global] Instance run_bind : MBind run := fun A B k m =>
  match m with
  | Return a => k a
  | Stopped s => Stopped s
  end.

(** A [for] loop whose body may stop. *)
Fixpoint run_foldM {A B : Type} (f : B -> A -> run B) (l : list A) (b : B)
  : run B :=
  match l with
  | [] => Return b
  | a :: l' => b' ← f b a; run_foldM f l' b'
  end.

(** ** Scalars and vectors *)

(** Conversion of a container size to [unsigned int], and the difference of
    two [unsigned int]. *)
Definition to_unsigned (n : Z) : Z := n mod UINT_MOD.
Definition usub (a b : Z) : Z := (a - b) mod UINT_MOD.

(** [printf("%i", id)] reads the [unsigned int] as an [int]. *)
Definition to_int (n : Z) : Z :=
  if bool_decide (n < 2147483648) then n else n - UINT_MOD.

(** [Eigen::VectorXd]. An access out of range fails Eigen's own assertion,
    or is undefined without it. *)
Abbreviation VectorXd := (list Q).

(** [v(i)] *)
Definition coeff (v : VectorXd) (i : Z) : run Q :=
  if bool_decide (0 <= i) then
    match v !! Z.to_nat i with
    | Some x => Return x
    | None => Stopped (UndefinedBehaviour OutOfBounds)
    end
  else Stopped (UndefinedBehaviour OutOfBounds).

(** [v(i) = x] *)
Definition set_coeff (i : Z) (x : Q) (v : VectorXd) : run VectorXd :=
  if bool_decide (0 <= i < Z.of_nat (length v))
  then Return (<[Z.to_nat i := x]> v)
  else Stopped (UndefinedBehaviour OutOfBounds).

(** [v.segment(i, n)] and [v.segment<n>(i)], read *)
Definition segment (i n : Z) (v : VectorXd) : run VectorXd :=
  if bool_decide (0 <= i /\ 0 <= n /\ i + n <= Z.of_nat (length v))
  then Return (take (Z.to_nat n) (drop (Z.to_nat i) v))
  else Stopped (UndefinedBehaviour OutOfBounds).

(** [v.segment(i, n) = x] *)
Definition set_segment (i n : Z) (x : VectorXd) (v : VectorXd) : run VectorXd :=
  if bool_decide (0 <= i /\ 0 <= n /\ i + n <= Z.of_nat (length v)) then
    if bool_decide (Z.of_nat (length x) = n)
    then Return (take (Z.to_nat i) v ++ x ++ drop (Z.to_nat (i + n)) v)
    else Stopped (UndefinedBehaviour OutOfBounds)
  else Stopped (UndefinedBehaviour OutOfBounds).

(** [q << a, b, ...;] on a vector of [size] coefficients: the comma
    initializer takes exactly [size] coefficients. *)
Definition comma_init (size : Z) (coefficients : list Q) : run VectorXd :=
  if bool_decide (Z.of_nat (length coefficients) = size)
  then Return coefficients
  else Stopped (UndefinedBehaviour OutOfBounds).

(** Enumerators of [rbd::Coords6d] with their values. The header that
    declares them is not part of the sources at hand; the values are those
    the source relies on when it casts the indices 0 to 5 to [rbd::Coords6d],
    returns an enumerator as an [unsigned int] and takes the segments of
    three coefficients that start at [rbd::AX] and at [rbd::LX]. *)
Definition rbd_AX : Z := 0.
Definition rbd_AY : Z := 1.
Definition rbd_AZ : Z := 2.
Definition rbd_LX : Z := 3.
Definition rbd_LY : Z := 4.
Definition rbd_LZ : Z := 5.

(** [rbd::Vector6d], a base state: its coefficients by enumerator. *)
Record Vector6d : Type := mkVector6d {
  at_AX : Q; at_AY : Q; at_AZ : Q; at_LX : Q; at_LY : Q; at_LZ : Q
}.

Definition Vector6d_Zero : Vector6d := mkVector6d 0 0 0 0 0 0.

(** [rbd::angularPart] and [rbd::linearPart] (declared with the
    enumerators): the three coefficients from [rbd::AX] and from [rbd::LX]. *)
Definition angularPart (v : Vector6d) : list Q := [at_AX v; at_AY v; at_AZ v].
Definition linearPart (v : Vector6d) : list Q := [at_LX v; at_LY v; at_LZ v].

(** [v << a, b;] on a [rbd::Vector6d] *)
Definition comma_init6 (coefficients : list Q) : run Vector6d :=
  match coefficients with
  | [c0; c1; c2; c3; c4; c5] => Return (mkVector6d c0 c1 c2 c3 c4 c5)
  | _ => Stopped (UndefinedBehaviour OutOfBounds)
  end.

(** [v(c) = x] on a [rbd::Vector6d] *)
Definition set_coeff6 (c : Z) (x : Q) (v : Vector6d) : run Vector6d :=
  if bool_decide (c = rbd_AX) then
    Return (mkVector6d x (at_AY v) (at_AZ v) (at_LX v) (at_LY v) (at_LZ v))
  else if bool_decide (c = rbd_AY) then
    Return (mkVector6d (at_AX v) x (at_AZ v) (at_LX v) (at_LY v) (at_LZ v))
  else if bool_decide (c = rbd_AZ) then
    Return (mkVector6d (at_AX v) (at_AY v) x (at_LX v) (at_LY v) (at_LZ v))
  else if bool_decide (c = rbd_LX) then
    Return (mkVector6d (at_AX v) (at_AY v) (at_AZ v) x (at_LY v) (at_LZ v))
  else if bool_decide (c = rbd_LY) then
    Return (mkVector6d (at_AX v) (at_AY v) (at_AZ v) (at_LX v) x (at_LZ v))
  else if bool_decide (c = rbd_LZ) then
    Return (mkVector6d (at_AX v) (at_AY v) (at_AZ v) (at_LX v) (at_LY v) x)
  else Stopped (UndefinedBehaviour OutOfBounds).

(** ** Joints *)

(** A coordinate of the floating base. The two constructors of the struct
    (declared elsewhere) leave [constrained] false; the first one leaves the
    identifier at zero and the name empty. *)
Record FloatingBaseJoint : Type := mkFloatingBaseJoint {
  active : bool;
  constrained : bool;
  joint_id : Z;
  joint_name : string
}.

Definition FloatingBaseJoint_of (_active : bool) : FloatingBaseJoint :=
  mkFloatingBaseJoint _active false 0 "".
Definition FloatingBaseJoint_new (_active : bool) (_id : Z) (_name : string)
  : FloatingBaseJoint :=
  mkFloatingBaseJoint _active false _id _name.

Definition with_id (v : Z) (j : FloatingBaseJoint) : FloatingBaseJoint :=
  mkFloatingBaseJoint (active j) (constrained j) v (joint_name j).
Definition with_constrained (v : bool) (j : FloatingBaseJoint)
  : FloatingBaseJoint :=
  mkFloatingBaseJoint (active j) v (joint_id j) (joint_name j).

(** An actuated joint. *)
Record Joint : Type := mkJoint {
  actuated_id : Z;
  actuated_name : string
}.

Inductive TypeOfSystem : Type :=
| FixedBase | FloatingBase | ConstrainedFloatingBase | VirtualFloatingBase.

#[global] Instance TypeOfSystem_eq_dec : EqDecision TypeOfSystem.
Proof. solve_decision. Defined.

(** What the functions of this class read of the model of the rigid-body
    dynamics library: the identifier of a body, whether it is a fixed body,
    the movable parent of each fixed body, the index in the generalized
    state of each joint and the parent [lambda] of each body. *)
Record RBDModel : Type := mkRBDModel {
  GetBodyId : string -> Z;
  IsFixedBodyId : Z -> bool;
  fixed_body_discriminator : Z;
  mFixedBodies : list Z;
  mJoints : list Z;
  lambda : list Z
}.

Record FloatingBaseSystem : Type := mkFloatingBaseSystem {
  num_system_joints : Z;
  num_floating_joints : Z;
  num_joints : Z;
  AX : FloatingBaseJoint;
  AY : FloatingBaseJoint;
  AZ : FloatingBaseJoint;
  LX : FloatingBaseJoint;
  LY : FloatingBaseJoint;
  LZ : FloatingBaseJoint;
  type_of_system : TypeOfSystem;
  num_end_effectors : Z;
  joints : gmap string Z;
  joint_names_ : list string;
  end_effectors : gmap string Z;
  end_effector_names_ : list string;
  rbd_model : RBDModel
}.

Definition set_num_system_joints (v : Z) (s : FloatingBaseSystem)
  : FloatingBaseSystem :=
  mkFloatingBaseSystem v (num_floating_joints s) (num_joints s)
    (AX s) (AY s) (AZ s) (LX s) (LY s) (LZ s) (type_of_system s)
    (num_end_effectors s) (joints s) (joint_names_ s) (end_effectors s)
    (end_effector_names_ s) (rbd_model s).
Definition set_num_floating_joints (v : Z) (s : FloatingBaseSystem)
  : FloatingBaseSystem :=
  mkFloatingBaseSystem (num_system_joints s) v (num_joints s)
    (AX s) (AY s) (AZ s) (LX s) (LY s) (LZ s) (type_of_system s)
    (num_end_effectors s) (joints s) (joint_names_ s) (end_effectors s)
    (end_effector_names_ s) (rbd_model s).
Definition set_num_joints (v : Z) (s : FloatingBaseSystem)
  : FloatingBaseSystem :=
  mkFloatingBaseSystem (num_system_joints s) (num_floating_joints s) v
    (AX s) (AY s) (AZ s) (LX s) (LY s) (LZ s) (type_of_system s)
    (num_end_effectors s) (joints s) (joint_names_ s) (end_effectors s)
    (end_effector_names_ s) (rbd_model s).
Definition set_AX (v : FloatingBaseJoint) (s : FloatingBaseSystem)
  : FloatingBaseSystem :=
  mkFloatingBaseSystem (num_system_joints s) (num_floating_joints s)
    (num_joints s) v (AY s) (AZ s) (LX s) (LY s) (LZ s) (type_of_system s)
    (num_end_effectors s) (joints s) (joint_names_ s) (end_effectors s)
    (end_effector_names_ s) (rbd_model s).
Definition set_AY (v : FloatingBaseJoint) (s : FloatingBaseSystem)
  : FloatingBaseSystem :=
  mkFloatingBaseSystem (num_system_joints s) (num_floating_joints s)
    (num_joints s) (AX s) v (AZ s) (LX s) (LY s) (LZ s) (type_of_system s)
    (num_end_effectors s) (joints s) (joint_names_ s) (end_effectors s)
    (end_effector_names_ s) (rbd_model s).
Definition set_AZ (v : FloatingBaseJoint) (s : FloatingBaseSystem)
  : FloatingBaseSystem :=
  mkFloatingBaseSystem (num_system_joints s) (num_floating_joints s)
    (num_joints s) (AX s) (AY s) v (LX s) (LY s) (LZ s) (type_of_system s)
    (num_end_effectors s) (joints s) (joint_names_ s) (end_effectors s)
    (end_effector_names_ s) (rbd_model s).
Definition set_LX (v : FloatingBaseJoint) (s : FloatingBaseSystem)
  : FloatingBaseSystem :=
  mkFloatingBaseSystem (num_system_joints s) (num_floating_joints s)
    (num_joints s) (AX s) (AY s) (AZ s) v (LY s) (LZ s) (type_of_system s)
    (num_end_effectors s) (joints s) (joint_names_ s) (end_effectors s)
    (end_effector_names_ s) (rbd_model s).
Definition set_LY (v : FloatingBaseJoint) (s : FloatingBaseSystem)
  : FloatingBaseSystem :=
  mkFloatingBaseSystem (num_system_joints s) (num_floating_joints s)
    (num_joints s) (AX s) (AY s) (AZ s) (LX s) v (LZ s) (type_of_system s)
    (num_end_effectors s) (joints s) (joint_names_ s) (end_effectors s)
    (end_effector_names_ s) (rbd_model s).
Definition set_LZ (v : FloatingBaseJoint) (s : FloatingBaseSystem)
  : FloatingBaseSystem :=
  mkFloatingBaseSystem (num_system_joints s) (num_floating_joints s)
    (num_joints s) (AX s) (AY s) (AZ s) (LX s) (LY s) v (type_of_system s)
    (num_end_effectors s) (joints s) (joint_names_ s) (end_effectors s)
    (end_effector_names_ s) (rbd_model s).
Definition set_type_of_system (v : TypeOfSystem) (s : FloatingBaseSystem)
  : FloatingBaseSystem :=
  mkFloatingBaseSystem (num_system_joints s) (num_floating_joints s)
    (num_joints s) (AX s) (AY s) (AZ s) (LX s) (LY s) (LZ s) v
    (num_end_effectors s) (joints s) (joint_names_ s) (end_effectors s)
    (end_effector_names_ s) (rbd_model s).
Definition set_num_end_effectors (v : Z) (s : FloatingBaseSystem)
  : FloatingBaseSystem :=
  mkFloatingBaseSystem (num_system_joints s) (num_floating_joints s)
    (num_joints s) (AX s) (AY s) (AZ s) (LX s) (LY s) (LZ s) (type_of_system s)
    v (joints s) (joint_names_ s) (end_effectors s)
    (end_effector_names_ s) (rbd_model s).
Definition set_joints (v : gmap string Z) (s : FloatingBaseSystem)
  : FloatingBaseSystem :=
  mkFloatingBaseSystem (num_system_joints s) (num_floating_joints s)
    (num_joints s) (AX s) (AY s) (AZ s) (LX s) (LY s) (LZ s) (type_of_system s)
    (num_end_effectors s) v (joint_names_ s) (end_effectors s)
    (end_effector_names_ s) (rbd_model s).
Definition set_joint_names_ (v : list string) (s : FloatingBaseSystem)
  : FloatingBaseSystem :=
  mkFloatingBaseSystem (num_system_joints s) (num_floating_joints s)
    (num_joints s) (AX s) (AY s) (AZ s) (LX s) (LY s) (LZ s) (type_of_system s)
    (num_end_effectors s) (joints s) v (end_effectors s)
    (end_effector_names_ s) (rbd_model s).
Definition set_end_effectors (v : gmap string Z) (s : FloatingBaseSystem)
  : FloatingBaseSystem :=
  mkFloatingBaseSystem (num_system_joints s) (num_floating_joints s)
    (num_joints s) (AX s) (AY s) (AZ s) (LX s) (LY s) (LZ s) (type_of_system s)
    (num_end_effectors s) (joints s) (joint_names_ s) v
    (end_effector_names_ s) (rbd_model s).
Definition set_end_effector_names_ (v : list string) (s : FloatingBaseSystem)
  : FloatingBaseSystem :=
  mkFloatingBaseSystem (num_system_joints s) (num_floating_joints s)
    (num_joints s) (AX s) (AY s) (AZ s) (LX s) (LY s) (LZ s) (type_of_system s)
    (num_end_effectors s) (joints s) (joint_names_ s) (end_effectors s)
    v (rbd_model s).
Definition set_rbd_model (v : RBDModel) (s : FloatingBaseSystem)
  : FloatingBaseSystem :=
  mkFloatingBaseSystem (num_system_joints s) (num_floating_joints s)
    (num_joints s) (AX s) (AY s) (AZ s) (LX s) (LY s) (LZ s) (type_of_system s)
    (num_end_effectors s) (joints s) (joint_names_ s) (end_effectors s)
    (end_effector_names_ s) v.

(** The constructor; [rbd_model] is default-constructed. *)
Definition FloatingBaseSystem_new (full : bool) (_num_joints : Z)
    (RBDModel_default : RBDModel) : FloatingBaseSystem :=
  mkFloatingBaseSystem 0 (6 * (if full then 1 else 0)) _num_joints
    (FloatingBaseJoint_of full) (FloatingBaseJoint_of full)
    (FloatingBaseJoint_of full) (FloatingBaseJoint_of full)
    (FloatingBaseJoint_of full) (FloatingBaseJoint_of full)
    FixedBase 0 ∅ [] ∅ [] RBDModel_default.

(** ** Setters and getters *)

(** [setFloatingBaseJoint(joint)]: a joint with the six coordinates. *)
Definition setFloatingBaseJoint (joint : FloatingBaseJoint)
    (s : FloatingBaseSystem) : FloatingBaseSystem :=
  let new_joint := joint in
  let s := set_AX (with_id rbd_AX new_joint) s in
  let s := set_AY (with_id rbd_AY new_joint) s in
  let s := set_AZ (with_id rbd_AZ new_joint) s in
  let s := set_LX (with_id rbd_LX new_joint) s in
  let s := set_LY (with_id rbd_LY new_joint) s in
  set_LZ (with_id rbd_LZ new_joint) s.

(** [setFloatingBaseJoint(joint, joint_coord)]; [joint_coord] is the value
    that the [rbd::Coords6d] holds, which after a cast need not be that of an
    enumerator. *)
Definition setFloatingBaseJoint_coord (joint : FloatingBaseJoint)
    (joint_coord : Z) (s : FloatingBaseSystem) : FloatingBaseSystem :=
  if bool_decide (joint_coord = rbd_AX) then set_AX joint s
  else if bool_decide (joint_coord = rbd_AY) then set_AY joint s
  else if bool_decide (joint_coord = rbd_AZ) then set_AZ joint s
  else if bool_decide (joint_coord = rbd_LX) then set_LX joint s
  else if bool_decide (joint_coord = rbd_LY) then set_LY joint s
  else set_LZ joint s.

Definition setJoint (joint : Joint) (s : FloatingBaseSystem)
  : FloatingBaseSystem :=
  set_joints (<[actuated_name joint := actuated_id joint]> (joints s)) s.

Definition setFloatingBaseConstraint (joint_id : Z) (s : FloatingBaseSystem)
  : FloatingBaseSystem :=
  if bool_decide (joint_id = rbd_AX) then set_AX (with_constrained true (AX s)) s
  else if bool_decide (joint_id = rbd_AY) then
    set_AY (with_constrained true (AY s)) s
  else if bool_decide (joint_id = rbd_AZ) then
    set_AZ (with_constrained true (AZ s)) s
  else if bool_decide (joint_id = rbd_LX) then
    set_LX (with_constrained true (LX s)) s
  else if bool_decide (joint_id = rbd_LY) then
    set_LY (with_constrained true (LY s)) s
  else set_LZ (with_constrained true (LZ s)) s.

Definition setTypeOfDynamicSystem (_type_of_system : TypeOfSystem) :=
  set_type_of_system _type_of_system.
Definition setJointDoF (_num_joints : Z) := set_num_joints _num_joints.

Definition getSystemDoF (s : FloatingBaseSystem) : Z := num_system_joints s.
Definition getFloatingBaseDoF (s : FloatingBaseSystem) : Z :=
  num_floating_joints s.
Definition getJointDoF (s : FloatingBaseSystem) : Z := num_joints s.

Definition getFloatingBaseJoint (joint : Z) (s : FloatingBaseSystem)
  : FloatingBaseJoint :=
  if bool_decide (joint = rbd_AX) then AX s
  else if bool_decide (joint = rbd_AY) then AY s
  else if bool_decide (joint = rbd_AZ) then AZ s
  else if bool_decide (joint = rbd_LX) then LX s
  else if bool_decide (joint = rbd_LY) then LY s
  else LZ s.

Definition MSG_NOT_FLOATING (id : Z) : string :=
  "ERROR: the " +:+ pretty (to_int id)
    +:+ " id doesn't bellow to floating-base joint".

(** [getFloatingBaseJointCoordinate] returns a coordinate and prints. *)
Definition getFloatingBaseJointCoordinate (id : Z) (s : FloatingBaseSystem)
  : Z * list string :=
  if active (AX s) && bool_decide (joint_id (AX s) = id) then (rbd_AX, [])
  else if active (AY s) && bool_decide (joint_id (AY s) = id) then (rbd_AY, [])
  else if active (AZ s) && bool_decide (joint_id (AZ s) = id) then (rbd_AZ, [])
  else if active (LX s) && bool_decide (joint_id (LX s) = id) then (rbd_LX, [])
  else if active (LY s) && bool_decide (joint_id (LY s) = id) then (rbd_LY, [])
  else if active (LZ s) && bool_decide (joint_id (LZ s) = id) then (rbd_LZ, [])
  else (0, [MSG_NOT_FLOATING id]).

Definition getJoints (s : FloatingBaseSystem) : gmap string Z := joints s.
Definition getJointNames (s : FloatingBaseSystem) : list string :=
  joint_names_ s.
Definition getTypeOfDynamicSystem (s : FloatingBaseSystem) : TypeOfSystem :=
  type_of_system s.
Definition getNumberOfEndEffectors (s : FloatingBaseSystem) : Z :=
  num_end_effectors s.
Definition getEndEffectors (s : FloatingBaseSystem) : gmap string Z :=
  end_effectors s.
Definition getEndEffectorNames (s : FloatingBaseSystem) : list string :=
  end_effector_names_ s.

Definition isFullyFloatingBase (s : FloatingBaseSystem) : bool :=
  active (AX s) && active (AY s) && active (AZ s)
  && active (LX s) && active (LY s) && active (LZ s).

Definition isVirtualFloatingBaseRobot (s : FloatingBaseSystem) : bool :=
  bool_decide (type_of_system s = VirtualFloatingBase).
Definition isConstrainedFloatingBaseRobot (s : FloatingBaseSystem) : bool :=
  bool_decide (type_of_system s = ConstrainedFloatingBase).

Definition hasFloatingBaseConstraints (s : FloatingBaseSystem) : bool :=
  constrained (AX s) || constrained (AY s) || constrained (AZ s)
  || constrained (LX s) || constrained (LY s) || constrained (LZ s).

(** ** Generalized joint state *)

(** [if (J.active) virtual_base(J.id) = x;] *)
Definition set_virtual (joint : FloatingBaseJoint) (x : Q)
    (virtual_base : VectorXd) : run VectorXd :=
  if active joint then set_coeff (joint_id joint) x virtual_base
  else Return virtual_base.

(** [toGeneralizedJointState]. The vector [virtual_base] is declared with a
    size and no value; [uninitialized] gives the coefficients it holds
    then. *)
Definition toGeneralizedJointState (uninitialized : list Q)
    (base_state : Vector6d) (joint_state : VectorXd) (s : FloatingBaseSystem)
  : run VectorXd :=
  (* Getting the number of joints *)
  if negb (bool_decide (Z.of_nat (length joint_state) = getJointDoF s))
  then Stopped AssertionFailure
  else
    (* Note that RBDL defines the floating base state as
       [linear states, angular states] *)
    if bool_decide (getTypeOfDynamicSystem s = FloatingBase)
       || bool_decide (getTypeOfDynamicSystem s = ConstrainedFloatingBase)
    then
      let _base_state := base_state in
      comma_init (uadd 6 (getJointDoF s))
        (linearPart _base_state ++ angularPart _base_state ++ joint_state)
    else if bool_decide (getTypeOfDynamicSystem s = VirtualFloatingBase) then
      let base_dof := getFloatingBaseDoF s in
      let virtual_base := resize (Z.to_nat base_dof) 0%Q uninitialized in
      virtual_base ← set_virtual (AX s) (at_AX base_state) virtual_base;
      virtual_base ← set_virtual (AY s) (at_AY base_state) virtual_base;
      virtual_base ← set_virtual (AZ s) (at_AZ base_state) virtual_base;
      virtual_base ← set_virtual (LX s) (at_LX base_state) virtual_base;
      virtual_base ← set_virtual (LY s) (at_LY base_state) virtual_base;
      virtual_base ← set_virtual (LZ s) (at_LZ base_state) virtual_base;
      comma_init (uadd base_dof (getJointDoF s)) (virtual_base ++ joint_state)
    else Return joint_state.

(** Body of the loop over the six coordinates of
    [fromGeneralizedJointState]. *)
Definition from_virtual_step (generalized_state : VectorXd)
    (s : FloatingBaseSystem) (base_state : Vector6d) (base_idx : Z)
  : run Vector6d :=
  let base_coord := base_idx in
  let joint := getFloatingBaseJoint base_coord s in
  if active joint then
    x ← coeff generalized_state (joint_id joint);
    set_coeff6 base_coord x base_state
  else Return base_state.

(** [fromGeneralizedJointState] returns the base state and the joint state
    that the caller passed by reference. *)
Definition fromGeneralizedJointState (base_state : Vector6d)
    (joint_state : VectorXd) (generalized_state : VectorXd)
    (s : FloatingBaseSystem) : run (Vector6d * VectorXd) :=
  if bool_decide (getTypeOfDynamicSystem s = FloatingBase)
     || bool_decide (getTypeOfDynamicSystem s = ConstrainedFloatingBase)
  then
    linear ← segment rbd_LX 3 generalized_state;
    angular ← segment rbd_AX 3 generalized_state;
    base_state ← comma_init6 (linear ++ angular);
    joint_state ← segment 6 (getJointDoF s) generalized_state;
    Return (base_state, joint_state)
  else if bool_decide (getTypeOfDynamicSystem s = VirtualFloatingBase) then
    base_state ← run_foldM (from_virtual_step generalized_state s)
                   (seqZ 0 6) base_state;
    joint_state ← segment (getFloatingBaseDoF s) (getJointDoF s)
                    generalized_state;
    Return (base_state, joint_state)
  else Return (Vector6d_Zero, generalized_state).

(** ** Branches of the kinematic tree *)

(** The [do ... while (parent_id != base_id)] loop of [getBranch], which
    climbs from a body to the base; [fuel] bounds the number of iterations,
    and [None] tells that it does not suffice. *)
Fixpoint branch_walk (fuel : nat) (m : RBDModel) (base_id parent_id : Z)
    (num_dof : Z) : option (run (Z * Z)) :=
  match fuel with
  | O => None
  | S fuel' =>
      match mJoints m !! Z.to_nat parent_id with
      | None => Some (Stopped (UndefinedBehaviour OutOfBounds))
      | Some q_index =>
          let pos_idx := q_index in
          match lambda m !! Z.to_nat parent_id with
          | None => Some (Stopped (UndefinedBehaviour OutOfBounds))
          | Some parent_id' =>
              let num_dof := uadd num_dof 1 in
              if bool_decide (parent_id' <> base_id)
              then branch_walk fuel' m base_id parent_id' num_dof
              else Some (Return (pos_idx, num_dof))
          end
      end
  end.

(** [getBranch] returns [pos_idx], which it leaves as the caller passed it
    when the loop is not entered, and [num_dof]. *)
Definition getBranch (fuel : nat) (pos_idx : option Z) (body_name : string)
    (s : FloatingBaseSystem) : option (run (option Z * Z)) :=
  (* Getting the body id *)
  let body_id := GetBodyId (rbd_model s) body_name in
  (* Getting the base joint id *)
  let base_id := if isFullyFloatingBase s then 6 else getFloatingBaseDoF s in
  (* Setting the state values of a specific branch to the joint state *)
  let parent :=
    if IsFixedBodyId (rbd_model s) body_id then
      let fixed_idx := fixed_body_discriminator (rbd_model s) in
      match mFixedBodies (rbd_model s) !! Z.to_nat (usub body_id fixed_idx) with
      | Some mMovableParent => Return mMovableParent
      | None => Stopped (UndefinedBehaviour OutOfBounds)
      end
    else Return body_id in
  match parent with
  | Stopped f => Some (Stopped f)
  | Return parent_id =>
      if bool_decide (parent_id <> base_id) then
        match branch_walk fuel (rbd_model s) base_id parent_id 0 with
        | Some (Return r) => Some (Return (Some r.1, r.2))
        | Some (Stopped f) => Some (Stopped f)
        | None => None
        end
      else Some (Return (pos_idx, 0))
  end.

(** [setBranchState]; [q_index] is declared without a value. *)
Definition setBranchState (fuel : nat) (new_joint_state : VectorXd)
    (branch_state : VectorXd) (body_name : string) (s : FloatingBaseSystem)
  : option (run VectorXd) :=
  match getBranch fuel None body_name s with
  | None => None
  | Some (Stopped f) => Some (Stopped f)
  | Some (Return (q_index, num_dof)) =>
      if bool_decide (Z.of_nat (length branch_state) <> num_dof)
      then Some (Stopped ExitFailure)
      else
        match q_index with
        | None => Some (Stopped Indeterminate)
        | Some q_index =>
            Some (set_segment q_index num_dof branch_state new_joint_state)
        end
  end.

Definition getBranchState (fuel : nat) (generalized_state : VectorXd)
    (body_name : string) (s : FloatingBaseSystem) : option (run VectorXd) :=
  match getBranch fuel None body_name s with
  | None => None
  | Some (Stopped f) => Some (Stopped f)
  | Some (Return (q_index, num_dof)) =>
      match q_index with
      | None => Some (Stopped Indeterminate)
      | Some q_index => Some (segment q_index num_dof generalized_state)
      end
  end.

(** ** Reading a robot description *)

(** The order of [std::map<std::string, T>]. *)
Definition key_le {T : Type} (a b : string * T) : Prop :=
  String.leb a.1 b.1 = true.

#[global] Instance key_le_dec {T : Type} : RelDecision (@key_le T).
Proof. intros a b. unfold key_le. apply _. Defined.

(** The entries of a map in the order in which an iterator visits them. *)
Definition in_order {T : Type} (m : gmap string T) : list (string * T) :=
  merge_sort key_le (map_to_list m).

(** The names of the entries of a map, in that order. *)
Definition names_in_order {T : Type} (m : gmap string T) : list string :=
  (in_order m).*1.

(** What the parser of robot descriptions, which is not part of the sources
    at hand, gives for a description: the model of the dynamics library from
    the model it is handed, the maps that [getJointNames] and
    [getFloatingBaseJointMotion] fill, and the content of the map that
    [getEndEffectors] is handed, after the call. *)
Record URDFModel : Type := mkURDFModel {
  URDFReadFromString : RBDModel -> RBDModel;
  floating_joint_names_of : gmap string Z;
  floating_joint_motions_of : gmap string Z;
  free_joint_names_of : gmap string Z;
  getEndEffectors_of : gmap string Z -> gmap string Z
}.

(** Body of the loop over the motions of the floating-base joints. *)
Definition floating_joint_step (floating_joint_names : gmap string Z)
    (s : FloatingBaseSystem) (jnt : string * Z) : run FloatingBaseSystem :=
  let joint_name := jnt.1 in
  let joint_motion := jnt.2 in
  match floating_joint_names !! joint_name with
  | None => Stopped (UndefinedBehaviour EndIterator)
  | Some joint_id =>
      (* Setting the floating joint information *)
      let joint := FloatingBaseJoint_new true joint_id joint_name in
      if bool_decide (joint_motion = 6)
      then Return (setFloatingBaseJoint joint s)
      else
        let joint_motion_coord := joint_motion in
        Return (setFloatingBaseJoint_coord joint joint_motion_coord s)
  end.

(** Body of the loop over the free joints. *)
Definition free_joint_step (floating_joint_names : gmap string Z)
    (s : FloatingBaseSystem) (jnt : string * Z) : FloatingBaseSystem :=
  let joint_name := jnt.1 in
  let joint_id := jnt.2 in
  (* Checking if it's a virtual floating-base joint *)
  if bool_decide (num_floating_joints s > 0) then
    match floating_joint_names !! joint_name with
    | None =>
        (* Setting the actuated joint information *)
        setJoint (mkJoint joint_id joint_name) s
    | Some _ => s
    end
  else s.

(** Getting the floating-base system information. *)
Definition classify (s : FloatingBaseSystem) : FloatingBaseSystem :=
  let s := set_num_system_joints
             (uadd (num_floating_joints s) (num_joints s)) s in
  if isFullyFloatingBase s then
    let s := set_num_system_joints (uadd 6 (num_joints s)) s in
    if hasFloatingBaseConstraints s
    then set_type_of_system ConstrainedFloatingBase s
    else set_type_of_system FloatingBase s
  else if bool_decide (num_floating_joints s > 0)
  then set_type_of_system VirtualFloatingBase s
  else set_type_of_system FixedBase s.

(** Getting information about the floating-base joints. *)
Definition read_floating_joints (urdf_model : URDFModel)
    (s : FloatingBaseSystem) : run FloatingBaseSystem :=
  let floating_joint_names := floating_joint_names_of urdf_model in
  let s := set_num_floating_joints
             (to_unsigned (Z.of_nat (size floating_joint_names))) s in
  if bool_decide (num_floating_joints s > 0) then
    let floating_joint_motions := floating_joint_motions_of urdf_model in
    run_foldM (floating_joint_step floating_joint_names)
      (in_order floating_joint_motions) s
  else Return s.

(** Getting the information about the actuated joints. *)
Definition read_actuated_joints (urdf_model : URDFModel)
    (s : FloatingBaseSystem) : FloatingBaseSystem :=
  let floating_joint_names := floating_joint_names_of urdf_model in
  let free_joint_names := free_joint_names_of urdf_model in
  let num_free_joints := to_unsigned (Z.of_nat (size free_joint_names)) in
  let s := set_num_joints (usub num_free_joints (num_floating_joints s)) s in
  foldl (free_joint_step floating_joint_names) s (in_order free_joint_names).

(** Getting the joint name list. *)
Definition read_joint_names (s : FloatingBaseSystem) : FloatingBaseSystem :=
  set_joint_names_ (joint_names_ s ++ names_in_order (getJoints s)) s.

(** Getting the end-effectors information and the end-effector name list. *)
Definition read_end_effectors (urdf_model : URDFModel)
    (s : FloatingBaseSystem) : FloatingBaseSystem :=
  let s := set_end_effectors
             (getEndEffectors_of urdf_model (end_effectors s)) s in
  let s := set_num_end_effectors
             (to_unsigned (Z.of_nat (size (end_effectors s)))) s in
  set_end_effector_names_
    (end_effector_names_ s ++ names_in_order (end_effectors s)) s.

(** [FloatingBaseSystem::resetFromURDFModel] *)
Definition resetFromURDFModel_system (urdf_model : URDFModel)
    (s : FloatingBaseSystem) : run FloatingBaseSystem :=
  (* Getting the RBDL model from URDF model *)
  let s := set_rbd_model (URDFReadFromString urdf_model (rbd_model s)) s in
  s ← read_floating_joints urdf_model s;
  let s := read_actuated_joints urdf_model s in
  let s := read_joint_names s in
  let s := classify s in
  Return (read_end_effectors urdf_model s).

(** ** Vocabulary of the properties of the floating-base system *)

(** The values of the six enumerators. *)
Definition coords : list Z := [rbd_AX; rbd_AY; rbd_AZ; rbd_LX; rbd_LY; rbd_LZ].

(** The coordinate that a value of [rbd::Coords6d] selects in the chains of
    comparisons of this class: the enumerator it equals, and [rbd::LZ] when
    it equals none. *)
Definition selected (c : Z) : Z :=
  if bool_decide (0 <= c <= 5) then c else rbd_LZ.

(** [v(c)] on a [rbd::Vector6d], for the value [c] of an enumerator. *)
Definition at_coord (v : Vector6d) (c : Z) : Q :=
  if bool_decide (c = rbd_AX) then at_AX v
  else if bool_decide (c = rbd_AY) then at_AY v
  else if bool_decide (c = rbd_AZ) then at_AZ v
  else if bool_decide (c = rbd_LX) then at_LX v
  else if bool_decide (c = rbd_LY) then at_LY v
  else at_LZ v.

(** Coordinate [c] of the floating base is active and carries [id]. *)
Definition carries (s : FloatingBaseSystem) (c : Z) (id : Z) : Prop :=
  active (getFloatingBaseJoint c s) = true /\
  joint_id (getFloatingBaseJoint c s) = id.

(** The active coordinates of a virtual floating base index the first
    [num_floating_joints] coefficients of the generalized state, each its
    own. *)
Definition virtual_base_indexed (s : FloatingBaseSystem) : Prop :=
  (forall c, c ∈ coords -> active (getFloatingBaseJoint c s) = true ->
             0 <= joint_id (getFloatingBaseJoint c s) < num_floating_joints s) /\
  (forall c1 c2, c1 ∈ coords -> c2 ∈ coords ->
                 active (getFloatingBaseJoint c1 s) = true ->
                 active (getFloatingBaseJoint c2 s) = true ->
                 joint_id (getFloatingBaseJoint c1 s)
                 = joint_id (getFloatingBaseJoint c2 s) ->
                 c1 = c2).

(** The bodies [path] are linked by [lambda] and lead to [target]; none of
    them is the base, and each has a joint. *)
Fixpoint climbs_to (m : RBDModel) (base_id target : Z) (path : list Z) : Prop :=
  match path with
  | [] => True
  | p :: path' =>
      0 <= p /\ p <> base_id /\
      is_Some (mJoints m !! Z.to_nat p) /\
      lambda m !! Z.to_nat p = Some (hd target path') /\
      climbs_to m base_id target path'
  end.

(** The bodies [path] lead from a body up to a child of the base. *)
Definition climbs (m : RBDModel) (base_id : Z) (path : list Z) : Prop :=
  climbs_to m base_id base_id path.

(** The body from which [getBranch] starts to climb: the body itself, or
    its movable parent if it is a fixed body. *)
Definition branch_start (s : FloatingBaseSystem) (body_name : string)
  : option Z :=
  let body_id := GetBodyId (rbd_model s) body_name in
  if IsFixedBodyId (rbd_model s) body_id then
    mFixedBodies (rbd_model s)
      !! Z.to_nat (usub body_id (fixed_body_discriminator (rbd_model s)))
  else Some body_id.

(** The identifier of the base in the model of the dynamics library. *)
Definition base_body (s : FloatingBaseSystem) : Z :=
  if isFullyFloatingBase s then 6 else getFloatingBaseDoF s.

(** What is not a coordinate of the base. *)
Definition books (s : FloatingBaseSystem) :=
  (num_system_joints s, num_floating_joints s, num_joints s, type_of_system s,
   num_end_effectors s, joints s, joint_names_ s, end_effectors s,
   end_effector_names_ s, rbd_model s).

(** The six coordinates of the base. *)
Definition base_joints (s : FloatingBaseSystem) :=
  (AX s, AY s, AZ s, LX s, LY s, LZ s).

(** The six coordinates of the base are active and none is constrained. *)
Definition free_floating (s : FloatingBaseSystem) : Prop :=
  isFullyFloatingBase s = true /\ hasFloatingBaseConstraints s = false.

(** ** A concrete floating-base system

    A one-legged robot: the root of the model of the dynamics library is body
    0, the bodies 1 to 6 carry the six coordinates of the floating base, body
    6 being the base, and the thigh (body 7) and the shank (body 8) hang from
    it; the foot is a fixed body on the shank. Joint [i] moves coefficient
    [i - 1] of the generalized state. *)
Definition toy_rbd : RBDModel :=
  mkRBDModel
    (fun body_name =>
       if bool_decide (body_name = "base") then 6
       else if bool_decide (body_name = "thigh") then 7
       else if bool_decide (body_name = "shank") then 8
       else if bool_decide (body_name = "foot") then 2147483647
       else if bool_decide (body_name = "virtual") then 3
       else 4294967295)
    (fun body_id => bool_decide (2147483647 <= body_id < 4294967295))
    2147483647
    [8]
    [0; 0; 1; 2; 3; 4; 5; 6; 7]
    [0; 0; 1; 2; 3; 4; 5; 6; 7].

(** Its description: a floating-base joint with the six coordinates, the hip
    and the knee. *)
Definition toy_urdf : URDFModel :=
  mkURDFModel (fun _ => toy_rbd)
    {["floating_base" := 0]}
    {["floating_base" := 6]}
    (<["floating_base" := 0]> (<["hip" := 1]> {["knee" := 2]}))
    (fun _ => {["foot" := 9]}).

(** The description of an arm on a fixed base. *)
Definition toy_arm_urdf : URDFModel :=
  mkURDFModel (fun _ => toy_rbd) ∅ ∅
    (<["shoulder" := 0]> {["elbow" := 1]})
    (fun _ => {["hand" := 3]}).

(** The system as constructed, and once the description of the leg is read. *)
Definition toy_system_new : FloatingBaseSystem :=
  FloatingBaseSystem_new false 0 toy_rbd.

Definition toy_system : FloatingBaseSystem :=
  mkFloatingBaseSystem 8 1 2
    (mkFloatingBaseJoint true false 0 "floating_base")
    (mkFloatingBaseJoint true false 1 "floating_base")
    (mkFloatingBaseJoint true false 2 "floating_base")
    (mkFloatingBaseJoint true false 3 "floating_base")
    (mkFloatingBaseJoint true false 4 "floating_base")
    (mkFloatingBaseJoint true false 5 "floating_base")
    FloatingBase 1 (<["hip" := 1]> {["knee" := 2]}) ["hip"; "knee"]
    {["foot" := 9]} ["foot"] toy_rbd.

(** A planar system: the base moves along x (coefficient 0 of the
    generalized state) and turns about z (coefficient 1), and carries one
    joint. *)
Definition toy_planar_system : FloatingBaseSystem :=
  mkFloatingBaseSystem 3 2 1
    (FloatingBaseJoint_of false) (FloatingBaseJoint_of false)
    (mkFloatingBaseJoint true false 1 "yaw")
    (mkFloatingBaseJoint true false 0 "slide")
    (FloatingBaseJoint_of false) (FloatingBaseJoint_of false)
    VirtualFloatingBase 0 {["hip" := 2]} ["hip"] ∅ [] toy_rbd.

Definition toy_base_state : Vector6d := mkVector6d 1 2 3 4 5 6.

(** Whether a call returned. *)
Definition is_Return_bool {A : Type} (r : run A) : bool :=
  match r with
  | Return _ => true
  | Stopped _ => false
  end.

(** What the getters of a system return, the model of the dynamics library
    apart. *)
Definition system_books (r : run FloatingBaseSystem) :=
  match r with
  | Return s =>
      Some (getSystemDoF s, getFloatingBaseDoF s, getJointDoF s,
            getTypeOfDynamicSystem s, getNumberOfEndEffectors s,
            getJointNames s, getEndEffectorNames s, base_joints s,
            getJoints s, getEndEffectors s)
  | Stopped _ => None
  end.

(** * Properties *)

Section Properties.

Context {cart : CartTableModel} {swing : FootSplinePatternGenerator}
        {frame_tf_ : FrameTF}.

Implicit Types (e : PreviewLocomotion) (state : ReducedBodyState)
  (params : PreviewParams) (control : PreviewControl)
  (trajectory : ReducedBodyTrajectory).

(** ** Loops and scalars *)

Lemma foldM_app {A B : Type} (f : B -> A -> outcome B) (l1 l2 : list A) (b : B) :
  foldM f (l1 ++ l2) b = (b' ← foldM f l1 b; foldM f l2 b').
Proof.
  revert b. induction l1 as [|a l1 IH]; intros b; simpl.
  - reflexivity.
  - destruct (f b a) as [b1|flt]; simpl; [apply IH | reflexivity].
Qed.

Lemma Qlt_bool_true (a b : Q) : Qlt_bool a b = true <-> (a < b)%Q.
Proof.
  unfold Qlt_bool. rewrite negb_true_iff. split.
  - intros H. apply Qnot_le_lt. intros Hle.
    apply Qle_bool_iff in Hle. congruence.
  - intros H. destruct (Qle_bool b a) eqn:E; [|reflexivity].
    apply Qle_bool_iff in E. exfalso. exact (Qlt_not_le _ _ H E).
Qed.

Lemma Qlt_bool_false (a b : Q) : Qlt_bool a b = false <-> (b <= a)%Q.
Proof.
  unfold Qlt_bool. rewrite negb_false_iff. apply Qle_bool_iff.
Qed.

Lemma round_nearest_even_floor (x : Q) : Qfloor x <= round_nearest_even x.
Proof.
  unfold round_nearest_even.
  destruct (x - inject_Z (Qfloor x) ?= 1 # 2)%Q; [|lia|lia].
  destruct (Z.even (Qfloor x)); lia.
Qed.

Lemma round_double_nonneg (x : Q) : (0 <= x)%Q -> (0 <= round_double x)%Q.
Proof.
  intros Hx. unfold round_double.
  destruct (Qeq_bool x 0); [apply Qle_refl|].
  rewrite (proj2 (Qle_bool_iff 0 x) Hx).
  set (ulp := Qpower 2 _).
  assert (Hulp : (0 < ulp)%Q) by (apply Qpower_0_lt; reflexivity).
  apply Qmult_le_0_compat; [|apply Qlt_le_weak; exact Hulp].
  rewrite Qmult_1_l.
  change 0%Q with (inject_Z 0). rewrite <- Zle_Qle.
  etransitivity; [|apply round_nearest_even_floor].
  change 0 with (Qfloor 0). apply Qfloor_resp_le.
  apply Qle_shift_div_l; [exact Hulp|]. rewrite Qmult_0_l. apply Qabs_nonneg.
Qed.

Lemma double_div_nonneg (a b : Q) :
  (0 <= a)%Q -> (0 < b)%Q -> 0 <= Qfloor (double_div a b).
Proof.
  intros Ha Hb. change 0 with (Qfloor 0). apply Qfloor_resp_le.
  apply round_double_nonneg. apply Qle_shift_div_l; [exact Hb|].
  rewrite Qmult_0_l. exact Ha.
Qed.

Lemma round_nearest_even_error (x : Q) :
  (Qabs (inject_Z (round_nearest_even x) - x) <= 1 # 2)%Q.
Proof.
  apply Qabs_diff_Qle_condition.
  pose proof (Qfloor_le x) as Hl. pose proof (Qlt_floor x) as Hu.
  rewrite inject_Z_plus in Hu. change (inject_Z 1) with 1%Q in Hu.
  unfold round_nearest_even.
  destruct (Qcompare_spec (x - inject_Z (Qfloor x)) (1 # 2)) as [H|H|H].
  - destruct (Z.even (Qfloor x));
      rewrite ?inject_Z_plus; change (inject_Z 1) with 1%Q; lra.
  - lra.
  - rewrite inject_Z_plus. change (inject_Z 1) with 1%Q. lra.
Qed.

Lemma Qpower_2_Zpower (n : Z) : 0 <= n -> (inject_Z (2 ^ n) == 2 ^ n)%Q.
Proof. intros H. rewrite Zpower_Qpower by exact H. reflexivity. Qed.

(** [Qlog2] is the exponent of the binade of a positive number. *)
Lemma Qlog2_spec (x : Q) :
  (0 < x)%Q -> (2 ^ Qlog2 x <= x)%Q /\ (x < 2 ^ (Qlog2 x + 1))%Q.
Proof.
  intros Hx. destruct x as [n d].
  assert (Hn : 0 < n) by (unfold Qlt in Hx; simpl in Hx; lia).
  unfold Qlog2. cbn [Qnum Qden].
  set (a := Z.log2 n). set (b := Z.log2 (Z.pos d)).
  pose proof (Z.log2_nonneg n) as Ha0. fold a in Ha0.
  pose proof (Z.log2_nonneg (Z.pos d)) as Hb0. fold b in Hb0.
  destruct (Z.log2_spec n Hn) as [Ha1 Ha2]. fold a in Ha1, Ha2.
  destruct (Z.log2_spec (Z.pos d) eq_refl) as [Hb1 Hb2]. fold b in Hb1, Hb2.
  rewrite <- Z.add_1_r in Ha2, Hb2.
  assert (H2 : ~ (2 == 0)%Q) by discriminate.
  assert (Hpa : forall k, (0 < 2 ^ k)%Q)
    by (intros k; apply Qpower_0_lt; reflexivity).
  assert (Hup : (n # d < 2 ^ (a - b + 1))%Q).
  { replace (a - b + 1) with ((a + 1) - b) by lia.
    rewrite Qpower_minus by exact H2.
    apply Qlt_shift_div_l; [apply Hpa|].
    rewrite <- !Qpower_2_Zpower by lia.
    set (pa := 2 ^ (a + 1)) in *. set (pb := 2 ^ b) in *.
    clearbody pa pb. unfold Qlt, Qmult, inject_Z. cbn [Qnum Qden].
    rewrite Pos.mul_1_r. nia. }
  assert (Hlow : (2 ^ (a - b - 1) < n # d)%Q).
  { replace (a - b - 1) with (a - (b + 1)) by lia.
    rewrite Qpower_minus by exact H2.
    apply Qlt_shift_div_r; [apply Hpa|].
    rewrite <- !Qpower_2_Zpower by lia.
    set (pa := 2 ^ a) in *. set (pb := 2 ^ (b + 1)) in *.
    clearbody pa pb. unfold Qlt, Qmult, inject_Z. cbn [Qnum Qden].
    rewrite ?Pos.mul_1_r. nia. }
  destruct (Qle_bool (2 ^ (a - b)) (n # d)) eqn:E.
  - apply Qle_bool_iff in E. split; [exact E | exact Hup].
  - split; [apply Qlt_le_weak; exact Hlow|].
    replace (a - b - 1 + 1) with (a - b) by lia.
    apply Qnot_le_lt. intros H. apply Qle_bool_iff in H. congruence.
Qed.

(** [round_double x] is a multiple of the unit in the last place of [x]. *)
Lemma round_double_grid (x : Q) :
  exists m : Z,
    (round_double x
     == inject_Z m * 2 ^ (Z.max (Qlog2 (Qabs x)) (-1022) - 52))%Q.
Proof.
  unfold round_double. destruct (Qeq_bool x 0).
  - exists 0. ring.
  - set (m := round_nearest_even _). destruct (Qle_bool 0 x).
    + exists m. ring.
    + exists (- m). rewrite inject_Z_opp. ring.
Qed.

(** [round_double x] is within half a unit in the last place of [x]. *)
Lemma round_double_error (x : Q) :
  (Qabs (round_double x - x)
   <= 2 ^ (Z.max (Qlog2 (Qabs x)) (-1022) - 53))%Q.
Proof.
  unfold round_double.
  set (e := Z.max (Qlog2 (Qabs x)) (-1022)).
  assert (Hp : forall k, (0 < 2 ^ k)%Q)
    by (intros k; apply Qpower_0_lt; reflexivity).
  destruct (Qeq_bool x 0) eqn:E0.
  - apply Qeq_bool_iff in E0. rewrite E0.
    setoid_replace (0 - 0)%Q with 0%Q using relation Qeq by ring. apply Qlt_le_weak, Hp.
  - assert (Hulp : (2 ^ (e - 53) == (1 # 2) * 2 ^ (e - 52))%Q).
    { replace (e - 53) with ((e - 52) - 1) by lia.
      rewrite Qpower_minus by discriminate. change (2 ^ 1)%Q with 2%Q.
      field. }
    rewrite Hulp. set (ulp := (2 ^ (e - 52))%Q).
    assert (Hu : (0 < ulp)%Q) by apply Hp.
    pose proof (round_nearest_even_error (Qabs x / ulp)) as Hr.
    set (m := round_nearest_even (Qabs x / ulp)) in *.
    apply Qabs_diff_Qle_condition in Hr. destruct Hr as [Hr1 Hr2].
    assert (Hm1 : (inject_Z m * ulp - (1 # 2) * ulp <= Qabs x)%Q).
    { apply (Qmult_le_compat_r _ _ ulp) in Hr1; [|apply Qlt_le_weak, Hu].
      setoid_replace (Qabs x / ulp * ulp)%Q with (Qabs x) using relation Qeq
        in Hr1 by (field; apply Qnot_eq_sym, Qlt_not_eq, Hu).
      lra. }
    assert (Hm2 : (Qabs x <= inject_Z m * ulp + (1 # 2) * ulp)%Q).
    { apply (Qmult_le_compat_r _ _ ulp) in Hr2; [|apply Qlt_le_weak, Hu].
      setoid_replace (Qabs x / ulp * ulp)%Q with (Qabs x) using relation Qeq
        in Hr2 by (field; apply Qnot_eq_sym, Qlt_not_eq, Hu).
      lra. }
    apply Qabs_diff_Qle_condition.
    destruct (Qle_bool 0 x) eqn:Es.
    + apply Qle_bool_iff in Es. rewrite (Qabs_pos x Es) in Hm1, Hm2.
      split; lra.
    + assert (Hneg : (x <= 0)%Q).
      { apply Qlt_le_weak, Qnot_le_lt. intros H. apply Qle_bool_iff in H.
        congruence. }
      rewrite (Qabs_neg x Hneg) in Hm1, Hm2. split; lra.
Qed.

Lemma floor_div_nonneg (d st : Q) :
  (0 < st)%Q -> (0 <= d)%Q -> Qfloor (double_div d st) < UINT_MOD ->
  floor_div d st = Ok (Qfloor (double_div d st)) /\
  0 <= Qfloor (double_div d st).
Proof.
  intros Hst Hd Hr.
  pose proof (double_div_nonneg d st Hd Hst) as H0.
  split; [|exact H0]. unfold floor_div.
  destruct (Qeq_bool st 0) eqn:E.
  - apply Qeq_bool_iff in E. rewrite E in Hst. exfalso. exact (Qlt_irrefl _ Hst).
  - rewrite bool_decide_eq_true_2; [reflexivity | lia].
Qed.

Lemma floor_div_Ok (d st : Q) :
  (0 < st)%Q -> (st <= d)%Q -> Qfloor (double_div d st) < UINT_MOD ->
  floor_div d st = Ok (Qfloor (double_div d st)) /\
  0 <= Qfloor (double_div d st).
Proof.
  intros Hst Hd. apply floor_div_nonneg; [exact Hst|].
  apply Qlt_le_weak. eapply Qlt_le_trans; eassumption.
Qed.

Lemma uadd_small (a : Z) : 0 <= a -> a + 1 < UINT_MOD -> uadd a 1 = a + 1.
Proof. intros. unfold uadd. apply Z.mod_small. lia. Qed.

Lemma Qplus_0_l_eq (y : Q) : (0 + y)%Q = y.
Proof.
  destruct y as [n d]. unfold Qplus. simpl. rewrite Z.mul_1_r. reflexivity.
Qed.

Lemma vadd_Zero_l (v : Vector3d) : vadd Vector3d_Zero v = v.
Proof.
  destruct v as [x y z]. unfold vadd. simpl. rewrite !Qplus_0_l_eq. reflexivity.
Qed.

Lemma vector_set_Ok {A : Type} (i : Z) (x : A) (v : list A) :
  0 <= i < Z.of_nat (length v) ->
  vector_set i x v = Ok (<[Z.to_nat i := x]> v).
Proof. intros H. unfold vector_set. rewrite bool_decide_eq_true_2; auto. Qed.

Lemma vector_set_out {A : Type} (i : Z) (x : A) (v : list A) :
  Z.of_nat (length v) <= i -> vector_set i x v = Undefined OutOfBounds.
Proof.
  intros H. unfold vector_set. rewrite bool_decide_eq_false_2; [reflexivity|lia].
Qed.

Lemma vector_set_length {A : Type} (i : Z) (x : A) (v v' : list A) :
  vector_set i x v = Ok v' -> length v' = length v.
Proof.
  unfold vector_set. case_bool_decide; [|discriminate].
  intros [= <-]. apply length_insert.
Qed.

Lemma back_Ok {A : Type} (v : list A) : v <> [] -> exists a, back v = Ok a /\ last v = Some a.
Proof.
  intros H. apply last_is_Some in H as [a Ha]. exists a. unfold back.
  rewrite Ha. auto.
Qed.

Lemma back_nil {A : Type} : back (@nil A) = Undefined BackOfEmpty.
Proof. reflexivity. Qed.

(** ** The guard on the robot model *)

(** C8: without a loaded robot model, [multiPhasePreview],
    [multiPhaseEnergy] and [readPreviewSequence] print the error message and
    return at once: the output arguments (trajectory, energy, state and
    control) and the engine are what they were before the call. *)
Theorem uninitialized_model_guard e :
  robot_model_ e = false ->
  (forall trajectory state control full,
      multiPhasePreview trajectory state control full e
      = Ok (trajectory, e, [MSG_NO_MODEL])) /\
  (forall com_energy state control,
      multiPhaseEnergy com_energy state control e
      = (com_energy, e, [MSG_NO_MODEL])) /\
  (forall dflt state control yaml_reader,
      readPreviewSequence dflt state control yaml_reader e
      = Ok (state, control, [MSG_NO_MODEL])).
Proof.
  intros H. repeat split; intros;
    [unfold multiPhasePreview | unfold multiPhaseEnergy
     | unfold readPreviewSequence]; rewrite H; reflexivity.
Qed.

(** ** Degenerate phases *)

(** C5 (amended): in full mode a phase, STANCE or FLIGHT, whose duration is
    strictly below the sample time returns at once and leaves the phase
    trajectory as it was, so it adds no sample; the engine is untouched. *)
Theorem short_phase_no_samples e state params trajectory :
  (duration params < sample_time_ e)%Q ->
  stancePreview trajectory state params true e = Ok (trajectory, e) /\
  flightPreview trajectory state params true e = Ok (trajectory, e).
Proof.
  intros H. apply Qlt_bool_true in H.
  unfold stancePreview, flightPreview. rewrite H. simpl. auto.
Qed.

(** ** Swing generation *)

Lemma find_stance_Ok e name :
  has_stance e name -> exists v, find_stance e name = Ok v.
Proof. intros [v Hv]. exists v. unfold find_stance. rewrite Hv. reflexivity. Qed.

Lemma swing_shift_fold_Ok e params ts (l : list string) :
  Forall (has_stance e) l ->
  forall acc : gmap string Vector3d,
  exists sh, foldM (swing_shift_step e params ts) l acc = Ok sh /\
             forall name, is_Some (sh !! name) ->
                          is_Some (acc !! name) \/ name ∈ l.
Proof.
  induction 1 as [|name l Hn Hl IH]; intros acc; cbn [foldM].
  - exists acc. split; [reflexivity | auto].
  - assert (Hstep : exists fs, swing_shift_step e params ts acc name
                                = Ok (<[name := fs]> acc)).
    { unfold swing_shift_step.
      destruct (find_stance_Ok e name Hn) as [v ->]. eexists. reflexivity. }
    destruct Hstep as [fs ->]. cbn [mbind outcome_bind].
    match goal with |- context [foldM _ l ?m] => destruct (IH m) as (sh & E & D) end.
    exists sh. split; [exact E|].
    intros n Hs. destruct (D n Hs) as [Hi|Hi].
    + destruct (decide (name = n)) as [->|Hne].
      * right. left.
      * rewrite lookup_insert_ne in Hi by exact Hne. auto.
    + right. right. exact Hi.
Qed.

Lemma swing_shift_fold_fail e params ts (l : list string) :
  ~ Forall (has_stance e) l ->
  forall acc : gmap string Vector3d,
  foldM (swing_shift_step e params ts) l acc = Undefined EndIterator.
Proof.
  induction l as [|name l IH]; intros Hn acc; cbn [foldM].
  - exfalso. apply Hn. constructor.
  - destruct (stance_posture_ e !! name) as [v|] eqn:E.
    + assert (Hstep : exists fs, swing_shift_step e params ts acc name
                                  = Ok (<[name := fs]> acc)).
      { unfold swing_shift_step, find_stance. rewrite E. eexists. reflexivity. }
      destruct Hstep as [fs ->]. cbn [mbind outcome_bind].
      apply IH. intros Hl. apply Hn. constructor; [|exact Hl].
      unfold has_stance. rewrite E. eauto.
    + assert (Hstep : swing_shift_step e params ts acc name
                      = Undefined EndIterator).
      { unfold swing_shift_step, find_stance. rewrite E. reflexivity. }
      rewrite Hstep. reflexivity.
Qed.

Lemma spline_fold_Ok e state params (l : list (string * Vector3d)) :
  (forall name, is_Some (swing_feet_shift (swing_params_ e) !! name) ->
                has_stance e name) ->
  forall acc : gmap string Spline,
  exists g, foldM (spline_step e state params) l acc = Ok g.
Proof.
  intros Hs. induction l as [|[name pos] l IH]; intros acc; cbn [foldM].
  - eauto.
  - assert (Hstep : exists g, spline_step e state params acc (name, pos) = Ok g).
    { unfold spline_step. cbn [fst snd].
      destruct (swing_feet_shift (swing_params_ e) !! name) as [sh|] eqn:E.
      - destruct (find_stance_Ok e name) as [v ->]; [apply Hs; rewrite E; eauto|].
        eexists. reflexivity.
      - eexists. reflexivity. }
    destruct Hstep as [g ->]. cbn [mbind outcome_bind]. apply IH.
Qed.

(** [initSwing] is defined as soon as every foot of the phase has a nominal
    stance posture; it then rewrites the phase state, the swing parameters and
    the generators, and nothing else. *)
Lemma initSwing_Ok state params e :
  Forall (has_stance e) (feet (phase params)) ->
  exists sh g,
    initSwing state params e
    = Ok (set_feet_spline_generator_ g
            (set_swing_params_ (mkSwingParams (duration params) sh)
               (set_phase_state_ state e))).
Proof.
  intros H. unfold initSwing.
  match goal with |- context [foldM (swing_shift_step ?e' ?p ?ts) ?l ?m] =>
    destruct (swing_shift_fold_Ok e' p ts l H m) as (sh & -> & D) end.
  simpl.
  match goal with |- context [foldM (spline_step ?e' ?s ?p) ?l ?m] =>
    destruct (spline_fold_Ok e' s p l) with (acc := m) as (g & ->) end.
  - simpl. intros name Hn. destruct (D name Hn) as [Hi|Hi].
    + rewrite lookup_empty in Hi. destruct Hi as [? [=]].
    + rewrite Forall_forall in H. apply H, Hi.
  - simpl. exists sh, g. reflexivity.
Qed.

Lemma initSwing_fail state params e :
  ~ Forall (has_stance e) (feet (phase params)) ->
  initSwing state params e = Undefined EndIterator.
Proof.
  intros H. unfold initSwing.
  rewrite swing_shift_fold_fail; [reflexivity | exact H].
Qed.

Lemma generateSwing_foot_inv t acc foot_it :
  time (generateSwing_foot t acc foot_it).1 = time acc.1 /\
  exists g, (generateSwing_foot t acc foot_it).2
            = set_feet_spline_generator_ g acc.2.
Proof.
  unfold generateSwing_foot.
  destruct (swing_feet_shift (swing_params_ acc.2) !! foot_it.1); simpl.
  - split; [reflexivity|]. eexists. reflexivity.
  - split; [reflexivity|]. exists (feet_spline_generator_ acc.2).
    destruct acc as [s [ ]]. reflexivity.
Qed.

Lemma generateSwing_fold_inv t (l : list (string * Vector3d)) acc :
  time (foldl (generateSwing_foot t) acc l).1 = time acc.1 /\
  exists g, (foldl (generateSwing_foot t) acc l).2
            = set_feet_spline_generator_ g acc.2.
Proof.
  revert acc. induction l as [|it l IH]; intros acc; simpl.
  - split; [reflexivity|]. exists (feet_spline_generator_ acc.2).
    destruct acc as [s [ ]]. reflexivity.
  - destruct (IH (generateSwing_foot t acc it)) as (Ht & g & Hg).
    destruct (generateSwing_foot_inv t acc it) as (Ht' & g' & Hg').
    split; [congruence|]. exists g. rewrite Hg, Hg'. reflexivity.
Qed.

(** [generateSwing] writes the foot entries of the state and the generators
    of the engine, and nothing else. *)
Lemma generateSwing_inv state t e :
  time (generateSwing state t e).1 = time state /\
  exists g, (generateSwing state t e).2 = set_feet_spline_generator_ g e.
Proof.
  unfold generateSwing.
  destruct (generateSwing_fold_inv t (map_to_list (foot_pos (phase_state_ e)))
              (state, e)) as (Ht & g & Hg).
  split; [exact Ht | exists g; exact Hg].
Qed.

(** ** Sampling of a stance phase *)

Lemma stance_step_full state params n e0 g cs trajectory k :
  response_keeps_time ->
  0 <= k < Z.of_nat (length trajectory) ->
  exists cs' g',
    stance_step state params true n 0
      (cs, trajectory, set_feet_spline_generator_ g e0) k
    = Ok (cs', <[Z.to_nat k := cs']> trajectory,
          set_feet_spline_generator_ g' e0) /\
    time cs' = (time state + sample_offset e0 params n k)%Q.
Proof.
  intros Htime Hk. unfold stance_step. cbn [fst snd].
  match goal with |- context [generateSwing ?s ?t ?e'] =>
    destruct (generateSwing_inv s t e') as (Ht & g' & Hg);
    set (r := generateSwing s t e') in * end.
  exists r.1, g'. rewrite Z.sub_0_r.
  rewrite vector_set_Ok by exact Hk. cbn [mbind outcome_bind].
  rewrite Hg. split; [reflexivity|].
  rewrite Ht. unfold computeResponse. rewrite Htime. reflexivity.
Qed.

Lemma stance_loop_full state params n e0 :
  response_keeps_time ->
  forall (m : nat) g cs trajectory,
  (m <= length trajectory)%nat ->
  exists cs' g' trajectory',
    foldM (stance_step state params true n 0) (seqZ 0 (Z.of_nat m))
      (cs, trajectory, set_feet_spline_generator_ g e0)
    = Ok (cs', trajectory', set_feet_spline_generator_ g' e0) /\
    length trajectory' = length trajectory /\
    forall i : nat, (i < m)%nat ->
      time <$> trajectory' !! i
      = Some (time state + sample_offset e0 params n (Z.of_nat i))%Q.
Proof.
  intros Htime. induction m as [|m IH]; intros g cs trajectory Hm.
  - exists cs, g, trajectory. split; [reflexivity|].
    split; [reflexivity|]. intros i Hi. lia.
  - rewrite seqZ_S, foldM_app.
    destruct (IH g cs trajectory) as (cs1 & g1 & t1 & -> & Hl & Hi); [lia|].
    cbn [mbind outcome_bind foldM]. rewrite Z.add_0_l.
    destruct (stance_step_full state params n e0 g1 cs1 t1 (Z.of_nat m) Htime)
      as (cs2 & g2 & -> & Ht); [lia|].
    cbn [mbind outcome_bind]. exists cs2, g2. eexists. split; [reflexivity|].
    rewrite Nat2Z.id. split; [rewrite length_insert; exact Hl|].
    intros i Hlt. destruct (decide (i = m)) as [->|Hne].
    + rewrite list_lookup_insert_eq by lia. simpl. rewrite Ht. reflexivity.
    + rewrite list_lookup_insert_ne by auto. apply Hi. lia.
Qed.

(** The samples of a STANCE phase in full mode, for a duration of at least
    the sample time. *)
Lemma stancePreview_full_samples e state params trajectory :
  response_keeps_time ->
  Forall (has_stance e) (feet (phase params)) ->
  (0 < sample_time_ e)%Q ->
  (sample_time_ e <= duration params)%Q ->
  Qfloor (double_div (duration params) (sample_time_ e)) + 1 < UINT_MOD ->
  let num_samples :=
    Z.to_nat (Qfloor (double_div (duration params) (sample_time_ e))) in
  exists samples e',
    stancePreview trajectory state params true e = Ok (samples, e') /\
    length samples = S num_samples /\
    (forall i : nat, (i < num_samples)%nat ->
       time <$> samples !! i
       = Some (time state + sample_time_ e * inject_Z (Z.of_nat i + 1))%Q) /\
    time <$> last samples = Some (time state + duration params)%Q.
Proof.
  intros Htime Hfeet Hst Hd Hr num_samples.
  destruct (floor_div_Ok (duration params) (sample_time_ e) Hst Hd) as [Hf H1];
    [lia|].
  set (n := Qfloor (double_div (duration params) (sample_time_ e))) in *.
  unfold stancePreview.
  replace (Qlt_bool (duration params) (sample_time_ e)) with false
    by (symmetry; apply Qlt_bool_false; exact Hd).
  cbn [andb]. cbn [sample_time_ set_cart_table_]. rewrite Hf.
  cbn [mbind outcome_bind].
  match goal with |- context [initSwing state params ?e1] =>
    destruct (initSwing_Ok state params e1) as (sh & g & ->); [exact Hfeet|];
    set (e0 := set_swing_params_ _ (set_phase_state_ state e1)) end.
  cbn [mbind outcome_bind fst snd]. rewrite Z.sub_0_r.
  rewrite uadd_small by lia.
  set (t0 := resize (Z.to_nat (n + 1)) ReducedBodyState_default trajectory).
  assert (Hlen : length t0 = Z.to_nat (n + 1)) by apply length_resize.
  destruct (stance_loop_full state params n e0 Htime (Z.to_nat (n + 1)) g
              state t0) as (cs' & g' & t' & E & Hl & Hi); [lia|].
  rewrite Z2Nat.id in E by lia. rewrite E. cbn [mbind outcome_bind fst snd].
  exists t'. eexists. split; [reflexivity|].
  assert (Hn : Z.to_nat (n + 1) = S num_samples) by (unfold num_samples; lia).
  split; [congruence|]. split.
  - intros i Hlt. rewrite Hi by lia. unfold sample_offset.
    rewrite bool_decide_eq_false_2 by (unfold num_samples in Hlt; lia).
    rewrite uadd_small by (unfold num_samples in Hlt; lia). reflexivity.
  - rewrite last_lookup, Hl, Hlen, Hn. cbn [pred]. rewrite Hi by lia.
    unfold sample_offset.
    rewrite bool_decide_eq_true_2 by (unfold num_samples; lia). reflexivity.
Qed.

(** ** Sampling of a flight phase *)

Lemma flight_step_in state params full n e trajectory k :
  0 <= k < Z.of_nat (length trajectory) ->
  exists trajectory' e',
    flight_step state params full n 0 (trajectory, e) k = Ok (trajectory', e') /\
    length trajectory' = length trajectory.
Proof.
  intros Hk. unfold flight_step. cbn [fst snd]. rewrite Z.sub_0_r.
  rewrite vector_set_Ok by exact Hk. cbn [mbind outcome_bind].
  eexists. eexists. split; [reflexivity | apply length_insert].
Qed.

Lemma flight_step_out state params full n idx e trajectory k :
  Z.of_nat (length trajectory) <= k - idx ->
  flight_step state params full n idx (trajectory, e) k = Undefined OutOfBounds.
Proof.
  intros Hk. unfold flight_step. cbn [fst snd].
  rewrite vector_set_out by exact Hk. reflexivity.
Qed.

Lemma flight_loop_prefix state params full n (m : nat) :
  forall trajectory e,
  (m <= length trajectory)%nat ->
  exists trajectory' e',
    foldM (flight_step state params full n 0) (seqZ 0 (Z.of_nat m))
      (trajectory, e) = Ok (trajectory', e') /\
    length trajectory' = length trajectory.
Proof.
  induction m as [|m IH]; intros trajectory e Hm.
  - exists trajectory, e. split; reflexivity.
  - rewrite seqZ_S, foldM_app.
    destruct (IH trajectory e) as (t1 & e1 & -> & Hl); [lia|].
    cbn [mbind outcome_bind foldM]. rewrite Z.add_0_l.
    destruct (flight_step_in state params full n e1 t1 (Z.of_nat m))
      as (t2 & e2 & -> & Hl2); [lia|].
    cbn [mbind outcome_bind]. exists t2, e2. split; [reflexivity | congruence].
Qed.

(** The sampling loop of a flight phase in full mode writes one element more
    than [resize] allotted. *)
Lemma flight_loop_overrun state params n trajectory e :
  0 <= n -> length trajectory = Z.to_nat n ->
  foldM (flight_step state params true n 0) (seqZ 0 (n + 1)) (trajectory, e)
  = Undefined OutOfBounds.
Proof.
  intros Hn Hl.
  replace (n + 1) with (Z.of_nat (S (Z.to_nat n))) by lia.
  rewrite seqZ_S, foldM_app.
  destruct (flight_loop_prefix state params true n (Z.to_nat n) trajectory e)
    as (t1 & e1 & -> & Hl1); [lia|].
  cbn [mbind outcome_bind foldM]. rewrite flight_step_out; [reflexivity | lia].
Qed.

(** C4: a FLIGHT phase previewed in full mode with a duration of at least the
    sample time sizes the phase trajectory to [floor(duration / sample_time)]
    elements, the quotient being that of the two doubles, and then writes the
    pinned last sample one past its end: the write is out of bounds, whatever
    the start state. *)
Theorem flight_full_out_of_bounds e state params trajectory :
  Forall (has_stance e) (feet (phase params)) ->
  (0 < sample_time_ e)%Q ->
  (sample_time_ e <= duration params)%Q ->
  Qfloor (double_div (duration params) (sample_time_ e)) + 1 < UINT_MOD ->
  flightPreview trajectory state params true e = Undefined OutOfBounds.
Proof.
  intros Hfeet Hst Hd Hr.
  destruct (floor_div_Ok (duration params) (sample_time_ e) Hst Hd) as [Hf H1];
    [lia|].
  unfold flightPreview.
  replace (Qlt_bool (duration params) (sample_time_ e)) with false
    by (symmetry; apply Qlt_bool_false; exact Hd).
  cbn [andb]. rewrite Hf. cbn [mbind outcome_bind].
  destruct (initSwing_Ok state params e Hfeet) as (sh & g & ->).
  cbn [mbind outcome_bind fst snd]. rewrite Z.sub_0_r.
  rewrite uadd_small by lia.
  apply flight_loop_overrun; [lia | apply length_resize].
Qed.

(** ** The support region across phases *)

Lemma foldM_indices {A B : Type} (body : B -> A -> outcome B) (v : list A)
    (n : nat) (b : B) :
  (n <= length v)%nat ->
  foldM (fun b f => a ← vector_get f v; body b a) (seq 0 n) b
  = foldM body (take n v) b.
Proof.
  induction n as [|n IH]; intros Hn.
  - reflexivity.
  - destruct (lookup_lt_is_Some_2 v n) as [a Ha]; [lia|].
    rewrite seq_S, (take_S_r _ _ _ Ha), !foldM_app, IH by lia.
    destruct (foldM body (take n v) b) as [b'|flt]; [|reflexivity].
    cbn [mbind outcome_bind foldM plus]. unfold vector_get. rewrite Ha.
    reflexivity.
Qed.

Lemma set_support_region_id state :
  set_support_region (support_region state) state = state.
Proof. destruct state. reflexivity. Qed.

Lemma update_foot_fold e (remove : string -> bool) p s0 (names : list string) :
  (forall name, name ∈ names -> committed e p name = true -> has_stance e name) ->
  forall R0 : gmap string Vector3d,
  exists R : gmap string Vector3d,
    foldM (update_foot e remove p) names (set_support_region R0 s0)
    = Ok (set_support_region R s0) /\
    forall name,
      R !! name = support_after e remove p s0 names R0 name.
Proof.
  unfold support_after.
  induction names as [|n names IH]; intros Hs R0.
  - exists R0. split; [reflexivity|]. intros name.
    rewrite decide_False by apply not_elem_of_nil. reflexivity.
  - cbn [foldM].
    assert (Hstep : exists R1 : gmap string Vector3d,
               update_foot e remove p (set_support_region R0 s0) n
               = Ok (set_support_region R1 s0) /\
               forall name,
                 R1 !! name
                 = if decide (name = n) then
                     if committed e p n
                     then (fun stance =>
                             foothold_target e (getFootShift (phase p) n)
                               stance s0)
                            <$> stance_posture_ e !! n
                     else if remove n then None else R0 !! n
                   else R0 !! name).
    { unfold update_foot. fold (committed e p n).
      destruct (committed e p n) eqn:Hc.
      - destruct (Hs n) as [st Hst]; [left | exact Hc |].
        unfold commit_foothold, find_stance. rewrite Hst.
        cbn [mbind outcome_bind].
        exists (<[n := foothold_target e (getFootShift (phase p) n) st s0]>
                  (if remove n then delete n R0 else R0)).
        split.
        + unfold foothold_position, foothold_target, set_Z, head2.
          destruct (isTerrainInformation (terrain_ e)), (remove n);
            reflexivity.
        + intros name. cbn. destruct (decide (name = n)) as [->|Hne].
          * rewrite lookup_insert_eq. reflexivity.
          * rewrite lookup_insert_ne by auto. destruct (remove n); cbn;
              [rewrite lookup_delete_ne by auto|]; reflexivity.
      - destruct (remove n) eqn:Hr.
        + exists (delete n R0). split; [reflexivity|]. intros name. cbn.
          destruct (decide (name = n)) as [->|Hne].
          * apply lookup_delete_eq.
          * apply lookup_delete_ne. auto.
        + exists R0. split; [reflexivity|]. intros name.
          destruct (decide (name = n)) as [->|Hne]; reflexivity. }
    destruct Hstep as (R1 & -> & H1). cbn [mbind outcome_bind].
    destruct (IH (fun name Hn => Hs name (list_elem_of_further _ _ _ Hn)) R1)
      as (R & -> & HR).
    exists R. split; [reflexivity|]. intros name. rewrite HR, H1.
    destruct (decide (name ∈ names)) as [Hin|Hin].
    + assert (Hin' : name ∈ n :: names) by (right; exact Hin).
      rewrite (decide_True _ _ Hin').
      destruct (committed e p name) eqn:Hc; [reflexivity|].
      destruct (remove name) eqn:Hr; [reflexivity|].
      destruct (decide (name = n)) as [->|Hne]; [|reflexivity].
      rewrite Hc, Hr. reflexivity.
    + destruct (decide (name = n)) as [->|Hne].
      * assert (Hin' : n ∈ n :: names) by left.
        rewrite (decide_True _ _ Hin'). reflexivity.
      * assert (Hin' : name ∉ n :: names)
          by (apply not_elem_of_cons; split; assumption).
        rewrite (decide_False _ _ Hin'). reflexivity.
Qed.

Lemma foldM_ext {A B : Type} (f g : B -> A -> outcome B) (l : list A) (b : B) :
  (forall b a, f b a = g b a) -> foldM f l b = foldM g l b.
Proof.
  intros H. revert b. induction l as [|a l IH]; intros b; cbn [foldM].
  - reflexivity.
  - rewrite H. destruct (g b a); cbn [mbind outcome_bind]; auto.
Qed.

Lemma foldM_inv {A B : Type} (P : B -> Prop) (f : B -> A -> outcome B)
    (l : list A) :
  (forall b a b', P b -> f b a = Ok b' -> P b') ->
  forall b b', P b -> foldM f l b = Ok b' -> P b'.
Proof.
  intros Hf. induction l as [|a l IH]; intros b b' Hb; cbn [foldM].
  - intros [= <-]. exact Hb.
  - destruct (f b a) as [b1|] eqn:E; cbn [mbind outcome_bind]; [|discriminate].
    apply IH. eapply Hf; eassumption.
Qed.

(** ** What a preview keeps of the engine *)

Lemma initSwing_persistent state params e e' :
  initSwing state params e = Ok e' -> persistent e' = persistent e.
Proof.
  unfold initSwing.
  destruct (foldM (swing_shift_step _ _ _) _ _) as [sh|];
    cbn [mbind outcome_bind]; [|discriminate].
  destruct (foldM (spline_step _ _ _) _ _) as [g|];
    cbn [mbind outcome_bind]; [|discriminate].
  intros [= <-]. reflexivity.
Qed.

Lemma generateSwing_persistent state t e :
  persistent (generateSwing state t e).2 = persistent e.
Proof.
  destruct (generateSwing_inv state t e) as (_ & g & ->). reflexivity.
Qed.

Lemma stance_step_persistent state params full n idx acc k acc' :
  stance_step state params full n idx acc k = Ok acc' ->
  persistent acc'.2 = persistent acc.2 /\ cart_table_ acc'.2 = cart_table_ acc.2.
Proof.
  unfold stance_step.
  destruct (vector_set _ _ _) as [t|]; cbn [mbind outcome_bind]; [|discriminate].
  intros [= <-]. cbn [fst snd]. destruct full; cbv iota.
  - match goal with |- context [generateSwing ?s ?t ?e0] =>
      destruct (generateSwing_inv s t e0) as (_ & g & ->) end.
    split; reflexivity.
  - split; reflexivity.
Qed.

Lemma flight_step_persistent state params full n idx acc k acc' :
  flight_step state params full n idx acc k = Ok acc' ->
  persistent acc'.2 = persistent acc.2.
Proof.
  unfold flight_step.
  destruct (vector_set _ _ _) as [t|]; cbn [mbind outcome_bind]; [|discriminate].
  intros [= <-]. cbn [fst snd]. destruct full; cbv iota; [|reflexivity].
  apply generateSwing_persistent.
Qed.

Lemma stancePreview_persistent trajectory state params full e r :
  stancePreview trajectory state params full e = Ok r ->
  persistent r.2 = persistent e.
Proof.
  unfold stancePreview.
  destruct (full && _); [intros [= <-]; reflexivity|].
  destruct (floor_div _ _) as [n|]; cbn [mbind outcome_bind]; [|discriminate].
  destruct full.
  - destruct (initSwing _ _ _) as [e1|] eqn:E1; cbn [mbind outcome_bind];
      [|discriminate].
    apply initSwing_persistent in E1.
    destruct (foldM _ _ _) as [acc|] eqn:E2; cbn [mbind outcome_bind];
      [|discriminate].
    intros [= <-]. cbn [snd].
    apply (foldM_inv (fun acc => persistent acc.2 = persistent e)) in E2;
      [exact E2 | | exact E1].
    intros b a b' Hb Hs. apply stance_step_persistent in Hs as [-> _]. exact Hb.
  - cbn [mbind outcome_bind].
    destruct (foldM _ _ _) as [acc|] eqn:E2; cbn [mbind outcome_bind];
      [|discriminate].
    intros [= <-]. cbn [snd].
    apply (foldM_inv (fun acc => persistent acc.2 = persistent e)) in E2;
      [exact E2 | | reflexivity].
    intros b a b' Hb Hs. apply stance_step_persistent in Hs as [-> _]. exact Hb.
Qed.

Lemma flightPreview_persistent trajectory state params full e r :
  flightPreview trajectory state params full e = Ok r ->
  persistent r.2 = persistent e.
Proof.
  unfold flightPreview.
  destruct (full && _); [intros [= <-]; reflexivity|].
  destruct (floor_div _ _) as [n|]; cbn [mbind outcome_bind]; [|discriminate].
  destruct full.
  - destruct (initSwing _ _ _) as [e1|] eqn:E1; cbn [mbind outcome_bind];
      [|discriminate].
    apply initSwing_persistent in E1. cbn [fst snd]. intros E2.
    apply (foldM_inv (fun acc => persistent acc.2 = persistent e)) in E2;
      [exact E2 | | exact E1].
    intros b a b' Hb Hs. apply flight_step_persistent in Hs as ->. exact Hb.
  - cbn [mbind outcome_bind fst snd]. intros E2.
    apply (foldM_inv (fun acc => persistent acc.2 = persistent e)) in E2;
      [exact E2 | | reflexivity].
    intros b a b' Hb Hs. apply flight_step_persistent in Hs as ->. exact Hb.
Qed.

Lemma phase_dispatch_persistent actual_state params full e r :
  phase_dispatch actual_state params full e = Ok r ->
  persistent r.2 = persistent e.
Proof.
  unfold phase_dispatch. case_bool_decide.
  - apply stancePreview_persistent.
  - apply flightPreview_persistent.
Qed.

Lemma phase_iteration_persistent state control full acc k acc' :
  phase_iteration state control full acc k = Ok acc' ->
  persistent acc'.2 = persistent acc.2.
Proof.
  unfold phase_iteration.
  destruct (vector_get _ _) as [p|]; cbn [mbind outcome_bind]; [|discriminate].
  destruct (phase_start _ _ _ _ _ _) as [s|]; cbn [mbind outcome_bind];
    [|discriminate].
  destruct (phase_dispatch _ _ _ _) as [r|] eqn:E; cbn [mbind outcome_bind];
    [|discriminate].
  intros [= <-]. cbn [snd]. eapply phase_dispatch_persistent, E.
Qed.

Lemma phase_loop_persistent state control full e r :
  phase_loop state control full e = Ok r -> persistent r.2 = persistent e.
Proof.
  unfold phase_loop. intros E.
  apply (foldM_inv (fun acc => persistent acc.2 = persistent e)) in E;
    [exact E | | reflexivity].
  intros b a b' Hb Hs. apply phase_iteration_persistent in Hs as ->. exact Hb.
Qed.

(** ** No [back()] of an empty vector *)

Create HintDb back_db.

Lemma bib_Ok {A : Type} (a : A) : back_in_bounds (Ok a).
Proof. discriminate. Qed.

Lemma bib_bind {A B : Type} (m : outcome A) (k : A -> outcome B) :
  back_in_bounds m -> (forall a, m = Ok a -> back_in_bounds (k a)) ->
  back_in_bounds (m ≫= k).
Proof.
  intros Hm Hk. destruct m as [a|flt]; cbn [mbind outcome_bind].
  - apply Hk. reflexivity.
  - intros [= ->]. apply Hm. reflexivity.
Qed.

Lemma bib_bind' {A B : Type} (m : outcome A) (k : A -> outcome B) :
  back_in_bounds m -> (forall a, back_in_bounds (k a)) ->
  back_in_bounds (m ≫= k).
Proof. intros Hm Hk. apply bib_bind; auto. Qed.

Lemma bib_foldM {A B : Type} (f : B -> A -> outcome B) (l : list A) (b : B) :
  (forall b a, back_in_bounds (f b a)) -> back_in_bounds (foldM f l b).
Proof.
  intros Hf. revert b. induction l as [|a l IH]; intros b; cbn [foldM].
  - apply bib_Ok.
  - apply bib_bind'; auto.
Qed.

Lemma bib_vector_get {A : Type} (i : nat) (v : list A) :
  back_in_bounds (vector_get i v).
Proof. unfold vector_get. destruct (v !! i); discriminate. Qed.

Lemma bib_vector_set {A : Type} (i : Z) (x : A) (v : list A) :
  back_in_bounds (vector_set i x v).
Proof. unfold vector_set. case_bool_decide; discriminate. Qed.

Lemma bib_floor_div (a b : Q) : back_in_bounds (floor_div a b).
Proof.
  unfold floor_div. destruct (Qeq_bool b 0); [discriminate|].
  case_bool_decide; discriminate.
Qed.

Lemma bib_find_stance e name : back_in_bounds (find_stance e name).
Proof. unfold find_stance. destruct (_ !! _); discriminate. Qed.

#[local] Hint Resolve bib_Ok bib_bind' bib_foldM bib_vector_get bib_vector_set
  bib_floor_div bib_find_stance : back_db.

Lemma bib_initSwing state params e : back_in_bounds (initSwing state params e).
Proof.
  unfold initSwing. apply bib_bind'.
  - apply bib_foldM. intros b a. unfold swing_shift_step. auto with back_db.
  - intros sh. apply bib_bind'; [|auto with back_db].
    apply bib_foldM. intros b a. unfold spline_step.
    destruct (_ !! _); auto with back_db.
Qed.

Lemma bib_stancePreview trajectory state params full e :
  back_in_bounds (stancePreview trajectory state params full e).
Proof.
  unfold stancePreview. destruct (full && _); [apply bib_Ok|].
  apply bib_bind'; [apply bib_floor_div|]. intros n.
  apply bib_bind'.
  - destruct full; [|apply bib_Ok].
    apply bib_bind'; [apply bib_initSwing | auto with back_db].
  - intros r. apply bib_bind'; [|auto with back_db].
    apply bib_foldM. intros b a. unfold stance_step. auto with back_db.
Qed.

Lemma bib_flightPreview trajectory state params full e :
  back_in_bounds (flightPreview trajectory state params full e).
Proof.
  unfold flightPreview. destruct (full && _); [apply bib_Ok|].
  apply bib_bind'; [apply bib_floor_div|]. intros n.
  apply bib_bind'.
  - destruct full; [|apply bib_Ok].
    apply bib_bind'; [apply bib_initSwing | auto with back_db].
  - intros r. apply bib_foldM. intros b a. unfold flight_step.
    auto with back_db.
Qed.

Lemma bib_commit_foothold e p name s :
  back_in_bounds (commit_foothold e p name s).
Proof. unfold commit_foothold. auto with back_db. Qed.

Lemma bib_support_loop e control k cur s :
  back_in_bounds
    (foldM (support_step e control k cur) (seq 0 (num_feet_ e)) s).
Proof.
  apply bib_foldM. intros b a. unfold support_step, support_foot.
  apply bib_bind'; [apply bib_vector_get|]. intros name.
  apply bib_bind'; [apply bib_vector_get|]. intros prev.
  destruct (_ && _); [apply bib_commit_foothold | apply bib_Ok].
Qed.

Lemma bib_trailing_loop e end_control s :
  back_in_bounds (foldM (trailing_step e end_control) (seq 0 (num_feet_ e)) s).
Proof.
  apply bib_foldM. intros b a. unfold trailing_step, trailing_foot.
  apply bib_bind'; [apply bib_vector_get|]. intros name.
  destruct (_ && _); [apply bib_commit_foothold | apply bib_Ok].
Qed.

Lemma append_phase_nonempty state trajectory phase_traj :
  append_phase state trajectory phase_traj <> [].
Proof.
  unfold append_phase. case_bool_decide as H.
  - intros E. apply app_eq_nil in E as [_ [=]].
  - intros E. rewrite E in H. apply H. reflexivity.
Qed.

Lemma phase_iteration_nonempty state control full acc k acc' :
  phase_iteration state control full acc k = Ok acc' -> acc'.1 <> [].
Proof.
  unfold phase_iteration.
  destruct (vector_get _ _) as [p|]; cbn [mbind outcome_bind]; [|discriminate].
  destruct (phase_start _ _ _ _ _ _) as [s|]; cbn [mbind outcome_bind];
    [|discriminate].
  destruct (phase_dispatch _ _ _ _) as [r|]; cbn [mbind outcome_bind];
    [|discriminate].
  intros [= <-]. apply append_phase_nonempty.
Qed.

Lemma bib_phase_iteration state control full acc k :
  k = 0%nat \/ acc.1 <> [] ->
  back_in_bounds (phase_iteration state control full acc k).
Proof.
  intros Hk. unfold phase_iteration.
  apply bib_bind'; [apply bib_vector_get|]. intros p.
  apply bib_bind'.
  - unfold phase_start. case_bool_decide as H0; [apply bib_Ok|].
    destruct Hk as [Hk|Hk]; [contradiction|].
    destruct (back_Ok acc.1 Hk) as (s & -> & _). cbn [mbind outcome_bind].
    destruct (Qgt_bool _ _); [apply bib_support_loop | apply bib_Ok].
  - intros s. apply bib_bind'; [|auto with back_db].
    unfold phase_dispatch. case_bool_decide;
      [apply bib_stancePreview | apply bib_flightPreview].
Qed.

(** The loop over the phases never takes [back()] of an empty trajectory, and
    once it has run an iteration the trajectory is not empty. *)
Lemma phase_loop_prefix state control full e (n : nat) :
  back_in_bounds
    (foldM (phase_iteration state control full) (seq 0 n) ([], e)) /\
  forall acc,
    n <> 0%nat ->
    foldM (phase_iteration state control full) (seq 0 n) ([], e) = Ok acc ->
    acc.1 <> [].
Proof.
  induction n as [|n [IHb IHn]].
  - split; [apply bib_Ok | intros acc H; contradiction].
  - rewrite seq_S, foldM_app. cbn [plus].
    destruct (foldM _ (seq 0 n) _) as [acc1|flt] eqn:E;
      cbn [mbind outcome_bind foldM].
    + assert (Hit : back_in_bounds
                      (phase_iteration state control full acc1 n)).
      { apply bib_phase_iteration. destruct n as [|n']; [left; reflexivity|].
        right. apply IHn; [discriminate | reflexivity]. }
      destruct (phase_iteration state control full acc1 n) as [acc2|flt] eqn:E2;
        cbn [mbind outcome_bind].
      * split; [apply bib_Ok|]. intros acc _ [= <-].
        eapply phase_iteration_nonempty, E2.
      * split; [exact Hit | discriminate].
    + split; [exact IHb | discriminate].
Qed.

Lemma persistent_fields e1 e2 :
  persistent e1 = persistent e2 ->
  sample_time_ e1 = sample_time_ e2 /\ num_feet_ e1 = num_feet_ e2 /\
  feet_names_ e1 = feet_names_ e2 /\ stance_posture_ e1 = stance_posture_ e2 /\
  terrain_ e1 = terrain_ e2 /\
  getPendulumHeight (cart_table_ e1) = getPendulumHeight (cart_table_ e2) /\
  actual_state_ e1 = actual_state_ e2 /\ gravity_ e1 = gravity_ e2 /\
  properties_ (cart_table_ e1) = properties_ (cart_table_ e2).
Proof.
  unfold persistent, config_of, getPendulumHeight. intros [= ].
  repeat split; assumption.
Qed.

Lemma support_after_persistent e1 e2 remove p s0 names R0 name :
  persistent e1 = persistent e2 ->
  support_after e1 remove p s0 names R0 name
  = support_after e2 remove p s0 names R0 name.
Proof.
  intros H. apply persistent_fields in H as (Hst & _ & _ & Hsp & Ht & Hh & Ha & _ & _).
  unfold support_after, committed, foothold_target. rewrite Hst, Hsp, Ht, Hh, Ha.
  reflexivity.
Qed.

Lemma feet_loop e (body : ReducedBodyState -> string -> outcome ReducedBodyState)
    (s : ReducedBodyState) :
  (num_feet_ e <= length (feet_names_ e))%nat ->
  foldM (fun s f => name ← vector_get f (feet_names_ e); body s name)
    (seq 0 (num_feet_ e)) s
  = foldM body (visited_feet e) s.
Proof. apply foldM_indices. Qed.

(** C2 (amended): for a phase index [k > 0] the support region of the start
    state is updated if and only if the duration of the current phase [k]
    exceeds the sample time; otherwise the phase starts from the last state
    of the trajectory as it is. The update visits the feet of the engine; it
    commits the foothold of every visited foot that swung in the previous
    phase [k - 1] when the duration of that phase exceeded the sample time as
    well, removes every other visited foot that the current phase marks as
    swinging, and keeps the other entries. The foothold is the CoM position
    plus the nominal stance offset and the commanded shift of the previous
    phase, rotated by the orientation of the state; its z is the height of
    the terrain at that point when there is a terrain map, and otherwise
    [-(pendulum height + stance z)] less the drift of the CoM height since
    the initial state. *)
Theorem phase_start_support e state control (k : nat) cur prev trajectory s0 :
  (0 < k)%nat ->
  params control !! (k - 1)%nat = Some prev ->
  last trajectory = Some s0 ->
  (num_feet_ e <= length (feet_names_ e))%nat ->
  (forall name, name ∈ visited_feet e -> committed e prev name = true ->
                has_stance e name) ->
  (Qgt_bool (duration cur) (sample_time_ e) = false ->
   phase_start e state control k cur trajectory = Ok s0) /\
  (Qgt_bool (duration cur) (sample_time_ e) = true ->
   exists R : gmap string Vector3d,
     phase_start e state control k cur trajectory
     = Ok (set_support_region R s0) /\
     forall name,
       R !! name
       = if decide (name ∈ visited_feet e) then
           if isSwingFoot (phase prev) name
              && Qgt_bool (duration prev) (sample_time_ e)
           then
             (fun stance =>
                let shift := getFootShift (phase prev) name in
                let target :=
                  vadd (com_pos s0)
                    (fromBaseToWorldFrame
                       (vadd stance (mkVector3d (X2 shift) (Y2 shift) 0))
                       (getRPY_W s0)) in
                mkVector3d (X target) (Y target)
                  (if isTerrainInformation (terrain_ e)
                   then getTerrainHeight (terrain_ e)
                          (mkVector2d (X target) (Y target))
                   else (- (getPendulumHeight (cart_table_ e) + Z3 stance)
                         - (Z3 (com_pos s0)
                            - Z3 (com_pos (actual_state_ e))))%Q))
               <$> stance_posture_ e !! name
           else if isSwingFoot (phase cur) name then None
                else support_region s0 !! name
         else support_region s0 !! name).
Proof.
  intros Hk Hprev Hlast Hfeet Hstance.
  unfold phase_start. rewrite bool_decide_eq_false_2 by lia.
  unfold back. rewrite Hlast. cbn [mbind outcome_bind].
  split; intros ->; [reflexivity|].
  unfold support_step. rewrite feet_loop by exact Hfeet.
  rewrite (foldM_ext _ (update_foot e (isSwingFoot (phase cur)) prev)).
  - destruct (update_foot_fold e (isSwingFoot (phase cur)) prev s0
                (visited_feet e) Hstance (support_region s0)) as (R & E & HR).
    rewrite set_support_region_id in E. rewrite E.
    exists R. split; [reflexivity | exact HR].
  - intros b a. unfold support_foot, update_foot, vector_get.
    rewrite Hprev. reflexivity.
Qed.

(** C3 (amended): once the loop over the phases has returned,
    [multiPhasePreview] appends exactly one state: a copy of the last state
    of the trajectory in whose support region the foothold of every visited
    foot that the last phase marks as swinging is committed, provided the
    duration of that phase exceeds the sample time; the other entries are
    those of the last state. When the duration of the last phase does not
    exceed the sample time nothing is committed: the trailing state repeats
    the last state. The foothold is the CoM position of the last state plus
    the nominal stance offset and the commanded shift of the last phase,
    rotated by the orientation of that state; its z is the height of the
    terrain at that point when there is a terrain map, and otherwise
    [-(pendulum height + stance z)] less the drift of the CoM height since
    the initial state [state]. *)
Theorem trailing_state_commits e state control full traj e' end_control
    trajectory0 :
  robot_model_ e = true ->
  phase_loop state control full (set_actual_state_ state e) = Ok (traj, e') ->
  last (params control) = Some end_control ->
  (num_feet_ e <= length (feet_names_ e))%nat ->
  (forall name, name ∈ visited_feet e -> committed e end_control name = true ->
                has_stance e name) ->
  exists (s_last : ReducedBodyState) (R : gmap string Vector3d),
    last traj = Some s_last /\
    multiPhasePreview trajectory0 state control full e
    = Ok (traj ++ [set_support_region R s_last], e', []) /\
    (forall name,
       R !! name
       = if decide (name ∈ visited_feet e) then
           if isSwingFoot (phase end_control) name
              && Qgt_bool (duration end_control) (sample_time_ e)
           then
             (fun stance =>
                let shift := getFootShift (phase end_control) name in
                let target :=
                  vadd (com_pos s_last)
                    (fromBaseToWorldFrame
                       (vadd stance (mkVector3d (X2 shift) (Y2 shift) 0))
                       (getRPY_W s_last)) in
                mkVector3d (X target) (Y target)
                  (if isTerrainInformation (terrain_ e)
                   then getTerrainHeight (terrain_ e)
                          (mkVector2d (X target) (Y target))
                   else (- (getPendulumHeight (cart_table_ e) + Z3 stance)
                         - (Z3 (com_pos s_last) - Z3 (com_pos state)))%Q))
               <$> stance_posture_ e !! name
           else support_region s_last !! name
         else support_region s_last !! name) /\
    (Qgt_bool (duration end_control) (sample_time_ e) = false ->
     set_support_region R s_last = s_last).
Proof.
  intros Hmodel Hloop Hend Hfeet Hstance.
  pose proof (phase_loop_persistent _ _ _ _ _ Hloop) as Hp. cbn [snd] in Hp.
  assert (Hne : params control <> []).
  { intros E. rewrite E in Hend. discriminate. }
  assert (Htraj : traj <> []).
  { destruct (phase_loop_prefix state control full (set_actual_state_ state e)
                (length (params control))) as [_ H].
    apply (H (traj, e')); [|exact Hloop].
    destruct (params control); [contradiction | discriminate]. }
  destruct (back_Ok traj Htraj) as (s_last & Hback & Hlast).
  pose proof (persistent_fields _ _ Hp) as (Hst & Hnf & Hfn & Hsp & _).
  cbn [sample_time_ num_feet_ feet_names_ stance_posture_ set_actual_state_]
    in Hst, Hnf, Hfn, Hsp.
  assert (Hvisit : visited_feet e' = visited_feet e).
  { unfold visited_feet. rewrite Hnf, Hfn. reflexivity. }
  assert (Hcom : forall name, committed e' end_control name
                              = committed e end_control name).
  { intros name. unfold committed. rewrite Hst. reflexivity. }
  destruct (update_foot_fold e' (fun _ => false) end_control s_last
              (visited_feet e')) with (R0 := support_region s_last)
    as (R & HR & HRl).
  { intros name Hin Hc. rewrite Hvisit in Hin. rewrite Hcom in Hc.
    unfold has_stance. rewrite Hsp. apply Hstance; assumption. }
  rewrite set_support_region_id in HR.
  assert (HRe : forall name,
             R !! name
             = support_after (set_actual_state_ state e) (fun _ => false)
                 end_control s_last (visited_feet e) (support_region s_last)
                 name).
  { intros name. rewrite HRl.
    rewrite (support_after_persistent e' (set_actual_state_ state e))
      by exact Hp.
    rewrite Hvisit. reflexivity. }
  exists s_last, R. split; [exact Hlast|]. split; [|split].
  - unfold multiPhasePreview. rewrite Hmodel. cbn [negb].
    rewrite Hloop. cbn [mbind outcome_bind fst snd].
    unfold add_latest_state. rewrite Hback. cbn [mbind outcome_bind].
    unfold back at 1. rewrite Hend. cbn [mbind outcome_bind].
    unfold trailing_step. rewrite feet_loop by (rewrite Hnf, Hfn; exact Hfeet).
    rewrite (foldM_ext _ (update_foot e' (fun _ => false) end_control))
      by reflexivity.
    rewrite HR. reflexivity.
  - intros name. rewrite HRe. reflexivity.
  - intros Hshort.
    assert (E : R = support_region s_last).
    { apply map_eq. intros name. rewrite HRe. unfold support_after, committed.
      cbn [sample_time_ set_actual_state_]. rewrite Hshort, andb_false_r.
      destruct (decide _); reflexivity. }
    rewrite E. apply set_support_region_id.
Qed.

(** C1 (amended): a STANCE phase previewed in full mode with a duration of
    at least the sample time yields [num_samples + 1] samples, where
    [num_samples] is the integer part of the quotient of the duration by the
    sample time as the machine computes it, in double precision: the first
    [num_samples] at [start + sample_time, start + 2 sample_time, ...],
    followed by a last sample pinned at [start + duration], whether or not
    the duration is a multiple of the sample time. For a control sequence
    made of this one phase, [multiPhasePreview] returns these samples and one
    more state, the trailing state, which carries the time [start + duration]
    as well: [num_samples + 2] states. The sample time is positive, the
    number of samples fits an [unsigned int], the swinging feet have a stance
    posture and the cart-table response keeps the time stamp it is asked
    for. *)
Theorem stance_full_sampling e state (p : PreviewParams) trajectory :
  response_keeps_time ->
  Forall (has_stance e) (feet (phase p)) ->
  (0 < sample_time_ e)%Q ->
  (sample_time_ e <= duration p)%Q ->
  Qfloor (double_div (duration p) (sample_time_ e)) + 1 < UINT_MOD ->
  let num_samples :=
    Z.to_nat (Qfloor (double_div (duration p) (sample_time_ e))) in
  (exists samples e',
     stancePreview trajectory state p true e = Ok (samples, e') /\
     length samples = S num_samples /\
     (forall i : nat, (i < num_samples)%nat ->
        time <$> samples !! i
        = Some (time state + sample_time_ e * inject_Z (Z.of_nat i + 1))%Q) /\
     time <$> last samples = Some (time state + duration p)%Q) /\
  (robot_model_ e = true ->
   type (phase p) = STANCE ->
   (num_feet_ e <= length (feet_names_ e))%nat ->
   (forall name, name ∈ visited_feet e ->
                 isSwingFoot (phase p) name = true -> has_stance e name) ->
   exists output e',
     multiPhasePreview trajectory state (mkPreviewControl [p]) true e
     = Ok (output, e', []) /\
     length output = S (S num_samples) /\
     (forall i : nat, (i < num_samples)%nat ->
        time <$> output !! i
        = Some (time state + sample_time_ e * inject_Z (Z.of_nat i + 1))%Q) /\
     time <$> output !! num_samples = Some (time state + duration p)%Q /\
     time <$> last output = Some (time state + duration p)%Q).
Proof.
  intros Htime Hfeet Hst Hd Hr num_samples. split.
  - exact (stancePreview_full_samples e state p trajectory Htime Hfeet Hst
             Hd Hr).
  - intros Hmodel Hty Hnf Hstance.
    set (e1 := set_actual_state_ state e).
    destruct (stancePreview_full_samples e1 state p [] Htime Hfeet Hst Hd
                Hr) as (samples & e' & Hrun & Hlen & Hi & Hlast).
    change (sample_time_ e1) with (sample_time_ e) in Hlen, Hi.
    fold num_samples in Hlen, Hi.
    pose proof (stancePreview_persistent _ _ _ _ _ _ Hrun) as Hp.
    cbn [snd] in Hp.
    pose proof (persistent_fields _ _ Hp) as (Hst' & Hnf' & Hfn' & Hsp' & _).
    cbn [sample_time_ num_feet_ feet_names_ stance_posture_ set_actual_state_
         e1] in Hst', Hnf', Hfn', Hsp'.
    assert (Hvisit : visited_feet e' = visited_feet e).
    { unfold visited_feet. rewrite Hnf', Hfn'. reflexivity. }
    destruct (last samples) as [s_last|] eqn:Hl; [|discriminate Hlast].
    destruct (update_foot_fold e' (fun _ => false) p s_last
                (visited_feet e')) with (R0 := support_region s_last)
      as (R & HR & _).
    { intros name Hin Hc. rewrite Hvisit in Hin.
      unfold committed in Hc. apply andb_true_iff in Hc as [Hc _].
      unfold has_stance. rewrite Hsp'. apply Hstance; assumption. }
    rewrite set_support_region_id in HR.
    assert (Hne : length samples <> 0%nat) by lia.
    exists (samples ++ [set_support_region R s_last]), e'. split; [|split].
    + unfold multiPhasePreview. rewrite Hmodel. cbn [negb]. fold e1.
      unfold phase_loop. cbn [params length seq foldM].
      unfold phase_iteration, vector_get. cbn [fst snd params lookup].
      cbn [list_lookup mbind outcome_bind].
      unfold phase_start. rewrite bool_decide_eq_true_2 by reflexivity.
      cbn [mbind outcome_bind]. unfold phase_dispatch.
      rewrite bool_decide_eq_true_2 by exact Hty. rewrite Hrun.
      cbn [mbind outcome_bind fst snd]. unfold append_phase. cbn [app].
      rewrite bool_decide_eq_false_2 by exact Hne.
      unfold add_latest_state, back. rewrite Hl. cbn [params last].
      cbn [mbind outcome_bind]. unfold trailing_step.
      rewrite feet_loop by (rewrite Hnf', Hfn'; exact Hnf).
      rewrite (foldM_ext _ (update_foot e' (fun _ => false) p))
        by reflexivity.
      rewrite HR. reflexivity.
    + rewrite length_app, Hlen. cbn [length]. lia.
    + assert (Hend : samples !! num_samples = Some s_last).
      { rewrite last_lookup, Hlen in Hl. exact Hl. }
      split; [|split].
      * intros i Hlt. rewrite lookup_app_l by lia. apply Hi, Hlt.
      * rewrite lookup_app_l by lia. rewrite Hend. exact Hlast.
      * rewrite last_snoc. exact Hlast.
Qed.

(** C10: with a loaded robot model and at least one phase, the accumulated
    trajectory is not empty after any iteration of the loop over the phases
    (the sanity action pushes the initial state when nothing has been produced
    so far), so the trajectory that the loop returns and the control
    parameters both have a last element and no execution ends in [back()] of
    an empty vector. Without any phase the loop returns the cleared
    trajectory, and [trajectory.back()] and [control.params.back()] are both
    taken on an empty vector. *)
Theorem trailing_accesses_in_bounds e state control full :
  robot_model_ e = true ->
  (forall acc k acc',
      phase_iteration state control full acc k = Ok acc' -> acc'.1 <> []) /\
  append_phase state [] [] = [state] /\
  (params control <> [] ->
   (forall traj e',
       phase_loop state control full (set_actual_state_ state e)
       = Ok (traj, e') ->
       is_Ok (back traj) /\ is_Ok (back (params control))) /\
   (forall trajectory,
       back_in_bounds (multiPhasePreview trajectory state control full e))) /\
  (params control = [] ->
   phase_loop state control full (set_actual_state_ state e)
   = Ok ([], set_actual_state_ state e) /\
   back (@nil ReducedBodyState) = Undefined BackOfEmpty /\
   back (params control) = Undefined BackOfEmpty /\
   (forall trajectory,
       multiPhasePreview trajectory state control full e
       = Undefined BackOfEmpty)).
Proof.
  intros Hmodel. split; [|split; [|split]].
  - intros acc k acc'. apply phase_iteration_nonempty.
  - reflexivity.
  - intros Hne.
    destruct (phase_loop_prefix state control full (set_actual_state_ state e)
                (length (params control))) as [Hb Hn].
    assert (Hlen : length (params control) <> 0%nat).
    { destruct (params control); [contradiction | discriminate]. }
    assert (Hacc : forall traj e',
               phase_loop state control full (set_actual_state_ state e)
               = Ok (traj, e') ->
               is_Ok (back traj) /\ is_Ok (back (params control))).
    { intros traj e' Hloop. split.
      - destruct (back_Ok traj) as (s & -> & _); [|eexists; reflexivity].
        apply (Hn (traj, e') Hlen Hloop).
      - destruct (back_Ok (params control) Hne) as (p & -> & _).
        eexists; reflexivity. }
    split; [exact Hacc|]. intros trajectory.
    unfold multiPhasePreview. rewrite Hmodel. cbn [negb].
    apply bib_bind; [exact Hb|]. intros [traj e'] Hloop. cbn [fst snd].
    destruct (Hacc traj e' Hloop) as [[s Hs] [p Hp]].
    apply bib_bind'; [|intros; apply bib_Ok].
    unfold add_latest_state. rewrite Hs, Hp. cbn [mbind outcome_bind].
    apply bib_bind'; [apply bib_trailing_loop | intros; apply bib_Ok].
  - intros Hnil. unfold multiPhasePreview, phase_loop. rewrite Hmodel, Hnil.
    repeat split.
Qed.

(** ** Energy of a sequence of phases *)

Lemma energy_fold (ps : list PreviewParams) :
  forall com_energy state e,
    (foldl energy_step (com_energy, state, e) ps).1.1
    = foldl vadd com_energy (stance_energies state e ps).
Proof.
  induction ps as [|p ps IH]; intros com_energy state e; cbn [foldl].
  - reflexivity.
  - unfold energy_step at 2. cbn [fst snd stance_energies].
    destruct (type (phase p)) eqn:Ht.
    + rewrite bool_decide_eq_true_2 by reflexivity. cbn [fst snd].
      rewrite IH. reflexivity.
    + rewrite bool_decide_eq_false_2 by discriminate. cbn [fst snd].
      rewrite IH. reflexivity.
Qed.

Lemma stance_energies_length (ps : list PreviewParams) :
  forall state e,
    length (stance_energies state e ps) = length (filter is_stance ps).
Proof.
  induction ps as [|p ps IH]; intros state e; cbn [stance_energies].
  - reflexivity.
  - destruct (decide (type (phase p) = STANCE)) as [Ht|Ht].
    + rewrite filter_cons_True
        by (unfold is_stance; rewrite bool_decide_eq_true_2; [exact I|exact Ht]).
      rewrite Ht. cbn [length]. rewrite IH. reflexivity.
    + rewrite filter_cons_False
        by (unfold is_stance; rewrite bool_decide_eq_false_2; [exact id|exact Ht]).
      destruct (type (phase p)); [contradiction | apply IH].
Qed.

(** C6: [multiPhaseEnergy] sums, from zero, the energies that
    [computeSystemEnergy] gives for the STANCE phases of the control
    sequence, one per STANCE phase and none for a FLIGHT phase; every
    iteration advances the running state by one [computeResponse] call to the
    end of the phase. Over a single STANCE phase the result is the energy of
    that phase; over a single FLIGHT phase it is zero. *)
Theorem energy_over_stance_phases e state control com_energy :
  robot_model_ e = true ->
  let e0 := set_actual_state_ state e in
  (multiPhaseEnergy com_energy state control e).1.1
  = foldl vadd Vector3d_Zero (stance_energies state e0 (params control)) /\
  length (stance_energies state e0 (params control))
  = length (filter is_stance (params control)) /\
  (forall acc p,
      type (phase p) = FLIGHT ->
      (energy_step acc p).1.1 = acc.1.1 /\ (energy_step acc p).2 = acc.2) /\
  (forall acc p,
      (energy_step acc p).1.2
      = computeResponse (cart_table_ (energy_step acc p).2) acc.1.2
          (time acc.1.2 + duration p)) /\
  (forall p,
      params control = [p] -> type (phase p) = STANCE ->
      (multiPhaseEnergy com_energy state control e).1.1
      = (computeSystemEnergy state
           (mkCartTableControlParams (duration p) (cop_shift p))
           (cart_table_ e)).1) /\
  (forall p,
      params control = [p] -> type (phase p) = FLIGHT ->
      (multiPhaseEnergy com_energy state control e).1.1 = Vector3d_Zero).
Proof.
  intros Hmodel e0.
  assert (Hsum : (multiPhaseEnergy com_energy state control e).1.1
                 = foldl vadd Vector3d_Zero
                     (stance_energies state e0 (params control))).
  { unfold multiPhaseEnergy. rewrite Hmodel. cbn [negb fst snd].
    apply energy_fold. }
  split; [exact Hsum|]. split; [apply stance_energies_length|].
  split; [|split; [|split]].
  - intros acc p Ht. unfold energy_step.
    rewrite bool_decide_eq_false_2 by (rewrite Ht; discriminate).
    split; reflexivity.
  - intros acc p. reflexivity.
  - intros p Hp Ht. rewrite Hsum, Hp. cbn [stance_energies]. rewrite Ht.
    cbn [foldl]. apply vadd_Zero_l.
  - intros p Hp Ht. rewrite Hsum, Hp. cbn [stance_energies]. rewrite Ht.
    reflexivity.
Qed.

(** ** Reading a preview sequence *)

Lemma read_phases_continue yaml_reader e (ks1 ks2 : list nat) :
  forall control c1,
    read_phases yaml_reader e ks1 control = Ok (c1, []) ->
    read_phases yaml_reader e (ks1 ++ ks2) control
    = read_phases yaml_reader e ks2 c1.
Proof.
  induction ks1 as [|k ks1 IH]; intros control c1; cbn [read_phases app].
  - intros [= <-]. reflexivity.
  - destruct (vector_get k (params control)) as [p|]; cbn [mbind outcome_bind];
      [|discriminate].
    destruct (read_phase yaml_reader e k p).2; [discriminate|]. apply IH.
Qed.

Lemma read_phases_length yaml_reader e (ks : list nat) :
  forall control r,
    read_phases yaml_reader e ks control = Ok r ->
    length (params r.1) = length (params control).
Proof.
  induction ks as [|k ks IH]; intros control r; cbn [read_phases].
  - intros [= <-]. reflexivity.
  - destruct (vector_get k (params control)) as [p|]; cbn [mbind outcome_bind];
      [|discriminate].
    destruct (read_phase yaml_reader e k p).2.
    + intros [= <-]. cbn [fst params]. apply length_insert.
    + intros H. apply IH in H. rewrite H. cbn [params]. apply length_insert.
Qed.

(** The loop stops in the phase whose read prints: the phases before it
    are as they were read, the phases after it are not touched. *)
Lemma read_phases_abort yaml_reader e (k n : nat) control c1 p msg :
  (k < n)%nat ->
  read_phases yaml_reader e (seq 0 k) control = Ok (c1, []) ->
  params c1 !! k = Some p ->
  (read_phase yaml_reader e k p).2 = Some msg ->
  read_phases yaml_reader e (seq 0 n) control
  = Ok (mkPreviewControl
          (<[k := (read_phase yaml_reader e k p).1]> (params c1)), [msg]).
Proof.
  intros Hk Hpre Hp Hmsg.
  replace n with (k + S (n - S k))%nat by lia.
  rewrite seq_app, (read_phases_continue _ _ _ _ _ _ Hpre).
  cbn [plus seq read_phases]. unfold vector_get. rewrite Hp.
  cbn [mbind outcome_bind]. rewrite Hmsg. reflexivity.
Qed.

(** C7 (amended): when a required key is absent, [readPreviewSequence]
    prints one error message and returns at that point: the fields read
    before the missing key keep the values read, nothing after it is read or
    written. This holds for [com_pos], [com_vel], [cop], [number_phase], the
    [duration] of a phase and the [head_acc] of a STANCE phase. The function
    returns nothing: what the caller holds is the state and the control. *)
Theorem missing_key_aborts_read e dflt state control yaml_reader :
  robot_model_ e = true ->
  let run := readPreviewSequence dflt state control yaml_reader e in
  let rd3 := read_Vector3d yaml_reader state_ns in
  (rd3 "com_pos" = None -> run = Ok (state, control, [MSG_NO_COM_POS])) /\
  (forall p, rd3 "com_pos" = Some p -> rd3 "com_vel" = None ->
     run = Ok (set_com_pos p state, control, [MSG_NO_COM_VEL])) /\
  (forall p v, rd3 "com_pos" = Some p -> rd3 "com_vel" = Some v ->
     rd3 "cop" = None ->
     run = Ok (set_com_vel v (set_com_pos p state), control, [MSG_NO_COP])) /\
  (forall p v c, rd3 "com_pos" = Some p -> rd3 "com_vel" = Some v ->
     rd3 "cop" = Some c ->
     let state' := set_cop c (set_com_vel v (set_com_pos p state)) in
     (read_int yaml_reader control_ns "number_phase" = None ->
      run = Ok (state', control, [MSG_NO_NUMBER_PHASE])) /\
     (forall (num_phases : Z) (k : nat) c1 pk,
        read_int yaml_reader control_ns "number_phase" = Some num_phases ->
        Z.of_nat k < num_phases ->
        read_phases yaml_reader e (seq 0 k)
          (mkPreviewControl
             (resize (Z.to_nat num_phases) dflt (params control)))
        = Ok (c1, []) ->
        params c1 !! k = Some pk ->
        (read_double yaml_reader (phase_ns k) "duration" = None ->
         run = Ok (state', c1, [MSG_NO_DURATION k])) /\
        (forall d,
           read_double yaml_reader (phase_ns k) "duration" = Some d ->
           type (phase (phase_header yaml_reader k d pk)) = STANCE ->
           read_double yaml_reader (phase_ns k) "head_acc" = None ->
           run = Ok (state',
                     mkPreviewControl
                       (<[k := phase_header yaml_reader k d pk]> (params c1)),
                     [MSG_NO_HEAD_ACC k])))).
Proof.
  intros Hmodel run rd3. subst run rd3. unfold readPreviewSequence.
  rewrite Hmodel. cbn [negb].
  split; [intros ->; reflexivity|].
  split; [intros p -> ->; reflexivity|].
  split; [intros p v -> -> ->; reflexivity|].
  intros p v c -> -> ->. split; [intros ->; reflexivity|].
  intros num_phases k c1 pk -> Hk Hpre Hpk.
  rewrite bool_decide_eq_false_2 by lia.
  split.
  - intros Hd.
    assert (Hr : read_phase yaml_reader e k pk = (pk, Some (MSG_NO_DURATION k))).
    { unfold read_phase. rewrite Hd. reflexivity. }
    rewrite (read_phases_abort yaml_reader e k (Z.to_nat num_phases) _ c1 pk
               (MSG_NO_DURATION k)); [|lia|exact Hpre|exact Hpk|].
    + cbn [mbind outcome_bind fst snd]. rewrite Hr. cbn [fst].
      rewrite list_insert_id by exact Hpk. destruct c1. reflexivity.
    + rewrite Hr. reflexivity.
  - intros d Hd Hty Hh.
    assert (Hr : read_phase yaml_reader e k pk
                 = (phase_header yaml_reader k d pk, Some (MSG_NO_HEAD_ACC k))).
    { unfold read_phase. rewrite Hd. fold (phase_header yaml_reader k d pk).
      unfold getTypeOfPhase. rewrite Hty.
      rewrite bool_decide_eq_true_2 by reflexivity. rewrite Hh. reflexivity. }
    rewrite (read_phases_abort yaml_reader e k (Z.to_nat num_phases) _ c1 pk
               (MSG_NO_HEAD_ACC k)); [|lia|exact Hpre|exact Hpk|].
    + cbn [mbind outcome_bind fst snd]. rewrite Hr. reflexivity.
    + rewrite Hr. reflexivity.
Qed.

(** ** Independence from the context left by earlier calls *)



Lemma agree_eq {A : Type} (m : outcome A) : agree eq m m.
Proof. destruct m; reflexivity. Qed.


Lemma has_stance_persistent e1 e2 name :
  persistent e1 = persistent e2 -> has_stance e1 name -> has_stance e2 name.
Proof.
  intros H. apply persistent_fields in H as (_ & _ & _ & Hsp & _).
  unfold has_stance. rewrite Hsp. auto.
Qed.















End Properties.

(** * The properties on the concrete engine *)

Lemma toy_response_keeps_time : response_keeps_time (cart := toy_cart).
Proof. intros props h [s0|] s; reflexivity. Defined.

(** The quotient of doubles on the values at hand: 0.1 and 0.3 are not
    doubles and are rounded when they are read; 0.5 / 0.1 is rounded up to 5,
    although the quotient of the two doubles is below 5; 0.3 / 0.1 is rounded
    to the double below 3. *)
Example double_quotients :
  Qred (round_double (1 # 10)) = double_01 /\
  Qred (round_double (3 # 10)) = double_03 /\
  Qred (round_double (1 # 2)) = (1 # 2)%Q /\
  Qfloor ((1 # 2) / double_01) = 4 /\
  Qfloor (double_div (1 # 2) double_01) = 5 /\
  Qfloor (double_div double_03 double_01) = 2.
Proof. vm_compute. repeat split; reflexivity. Qed.

(** C1 as stated fails on its scenario: for one STANCE phase of 0.5 s
    sampled every 0.1 s, the output trajectory of [multiPhasePreview] has
    seven states, the six samples of the phase and the trailing state. It
    fails on the number of samples as well when the quotient is taken on the
    reals: 0.3 / 0.1 is 3, but a STANCE phase of 0.3 s sampled every 0.1 s has
    three samples, at 0.1 s, 0.2 s and 0.3 s, the quotient of the doubles
    being just below 3. *)
Lemma stance_scenario_counterexample :
  preview_length
    (multiPhasePreview (frame_tf_ := toy_frame) [] toy_state
       (mkPreviewControl [stance_05]) true toy_engine_double)
  = Ok 7%nat /\
  Qfloor ((3 # 10) / (1 # 10)) = 3 /\
  sample_count
    (stancePreview (frame_tf_ := toy_frame) [] toy_state stance_03 true
       toy_engine_double)
  = Ok 3%nat /\
  reduced_sample_times
    (stancePreview (frame_tf_ := toy_frame) [] toy_state stance_03 true
       toy_engine_double)
  = Ok [double_01; Qred (2 * double_01); double_03].
Proof. vm_compute. repeat split; reflexivity. Qed.

(** C1 (amended) on the scenario of the spec, with the double 0.1 for the
    sample time: one STANCE phase of 0.5 s gives six samples, the last at
    0.5 s, and [multiPhasePreview] returns seven states, the last two at
    0.5 s. *)
Lemma stance_full_sampling_witness :
  (exists samples e',
     stancePreview (frame_tf_ := toy_frame) [] toy_state stance_05 true
       toy_engine_double
     = Ok (samples, e') /\
     length samples = 6%nat /\
     time <$> samples !! 0%nat = Some (0 + double_01 * inject_Z 1)%Q /\
     time <$> last samples = Some (0 + (1 # 2))%Q) /\
  (exists output e',
     multiPhasePreview (frame_tf_ := toy_frame) [] toy_state
       (mkPreviewControl [stance_05]) true toy_engine_double
     = Ok (output, e', []) /\
     length output = 7%nat /\
     time <$> output !! 5%nat = Some (0 + (1 # 2))%Q /\
     time <$> last output = Some (0 + (1 # 2))%Q).
Proof.
  destruct (stance_full_sampling (frame_tf_ := toy_frame) toy_engine_double
              toy_state stance_05 [])
    as [(samples & e' & Hrun & Hlen & Hi & Hlast) Hpreview].
  - exact toy_response_keeps_time.
  - constructor.
  - reflexivity.
  - vm_compute. discriminate.
  - vm_compute. reflexivity.
  - split.
    + exists samples, e'. split; [exact Hrun|]. split; [exact Hlen|].
      split; [apply (Hi 0%nat); vm_compute; repeat constructor | exact Hlast].
    + destruct Hpreview as (output & e'' & Hrun' & Hlen' & _ & Hend & Hlast').
      * reflexivity.
      * reflexivity.
      * vm_compute. repeat constructor.
      * intros name _ Hswing. discriminate Hswing.
      * exists output, e''. split; [exact Hrun'|]. split; [exact Hlen'|].
        split; [exact Hend | exact Hlast'].
Defined.

(** With the sample time taken as the rational 1/10 the quotient is 5 on
    the nose, and the run has the same shape. *)
Example single_stance_phase_preview :
  preview_times
    (multiPhasePreview (frame_tf_ := toy_frame) [] toy_state
       (mkPreviewControl [stance_05]) true toy_engine)
  = Ok [1 # 10; 2 # 10; 3 # 10; 4 # 10; 5 # 10; 1 # 2; 1 # 2]%Q.
Proof. vm_compute. reflexivity. Qed.

(** C4 on a FLIGHT phase of 0.5 s sampled every 0.1 s: five elements are
    allotted and the sixth write is out of bounds. *)
Lemma flight_full_out_of_bounds_witness :
  flightPreview (frame_tf_ := toy_frame) [] toy_state flight_05 true toy_engine
  = Undefined OutOfBounds.
Proof.
  apply (flight_full_out_of_bounds (frame_tf_ := toy_frame)).
  - constructor.
  - reflexivity.
  - vm_compute. discriminate.
  - reflexivity.
Defined.

(** In summary mode the same FLIGHT phase gives its terminal state. *)
Example flight_summary_preview :
  sample_times
    (flightPreview (frame_tf_ := toy_frame) [] toy_state flight_05 false
       toy_engine)
  = Ok [1 # 2]%Q.
Proof. vm_compute. reflexivity. Qed.

(** C5 as stated fails when the duration equals the sample time: the guard
    is strict, and a STANCE phase of 0.1 s sampled every 0.1 s gives two
    samples. *)
Lemma short_phase_counterexample :
  (duration stance_01 <= sample_time_ toy_engine)%Q /\
  exists samples e',
    stancePreview (frame_tf_ := toy_frame) [] toy_state stance_01 true toy_engine
    = Ok (samples, e') /\
    length samples = 2%nat.
Proof.
  split; [vm_compute; discriminate|].
  assert (H : sample_times
                (stancePreview (frame_tf_ := toy_frame) [] toy_state stance_01
                   true toy_engine)
              = Ok [1 # 10; 1 # 10]%Q) by (vm_compute; reflexivity).
  destruct (stancePreview _ _ _ _ _) as [[samples e']|f]; [|discriminate].
  exists samples, e'. split; [reflexivity|].
  injection H as H. cbn [fst] in H.
  rewrite <- (length_fmap time), H. reflexivity.
Qed.

(** C5 (amended) on phases of 0.05 s sampled every 0.1 s. *)
Lemma short_phase_no_samples_witness :
  stancePreview (frame_tf_ := toy_frame) [] toy_state stance_005 true toy_engine
  = Ok ([], toy_engine) /\
  flightPreview (frame_tf_ := toy_frame) [] toy_state flight_005 true toy_engine
  = Ok ([], toy_engine).
Proof.
  split.
  - apply (short_phase_no_samples (frame_tf_ := toy_frame) toy_engine toy_state
             stance_005 []). reflexivity.
  - apply (short_phase_no_samples (frame_tf_ := toy_frame) toy_engine toy_state
             flight_005 []). reflexivity.
Defined.

(** A FLIGHT phase as long as the sample time passes the guard as well, and
    runs into the out-of-bounds write. *)
Example flight_at_sample_time :
  sample_times
    (flightPreview (frame_tf_ := toy_frame) [] toy_state flight_01 true
       toy_engine)
  = Undefined OutOfBounds.
Proof. vm_compute. reflexivity. Qed.

(** C2 as stated fails in both directions, and on the removal. The runs
    are in summary mode, where every phase gives one state, which carries the
    support region of the start state of the phase; the last state of each
    run is the trailing state. After a phase of 0.4 s in which LF swung, a
    phase of 0.05 s starts from the last state as it is: the foothold of LF
    is not committed although the previous phase exceeded the sample time.
    After a phase of 0.05 s, a phase of 0.4 s in which LF swings starts
    without LF in its support region although the previous phase did not
    exceed the sample time. And when LF swings in two consecutive phases of
    0.4 s, the second one starts with LF in its support region, at the
    committed foothold: the foot that the current phase marks as swinging is
    not removed. *)
Lemma phase_start_counterexample :
  (Qgt_bool (duration stance_04_LF) (sample_time_ toy_engine) = true /\
   isSwingFoot (phase stance_04_LF) "LF" = true /\
   preview_support "LF"
     (multiPhasePreview (frame_tf_ := toy_frame) [] toy_state
        (mkPreviewControl [stance_04_LF; stance_005]) false toy_engine)
   = Ok [(2 # 5, Some (mkVector3d (1 # 5) (1 # 10) (- (1 # 2))));
         (9 # 20, Some (mkVector3d (1 # 5) (1 # 10) (- (1 # 2))));
         (9 # 20, Some (mkVector3d (1 # 5) (1 # 10) (- (1 # 2))))]%Q) /\
  (Qgt_bool (duration stance_005) (sample_time_ toy_engine) = false /\
   preview_support "LF"
     (multiPhasePreview (frame_tf_ := toy_frame) [] toy_state
        (mkPreviewControl [stance_005; stance_04_LF]) false toy_engine)
   = Ok [(1 # 20, Some (mkVector3d (1 # 5) (1 # 10) (- (1 # 2))));
         (9 # 20, None);
         (9 # 20, Some (mkVector3d (69 # 200) (1 # 10) 0))]%Q) /\
  (isSwingFoot (phase stance_04_LF) "LF" = true /\
   preview_support "LF"
     (multiPhasePreview (frame_tf_ := toy_frame) [] toy_state
        (mkPreviewControl [stance_04_LF; stance_04_LF]) false toy_engine)
   = Ok [(2 # 5, Some (mkVector3d (1 # 5) (1 # 10) (- (1 # 2))));
         (4 # 5, Some (mkVector3d (17 # 50) (1 # 10) 0));
         (4 # 5, Some (mkVector3d (19 # 50) (1 # 10) 0))]%Q).
Proof. vm_compute. repeat split; reflexivity. Qed.

(** The same in full mode, where a phase of 0.05 s gives no sample: after
    such a phase, whose only trace is the initial state, the five samples of
    a phase of 0.4 s in which LF swings have no entry for LF. *)
Example phase_start_full_mode :
  preview_support "LF"
    (multiPhasePreview (frame_tf_ := toy_frame) [] toy_state
       (mkPreviewControl [stance_005; stance_04_LF]) true toy_engine)
  = Ok [(0, Some (mkVector3d (1 # 5) (1 # 10) (- (1 # 2))));
        (1 # 10, None); (1 # 5, None); (3 # 10, None); (2 # 5, None);
        (2 # 5, None);
        (2 # 5, Some (mkVector3d (17 # 50) (1 # 10) 0))]%Q.
Proof. vm_compute. reflexivity. Qed.

Lemma toy_visited_feet_stance (name : string) :
  name ∈ visited_feet toy_engine_started -> has_stance toy_engine_started name.
Proof.
  intros Hin. change (name ∈ ["LF"; "RF"]) in Hin.
  apply elem_of_cons in Hin as [->|Hin]; [eexists; reflexivity|].
  apply elem_of_cons in Hin as [->|Hin]; [eexists; reflexivity|].
  apply elem_of_nil in Hin. contradiction.
Defined.

(** The first iteration of the loop over the phases, for a phase of 0.4 s
    in which LF swings: one state, at 0.4 s, the CoM 0.04 m ahead. *)
Example toy_first_phase_run :
  is_Ok_bool
    (phase_iteration (frame_tf_ := toy_frame) toy_state toy_two_phases false
       ([], toy_engine_started) 0)
  = true /\
  toy_first_phase = [toy_first_end] /\
  Qred (time toy_first_end) = (2 # 5)%Q /\
  vred (com_pos toy_first_end) = mkVector3d (1 # 25) 0 (1 # 2).
Proof. vm_compute. repeat split; reflexivity. Qed.

Lemma toy_first_feet_stance (name : string) :
  name ∈ visited_feet toy_engine_first -> has_stance toy_engine_first name.
Proof.
  intros Hin.
  assert (Hv : visited_feet toy_engine_first = ["LF"; "RF"])
    by (vm_compute; reflexivity).
  rewrite Hv in Hin.
  apply elem_of_cons in Hin as [->|Hin];
    [eexists; vm_compute; reflexivity|].
  apply elem_of_cons in Hin as [->|Hin];
    [eexists; vm_compute; reflexivity|].
  apply elem_of_nil in Hin. contradiction.
Defined.

(** C2 (amended) on a phase of 0.5 s that follows a phase of 0.4 s in which
    LF swung, from the trajectory and the engine that the iteration of that
    phase leaves: the foothold of LF is committed 0.3 m ahead of the CoM and
    0.1 m to its side, on the ground; the entry of RF is kept. A phase of
    0.05 s in its place starts from the last state as it is. *)
Lemma phase_start_support_witness :
  (exists R : gmap string Vector3d,
     phase_start (frame_tf_ := toy_frame) toy_engine_first toy_state
       toy_two_phases 1 stance_05 toy_first_phase
     = Ok (set_support_region R toy_first_end) /\
     vred <$> R !! "LF" = Some (mkVector3d (17 # 50) (1 # 10) 0) /\
     R !! "RF" = support_region toy_first_end !! "RF") /\
  phase_start (frame_tf_ := toy_frame) toy_engine_first toy_state
    (mkPreviewControl [stance_04_LF; stance_005]) 1 stance_005 toy_first_phase
  = Ok toy_first_end.
Proof.
  split.
  - destruct (phase_start_support (frame_tf_ := toy_frame) toy_engine_first
                toy_state toy_two_phases 1 stance_05 stance_04_LF
                toy_first_phase toy_first_end)
      as [_ Hupd].
    + vm_compute. repeat constructor.
    + reflexivity.
    + vm_compute. reflexivity.
    + vm_compute. repeat constructor.
    + intros name Hin _. apply toy_first_feet_stance, Hin.
    + destruct Hupd as (R & Hrun & HR); [vm_compute; reflexivity|].
      exists R. split; [exact Hrun|].
      split; rewrite HR; vm_compute; reflexivity.
  - destruct (phase_start_support (frame_tf_ := toy_frame) toy_engine_first
                toy_state (mkPreviewControl [stance_04_LF; stance_005]) 1
                stance_005 stance_04_LF toy_first_phase toy_first_end)
      as [Hkeep _].
    + vm_compute. repeat constructor.
    + reflexivity.
    + vm_compute. reflexivity.
    + vm_compute. repeat constructor.
    + intros name Hin _. apply toy_first_feet_stance, Hin.
    + apply Hkeep. vm_compute. reflexivity.
Defined.

(** C3 as stated fails: the trajectory need not end with the last footstep
    committed. When a phase of 0.4 s in which LF swings is followed by a
    STANCE phase of 0.05 s, the start state of the second phase is not
    updated and the trailing state looks at the second phase only: the
    trajectory ends with LF where it stood before the step. When LF swings
    in a single phase as long as the sample time, the phase is sampled and
    nothing is committed. A single phase of 0.4 s in which LF swings ends
    with the foothold committed. *)
Lemma trailing_state_counterexample :
  (type (phase stance_005) = STANCE /\
   isSwingFoot (phase stance_04_LF) "LF" = true /\
   Qgt_bool (duration stance_04_LF) (sample_time_ toy_engine) = true /\
   preview_support "LF"
     (multiPhasePreview (frame_tf_ := toy_frame) [] toy_state
        (mkPreviewControl [stance_04_LF; stance_005]) true toy_engine)
   = Ok [(1 # 10, Some (mkVector3d (1 # 5) (1 # 10) (- (1 # 2))));
         (1 # 5, Some (mkVector3d (1 # 5) (1 # 10) (- (1 # 2))));
         (3 # 10, Some (mkVector3d (1 # 5) (1 # 10) (- (1 # 2))));
         (2 # 5, Some (mkVector3d (1 # 5) (1 # 10) (- (1 # 2))));
         (2 # 5, Some (mkVector3d (1 # 5) (1 # 10) (- (1 # 2))));
         (2 # 5, Some (mkVector3d (1 # 5) (1 # 10) (- (1 # 2))))]%Q) /\
  (isSwingFoot (phase stance_01_LF) "LF" = true /\
   preview_support "LF"
     (multiPhasePreview (frame_tf_ := toy_frame) [] toy_state
        (mkPreviewControl [stance_01_LF]) true toy_engine)
   = Ok [(1 # 10, Some (mkVector3d (1 # 5) (1 # 10) (- (1 # 2))));
         (1 # 10, Some (mkVector3d (1 # 5) (1 # 10) (- (1 # 2))));
         (1 # 10, Some (mkVector3d (1 # 5) (1 # 10) (- (1 # 2))))]%Q) /\
  preview_support "LF"
    (multiPhasePreview (frame_tf_ := toy_frame) [] toy_state
       (mkPreviewControl [stance_04_LF]) true toy_engine)
  = Ok [(1 # 10, Some (mkVector3d (1 # 5) (1 # 10) (- (1 # 2))));
        (1 # 5, Some (mkVector3d (1 # 5) (1 # 10) (- (1 # 2))));
        (3 # 10, Some (mkVector3d (1 # 5) (1 # 10) (- (1 # 2))));
        (2 # 5, Some (mkVector3d (1 # 5) (1 # 10) (- (1 # 2))));
        (2 # 5, Some (mkVector3d (1 # 5) (1 # 10) (- (1 # 2))));
        (2 # 5, Some (mkVector3d (17 # 50) (1 # 10) 0))]%Q.
Proof. vm_compute. repeat split; reflexivity. Qed.

(** C3 (amended) on a single phase of 0.4 s in which LF swings: the
    trajectory ends with one more state, in which the foothold of LF is
    committed 0.3 m ahead of the CoM of the last sample and 0.1 m to its
    side, on the ground; and on a single phase of 0.05 s: the trailing state
    repeats the last state. *)
Lemma trailing_state_commits_witness :
  (exists traj e' s_last (R : gmap string Vector3d),
     multiPhasePreview (frame_tf_ := toy_frame) [] toy_state
       (mkPreviewControl [stance_04_LF]) true toy_engine
     = Ok (traj ++ [set_support_region R s_last], e', []) /\
     last traj = Some s_last /\
     R !! "LF"
     = Some (mkVector3d
               (X (com_pos s_last) + ((1 # 5) + (1 # 10)))
               (Y (com_pos s_last) + ((1 # 10) + 0))
               (- ((1 # 2) + - (1 # 2)) - (Z3 (com_pos s_last) - (1 # 2))))%Q /\
     R !! "RF" = support_region s_last !! "RF") /\
  (exists traj e' s_last,
     multiPhasePreview (frame_tf_ := toy_frame) [] toy_state
       (mkPreviewControl [stance_005]) true toy_engine
     = Ok (traj ++ [s_last], e', []) /\
     last traj = Some s_last).
Proof.
  split.
  - assert (Hloop : is_Ok_bool
                      (phase_loop (frame_tf_ := toy_frame) toy_state
                         (mkPreviewControl [stance_04_LF]) true
                         toy_engine_started)
                    = true) by (vm_compute; reflexivity).
    destruct (phase_loop (frame_tf_ := toy_frame) toy_state
                (mkPreviewControl [stance_04_LF]) true toy_engine_started)
      as [[traj e']|f] eqn:Hphases; [clear Hloop|discriminate].
    destruct (trailing_state_commits (frame_tf_ := toy_frame) toy_engine
                toy_state (mkPreviewControl [stance_04_LF]) true traj e'
                stance_04_LF [])
      as (s_last & R & Hlast & Hrun & HR & _).
    + reflexivity.
    + exact Hphases.
    + reflexivity.
    + vm_compute. repeat constructor.
    + intros name Hin _. apply (toy_visited_feet_stance name), Hin.
    + exists traj, e', s_last, R. split; [exact Hrun|]. split; [exact Hlast|].
      split; rewrite HR; reflexivity.
  - assert (Hloop : is_Ok_bool
                      (phase_loop (frame_tf_ := toy_frame) toy_state
                         (mkPreviewControl [stance_005]) true
                         toy_engine_started)
                    = true) by (vm_compute; reflexivity).
    destruct (phase_loop (frame_tf_ := toy_frame) toy_state
                (mkPreviewControl [stance_005]) true toy_engine_started)
      as [[traj e']|f] eqn:Hphases; [clear Hloop|discriminate].
    destruct (trailing_state_commits (frame_tf_ := toy_frame) toy_engine
                toy_state (mkPreviewControl [stance_005]) true traj e'
                stance_005 [])
      as (s_last & R & Hlast & Hrun & _ & Hshort).
    + reflexivity.
    + exact Hphases.
    + reflexivity.
    + vm_compute. repeat constructor.
    + intros name Hin _. apply (toy_visited_feet_stance name), Hin.
    + exists traj, e', s_last. rewrite Hshort in Hrun by reflexivity.
      split; [exact Hrun | exact Hlast].
Defined.

(** C6 on single phases: a STANCE phase gives the energy of
    [computeSystemEnergy], a FLIGHT phase gives zero. *)
Lemma energy_over_stance_phases_witness :
  (multiPhaseEnergy (mkVector3d 1 1 1) toy_state
     (mkPreviewControl [stance_05]) toy_engine).1.1
  = (computeSystemEnergy toy_state
       (mkCartTableControlParams (duration stance_05) (cop_shift stance_05))
       (cart_table_ toy_engine)).1 /\
  (multiPhaseEnergy (mkVector3d 1 1 1) toy_state
     (mkPreviewControl [flight_05]) toy_engine).1.1
  = Vector3d_Zero.
Proof.
  split.
  - destruct (energy_over_stance_phases toy_engine
                toy_state (mkPreviewControl [stance_05]) (mkVector3d 1 1 1)
                eq_refl) as (_ & _ & _ & _ & Hs & _).
    apply (Hs stance_05); reflexivity.
  - destruct (energy_over_stance_phases toy_engine
                toy_state (mkPreviewControl [flight_05]) (mkVector3d 1 1 1)
                eq_refl) as (_ & _ & _ & _ & _ & Hf).
    apply (Hf flight_05); reflexivity.
Defined.

(** A sequence STANCE, FLIGHT, STANCE accumulates two energies. *)
Example energy_three_phases :
  length (stance_energies toy_state toy_engine_started
            [stance_05; flight_05; stance_04_LF]) = 2%nat.
Proof. reflexivity. Qed.

(** C7 as stated fails: the caller gets no failure indicator. Reading a
    description without [number_phase] (a required key) and reading a
    complete description of zero phases leave the caller with the same state
    and the same control; only what is printed differs. *)
Lemma read_failure_counterexample :
  read_int yaml_without_number_phase control_ns "number_phase" = None /\
  exists (held : ReducedBodyState * PreviewControl) (msg : string),
    readPreviewSequence toy_default_params toy_state
      (mkPreviewControl []) yaml_zero_phases toy_engine
    = Ok (held, []) /\
    readPreviewSequence toy_default_params toy_state
      (mkPreviewControl []) yaml_without_number_phase toy_engine
    = Ok (held, [msg]).
Proof.
  split; [reflexivity|]. eexists. eexists. split; reflexivity.
Qed.

(** C7 (amended) on a description that announces one phase without a
    duration: the state keys are read, the control is resized, the message is
    printed. *)
Lemma missing_key_aborts_read_witness :
  readPreviewSequence toy_default_params toy_state
    (mkPreviewControl []) yaml_phase_without_duration toy_engine
  = Ok (set_cop Vector3d_Zero
          (set_com_vel (mkVector3d (1 # 10) 0 0)
             (set_com_pos (mkVector3d 0 0 (1 # 2)) toy_state)),
        mkPreviewControl [toy_default_params],
        [MSG_NO_DURATION 0]).
Proof.
  destruct (missing_key_aborts_read toy_engine
              toy_default_params toy_state (mkPreviewControl [])
              yaml_phase_without_duration eq_refl)
    as (_ & _ & _ & H).
  destruct (H (mkVector3d 0 0 (1 # 2)) (mkVector3d (1 # 10) 0 0) Vector3d_Zero
              eq_refl eq_refl eq_refl) as [_ Hphase].
  destruct (Hphase 1 0%nat (mkPreviewControl [toy_default_params])
              toy_default_params eq_refl eq_refl eq_refl eq_refl)
    as [Hduration _].
  apply Hduration. reflexivity.
Defined.

(** C8 on the engine without a robot model. *)
Lemma uninitialized_model_guard_witness :
  multiPhasePreview (frame_tf_ := toy_frame) [toy_state] toy_state
    (mkPreviewControl [stance_05]) true toy_engine_unloaded
  = Ok ([toy_state], toy_engine_unloaded, [MSG_NO_MODEL]) /\
  multiPhaseEnergy (mkVector3d 1 1 1) toy_state
    (mkPreviewControl [stance_05]) toy_engine_unloaded
  = (mkVector3d 1 1 1, toy_engine_unloaded, [MSG_NO_MODEL]) /\
  readPreviewSequence toy_default_params toy_state
    (mkPreviewControl [stance_05]) yaml_zero_phases toy_engine_unloaded
  = Ok (toy_state, mkPreviewControl [stance_05], [MSG_NO_MODEL]).
Proof.
  destruct (uninitialized_model_guard (frame_tf_ := toy_frame)
              toy_engine_unloaded eq_refl) as (Hp & He & Hr).
  split; [apply Hp|]. split; [apply He | apply Hr].
Defined.


(** C10 on a single phase too short to produce a sample: the sanity action
    pushes the initial state and the trailing step finds a last element. *)
Lemma trailing_accesses_in_bounds_witness :
  back_in_bounds
    (multiPhasePreview (frame_tf_ := toy_frame) [] toy_state
       (mkPreviewControl [stance_005]) true toy_engine) /\
  multiPhasePreview (frame_tf_ := toy_frame) [] toy_state
    (mkPreviewControl []) true toy_engine
  = Undefined BackOfEmpty.
Proof.
  destruct (trailing_accesses_in_bounds (frame_tf_ := toy_frame) toy_engine
              toy_state (mkPreviewControl [stance_005]) true eq_refl)
    as (_ & _ & Hne & _).
  destruct (trailing_accesses_in_bounds (frame_tf_ := toy_frame) toy_engine
              toy_state (mkPreviewControl []) true eq_refl)
    as (_ & _ & _ & Hnil).
  split.
  - apply Hne. discriminate.
  - apply Hnil. reflexivity.
Defined.

(** The run behind it: the initial state, then the trailing state. *)
Example short_single_phase_preview :
  preview_result
    (multiPhasePreview (frame_tf_ := toy_frame) [] toy_state
       (mkPreviewControl [stance_005]) true toy_engine)
  = Ok ([toy_state; toy_state], []).
Proof. vm_compute. reflexivity. Qed.

(** * Further properties *)

#[local] Set Warnings "-clear-no-such-hyp".

Section Further.

Context {cart : CartTableModel} {swing : FootSplinePatternGenerator}
        {frame_tf_ : FrameTF}.

Implicit Types (e : PreviewLocomotion) (state : ReducedBodyState)
  (params : PreviewParams) (control : PreviewControl)
  (trajectory : ReducedBodyTrajectory).

(** ** Summary mode *)

Lemma resize_one_set {A : Type} (x d : A) (l : list A) :
  <[0%nat := x]> (resize 1 d l) = [x].
Proof. destruct l as [|a l]; cbn; [|rewrite resize_0]; reflexivity. Qed.

Lemma floor_div_value (a b : Q) (n : Z) :
  floor_div a b = Ok n -> n = Qfloor (double_div a b) /\ 0 <= n < UINT_MOD.
Proof.
  unfold floor_div. destruct (Qeq_bool b 0); [discriminate|].
  case_bool_decide; [|discriminate]. intros [= <-]. auto.
Qed.

(** X27: when the number of samples [floor(a / b)] is defined, it is the
    integer part of a number of the double-precision grid around the exact
    quotient [a / b]: a multiple of the unit in the last place of the
    quotient, [2 ^ (e - 52)], at most half such a unit away from it, where
    [2 ^ e <= |a / b| < 2 ^ (e + 1)] for a quotient in the normal range; and
    it lies in the range of [unsigned int]. *)
Theorem floor_div_nearest (a b : Q) (n : Z) :
  floor_div a b = Ok n ->
  let e := Z.max (Qlog2 (Qabs (a / b))) (-1022) in
  ~ (b == 0)%Q /\
  0 <= n < UINT_MOD /\
  (~ (a / b == 0)%Q ->
   (2 ^ Qlog2 (Qabs (a / b)) <= Qabs (a / b))%Q /\
   (Qabs (a / b) < 2 ^ (Qlog2 (Qabs (a / b)) + 1))%Q) /\
  exists q : Q,
    n = Qfloor q /\
    (exists m : Z, (q == inject_Z m * 2 ^ (e - 52))%Q) /\
    (Qabs (q - a / b) <= 2 ^ (e - 53))%Q.
Proof.
  intros Hf e. split; [|split; [|split]].
  - unfold floor_div in Hf. destruct (Qeq_bool b 0) eqn:E; [discriminate|].
    intros Hb. apply Qeq_bool_iff in Hb. congruence.
  - apply floor_div_value in Hf. tauto.
  - intros Hne. apply Qlog2_spec.
    destruct (proj1 (Qle_lteq _ _) (Qabs_nonneg (a / b))) as [Hlt|Heq];
      [exact Hlt|].
    exfalso. apply Hne.
    assert (Hle : (Qabs (a / b) <= 0)%Q) by (rewrite <- Heq; apply Qle_refl).
    apply Qabs_Qle_condition in Hle as [H1 H2].
    apply Qle_antisym; [exact H2 | exact H1].
  - exists (double_div a b). split; [|split].
    + apply floor_div_value in Hf. tauto.
    + apply round_double_grid.
    + apply round_double_error.
Qed.

Lemma stancePreview_summary e state params trajectory (n : Z) :
  floor_div (duration params) (sample_time_ e) = Ok n ->
  n + 1 < UINT_MOD ->
  stancePreview trajectory state params false e
  = Ok ([computeResponse
           (initResponse state
              (mkCartTableControlParams (duration params) (cop_shift params))
              (cart_table_ e))
           (set_time (time state + duration params) state)
           (time state + duration params)],
        set_cart_table_
          (initResponse state
             (mkCartTableControlParams (duration params) (cop_shift params))
             (cart_table_ e)) e).
Proof.
  intros Hf Hr. pose proof (floor_div_value _ _ _ Hf) as [_ H0].
  unfold stancePreview. cbn [andb sample_time_ set_cart_table_]. rewrite Hf.
  cbn [mbind outcome_bind fst snd].
  rewrite uadd_small by lia.
  replace (n + 1 - n) with 1 by lia. rewrite seqZ_cons by lia.
  rewrite seqZ_nil by lia. cbn [foldM].
  unfold stance_step at 1. cbn [fst snd]. unfold sample_offset.
  rewrite bool_decide_eq_true_2 by reflexivity.
  rewrite Z.sub_diag, vector_set_Ok by (rewrite length_resize; lia).
  cbn [mbind outcome_bind fst snd]. change (Z.to_nat 0) with 0%nat.
  rewrite resize_one_set. reflexivity.
Qed.

Lemma flightPreview_summary e state params trajectory (n : Z) :
  floor_div (duration params) (sample_time_ e) = Ok n ->
  n + 1 < UINT_MOD ->
  flightPreview trajectory state params false e
  = Ok ([flight_state e state (duration params)], e).
Proof.
  intros Hf Hr. pose proof (floor_div_value _ _ _ Hf) as [_ H0].
  unfold flightPreview. cbn [andb]. rewrite Hf.
  cbn [mbind outcome_bind fst snd].
  rewrite uadd_small by lia.
  replace (n + 1 - n) with 1 by lia. rewrite seqZ_cons by lia.
  rewrite seqZ_nil by lia. cbn [foldM].
  unfold flight_step at 1. cbn [fst snd]. unfold sample_offset.
  rewrite bool_decide_eq_true_2 by reflexivity.
  rewrite Z.sub_diag, vector_set_Ok by (rewrite length_resize; lia).
  cbn [mbind outcome_bind fst snd]. change (Z.to_nat 0) with 0%nat.
  rewrite resize_one_set. reflexivity.
Qed.

(** X1: in summary mode a STANCE phase gives exactly one state, whatever
    the sample time and whether or not the duration reaches it: the
    cart-table response, initialised on the start state, evaluated at the end
    of the phase. The swing context of the engine is not touched. *)
Theorem stance_summary_terminal e state params trajectory :
  (0 < sample_time_ e)%Q ->
  samplable e params ->
  let ct := initResponse state
              (mkCartTableControlParams (duration params) (cop_shift params))
              (cart_table_ e) in
  let t := (time state + duration params)%Q in
  stancePreview trajectory state params false e
  = Ok ([computeResponse ct (set_time t state) t], set_cart_table_ ct e).
Proof.
  intros Hst [Hd Hr] ct t.
  destruct (floor_div_nonneg (duration params) (sample_time_ e) Hst Hd) as [Hf H0];
    [lia|].
  apply (stancePreview_summary e state params trajectory _ Hf Hr).
Qed.

(** X2: in summary mode a FLIGHT phase gives exactly one state, at the end
    of the phase, whose CoM follows the projectile equations from the start
    state: uniform horizontal motion, vertical motion under [- gravity_]. The
    state is built from scratch: it has no support region and no foot
    entries. The engine is not touched. *)
Theorem flight_summary_projectile e state params trajectory :
  (0 < sample_time_ e)%Q ->
  samplable e params ->
  exists s,
    flightPreview trajectory state params false e = Ok ([s], e) /\
    time s = (time state + duration params)%Q /\
    (X (com_pos s) == X (com_pos state) + X (com_vel state) * duration params
     /\ Y (com_pos s) == Y (com_pos state) + Y (com_vel state) * duration params
     /\ Z3 (com_pos s) == Z3 (com_pos state) + Z3 (com_vel state) * duration params
                          - (1 # 2) * gravity_ e * duration params * duration params
     /\ X (com_vel s) == X (com_vel state)
     /\ Y (com_vel s) == Y (com_vel state)
     /\ Z3 (com_vel s) == Z3 (com_vel state) - gravity_ e * duration params)%Q /\
    com_acc s = mkVector3d 0 0 (- gravity_ e) /\
    support_region s = ∅ /\ foot_pos s = ∅.
Proof.
  intros Hst [Hd Hr].
  destruct (floor_div_nonneg (duration params) (sample_time_ e) Hst Hd) as [Hf H0];
    [lia|].
  exists (flight_state e state (duration params)).
  split; [apply (flightPreview_summary e state params trajectory _ Hf Hr)|].
  split; [reflexivity|]. split; [|repeat split].
  cbn. repeat split; ring.
Qed.

(** ** Swing generation, foot by foot *)

Lemma same_body_refl state : same_body state state.
Proof. repeat split. Qed.

Lemma same_body_trans s1 s2 s3 :
  same_body s1 s2 -> same_body s2 s3 -> same_body s1 s3.
Proof.
  unfold same_body. intros (?&?&?&?&?&?&?&?&?) (?&?&?&?&?&?&?&?&?).
  repeat split; congruence.
Qed.

Lemma generateSwing_foot_spec t state e name actual_pos :
  let r := generateSwing_foot t (state, e) (name, actual_pos) in
  same_body r.1 state /\
  (exists g, r.2 = set_feet_spline_generator_ g e /\
             forall n, default Spline_default (g !! n)
                       = default Spline_default (feet_spline_generator_ e !! n)) /\
  foot_entry r.1 name
  = (Some (swing_foot_state e state t name actual_pos).1.1,
     Some (swing_foot_state e state t name actual_pos).1.2,
     Some (swing_foot_state e state t name actual_pos).2) /\
  forall n, n <> name -> foot_entry r.1 n = foot_entry state n.
Proof.
  unfold generateSwing_foot, swing_foot_state, foot_entry. cbn [fst snd].
  destruct (swing_feet_shift (swing_params_ e) !! name) as [sh|]; cbn [fst snd].
  - split; [repeat split|]. split.
    + eexists. split; [reflexivity|]. intros n.
      destruct (decide (name = n)) as [->|Hne].
      * rewrite lookup_insert_eq. reflexivity.
      * rewrite lookup_insert_ne by exact Hne. reflexivity.
    + split.
      * cbn. rewrite !lookup_insert_eq. reflexivity.
      * intros n Hne. cbn. rewrite !lookup_insert_ne by auto. reflexivity.
  - split; [repeat split|]. split.
    + exists (feet_spline_generator_ e). split; [destruct e; reflexivity | auto].
    + split.
      * cbn. rewrite !lookup_insert_eq. reflexivity.
      * intros n Hne. cbn. rewrite !lookup_insert_ne by auto. reflexivity.
Qed.

Lemma swing_foot_state_ext e e' state state' t name actual_pos g :
  same_body state' state ->
  e' = set_feet_spline_generator_ g e ->
  (forall n, default Spline_default (g !! n)
             = default Spline_default (feet_spline_generator_ e !! n)) ->
  swing_foot_state e' state' t name actual_pos
  = swing_foot_state e state t name actual_pos.
Proof.
  intros (_ & Hp & Hv & Ha & Hr & _) -> Hg. unfold swing_foot_state, getRPY_W.
  cbn [swing_params_ feet_spline_generator_ phase_state_
       set_feet_spline_generator_].
  rewrite Hg, Hp, Hv, Ha, Hr. reflexivity.
Qed.

Lemma generateSwing_fold_spec t (l : list (string * Vector3d)) :
  NoDup l.*1 ->
  forall state e,
  let r := foldl (generateSwing_foot t) (state, e) l in
  same_body r.1 state /\
  (exists g, r.2 = set_feet_spline_generator_ g e /\
             forall n, default Spline_default (g !! n)
                       = default Spline_default (feet_spline_generator_ e !! n)) /\
  (forall name actual_pos,
      (name, actual_pos) ∈ l ->
      foot_entry r.1 name
      = (Some (swing_foot_state e state t name actual_pos).1.1,
         Some (swing_foot_state e state t name actual_pos).1.2,
         Some (swing_foot_state e state t name actual_pos).2)) /\
  (forall n, n ∉ l.*1 -> foot_entry r.1 n = foot_entry state n).
Proof.
  induction l as [|[name pos] l IH]; intros Hnd state e; cbn [foldl].
  - split; [apply same_body_refl|]. split.
    + exists (feet_spline_generator_ e). split; [destruct e; reflexivity | auto].
    + split; [|reflexivity]. intros n p Hin. apply elem_of_nil in Hin as [].
  - cbn [fmap list_fmap fst] in Hnd. apply NoDup_cons in Hnd as [Hnotin Hnd].
    destruct (generateSwing_foot_spec t state e name pos)
      as (Hb1 & (g1 & Hg1 & Hd1) & He1 & Ho1).
    destruct (generateSwing_foot t (state, e) (name, pos)) as [s1 e1] eqn:E1.
    cbn [fst snd] in Hb1, Hg1, He1, Ho1.
    destruct (IH Hnd s1 e1) as (Hb & (g & Hg & Hd) & He & Ho).
    split; [eapply same_body_trans; eassumption|]. split.
    + exists g. split.
      * rewrite Hg, Hg1. reflexivity.
      * intros n. rewrite Hd, Hg1. apply Hd1.
    + split.
      * intros n p Hin. apply elem_of_cons in Hin as [[= -> ->]|Hin].
        -- rewrite Ho by exact Hnotin. exact He1.
        -- rewrite (He n p Hin).
           rewrite (swing_foot_state_ext e e1 state s1 t n p g1 Hb1 Hg1 Hd1).
           reflexivity.
      * intros n Hn. cbn [fmap list_fmap fst] in Hn.
        apply not_elem_of_cons in Hn as [Hne Hn].
        rewrite Ho by exact Hn. apply Ho1. exact Hne.
Qed.

Lemma generateSwing_same_body e state t :
  same_body (generateSwing state t e).1 state.
Proof.
  unfold generateSwing.
  exact (proj1 (generateSwing_fold_spec t
                  (map_to_list (foot_pos (phase_state_ e)))
                  (NoDup_fst_map_to_list _) state e)).
Qed.

(** X3: [generateSwing] rewrites the entries of the feet of the phase state
    and nothing else of the state: a foot that swings gets the value of its
    generator, any other foot of the phase state its start position seen from
    the displaced CoM frame and the opposite of the CoM velocity and
    acceleration; the feet outside the phase state keep their entries. The
    outcome does not depend on the order in which the feet are visited. Of
    the engine only the generators may change. *)
Theorem generateSwing_feet e state t :
  let r := generateSwing state t e in
  same_body r.1 state /\
  (forall name actual_pos,
      foot_pos (phase_state_ e) !! name = Some actual_pos ->
      foot_entry r.1 name
      = (Some (swing_foot_state e state t name actual_pos).1.1,
         Some (swing_foot_state e state t name actual_pos).1.2,
         Some (swing_foot_state e state t name actual_pos).2)) /\
  (forall name,
      foot_pos (phase_state_ e) !! name = None ->
      foot_entry r.1 name = foot_entry state name) /\
  exists g, r.2 = set_feet_spline_generator_ g e.
Proof.
  unfold generateSwing.
  destruct (generateSwing_fold_spec t (map_to_list (foot_pos (phase_state_ e)))
              (NoDup_fst_map_to_list _) state e)
    as (Hb & (g & Hg & _) & He & Ho).
  split; [exact Hb|]. split; [|split].
  - intros name pos Hl. apply He. apply elem_of_map_to_list. exact Hl.
  - intros name Hl. apply Ho. intros Hin.
    apply list_elem_of_fmap in Hin as ([n p] & -> & Hin).
    apply elem_of_map_to_list in Hin. cbn in Hl. congruence.
  - exists g. exact Hg.
Qed.

(** ** The swing context set by [initSwing] *)




(** X5: [initSwing] takes [stance_posture_.find(name)->second] for every
    foot of the phase: it is defined exactly when each of them has a stance
    posture, and otherwise dereferences the end iterator. *)
Theorem initSwing_defined_iff state params e :
  (Forall (has_stance e) (feet (phase params)) ->
   is_Ok (initSwing state params e)) /\
  (~ Forall (has_stance e) (feet (phase params)) ->
   initSwing state params e = Undefined EndIterator).
Proof.
  split.
  - intros H. destruct (initSwing_Ok state params e H) as (sh & g & ->).
    eexists. reflexivity.
  - apply initSwing_fail.
Qed.

(** ** The support region during a stance phase *)

Lemma stance_step_support state params full n idx cs trajectory e acc' k :
  response_keeps_support ->
  support_region cs = support_region state ->
  stance_step state params full n idx (cs, trajectory, e) k = Ok acc' ->
  support_region acc'.1.1 = support_region state /\
  0 <= k - idx < Z.of_nat (length trajectory) /\
  acc'.1.2 = <[Z.to_nat (k - idx) := acc'.1.1]> trajectory.
Proof.
  intros Hsup Hcs. unfold stance_step. cbn [fst snd].
  set (s1 := computeResponse _ _ _).
  assert (Hs1 : support_region s1 = support_region state).
  { unfold s1, computeResponse. rewrite Hsup. exact Hcs. }
  set (r := if full then _ else _).
  assert (Hr : support_region r.1 = support_region state).
  { unfold r. destruct full; [|exact Hs1].
    destruct (generateSwing_same_body e s1 (time s1)) as (_&_&_&_&_&_&_&_&Hb).
    rewrite Hb. exact Hs1. }
  unfold vector_set. case_bool_decide as Hk; cbn [mbind outcome_bind];
    [|discriminate].
  intros [= <-]. cbn [fst snd]. auto.
Qed.

Lemma stance_loop_support state params full n idx :
  response_keeps_support ->
  forall (m : nat) cs trajectory e acc',
    support_region cs = support_region state ->
    foldM (stance_step state params full n idx) (seqZ idx (Z.of_nat m))
      (cs, trajectory, e) = Ok acc' ->
    support_region acc'.1.1 = support_region state /\
    length acc'.1.2 = length trajectory /\
    forall i : nat, (i < m)%nat ->
      exists s, acc'.1.2 !! i = Some s /\
                support_region s = support_region state.
Proof.
  intros Hsup. induction m as [|m IH]; intros cs trajectory e acc' Hcs.
  - cbn. intros [= <-]. cbn. split; [exact Hcs|]. split; [reflexivity|].
    intros i Hi. lia.
  - rewrite seqZ_S, foldM_app.
    destruct (foldM _ (seqZ idx (Z.of_nat m)) _) as [[[cs1 t1] e1]|] eqn:E;
      cbn [mbind outcome_bind foldM]; [|discriminate].
    destruct (IH _ _ _ _ Hcs E) as (Hc1 & Hl1 & Hi1). cbn [fst snd] in *.
    destruct (stance_step _ _ _ _ _ (cs1, t1, e1) _) as [acc2|] eqn:E2;
      cbn [mbind outcome_bind]; [|discriminate].
    intros [= <-].
    destruct (stance_step_support _ _ _ _ _ _ _ _ _ _ Hsup Hc1 E2)
      as (Hc2 & Hk & Ht2).
    replace (idx + Z.of_nat m - idx) with (Z.of_nat m) in Hk, Ht2 by lia.
    rewrite Nat2Z.id in Ht2.
    split; [exact Hc2|]. rewrite Ht2. split; [rewrite length_insert; exact Hl1|].
    intros i Hlt. destruct (decide (i = m)) as [->|Hne].
    + exists acc2.1.1. rewrite list_lookup_insert_eq by lia. auto.
    + rewrite list_lookup_insert_ne by auto. apply Hi1. lia.
Qed.

(** X6: every sample of a STANCE phase carries the support region of the
    start state of the phase, in full and in summary mode, as long as the
    cart-table response leaves the support region alone: neither the
    sampling nor the swing generation changes the set of supporting feet
    within a phase. *)
Theorem stance_support_constant e state params full samples e' :
  response_keeps_support ->
  Qfloor (double_div (duration params) (sample_time_ e)) + 1 < UINT_MOD ->
  stancePreview [] state params full e = Ok (samples, e') ->
  Forall (fun s => support_region s = support_region state) samples.
Proof.
  intros Hsup Hr. unfold stancePreview.
  destruct (full && _); [intros [= <- _]; constructor|].
  cbn [sample_time_ set_cart_table_].
  destruct (floor_div _ _) as [n|] eqn:Hf; cbn [mbind outcome_bind];
    [|discriminate].
  apply floor_div_value in Hf as [-> H0].
  set (n := Qfloor (double_div (duration params) (sample_time_ e))) in *.
  rewrite uadd_small by lia.
  destruct full.
  - destruct (initSwing _ _ _) as [e1|]; cbn [mbind outcome_bind fst snd];
      [|discriminate].
    rewrite Z.sub_0_r. replace (n + 1) with (Z.of_nat (Z.to_nat (n + 1))) by lia.
    destruct (foldM _ _ _) as [acc|] eqn:E; cbn [mbind outcome_bind];
      [|discriminate].
    intros [= <- _].
    destruct (stance_loop_support _ _ _ _ _ Hsup _ _ _ _ _ eq_refl E)
      as (_ & Hl & Hi).
    rewrite length_resize in Hl.
    apply Forall_lookup. intros i s Hs.
    destruct (Hi i) as (s' & Hs' & Hsup'); [|congruence].
    apply lookup_lt_Some in Hs. lia.
  - cbn [mbind outcome_bind fst snd].
    replace (n + 1 - n) with (Z.of_nat 1) by lia.
    destruct (foldM _ _ _) as [acc|] eqn:E; cbn [mbind outcome_bind];
      [|discriminate].
    intros [= <- _].
    destruct (stance_loop_support _ _ _ _ _ Hsup _ _ _ _ _ eq_refl E)
      as (_ & Hl & Hi).
    rewrite length_resize in Hl.
    apply Forall_lookup. intros i s Hs.
    destruct (Hi i) as (s' & Hs' & Hsup'); [|congruence].
    apply lookup_lt_Some in Hs. lia.
Qed.

(** ** A whole preview in summary mode *)

Lemma phase_end_times_snoc (ps : list PreviewParams) :
  forall t0 p,
    phase_end_times t0 (ps ++ [p])
    = phase_end_times t0 ps ++ [(end_time t0 ps + duration p)%Q].
Proof.
  induction ps as [|q ps IH]; intros t0 p; cbn [phase_end_times app].
  - reflexivity.
  - rewrite IH. reflexivity.
Qed.

Lemma phase_end_times_last (ps : list PreviewParams) (t0 : Q) :
  ps <> [] -> last (phase_end_times t0 ps) = Some (end_time t0 ps).
Proof.
  destruct ps as [|q ps _] using rev_ind; [contradiction|]. intros _.
  rewrite phase_end_times_snoc, last_snoc. unfold end_time.
  rewrite foldl_app. reflexivity.
Qed.

Lemma phase_end_times_length (ps : list PreviewParams) :
  forall t0, length (phase_end_times t0 ps) = length ps.
Proof.
  induction ps as [|q ps IH]; intros t0; cbn; [reflexivity | rewrite IH; reflexivity].
Qed.

Lemma feet_update_defined e (remove : string -> bool) p s0 :
  (num_feet_ e <= length (feet_names_ e))%nat ->
  Forall (has_stance e) (visited_feet e) ->
  exists R : gmap string Vector3d,
    foldM (fun s f => name ← vector_get f (feet_names_ e);
                      update_foot e remove p s name)
      (seq 0 (num_feet_ e)) s0
    = Ok (set_support_region R s0).
Proof.
  intros Hfeet Hstance. rewrite feet_loop by exact Hfeet.
  destruct (update_foot_fold e remove p s0 (visited_feet e))
    with (R0 := support_region s0) as (R & E & _).
  { intros name Hin _. rewrite Forall_forall in Hstance. apply Hstance, Hin. }
  rewrite set_support_region_id in E. exists R. exact E.
Qed.

Lemma phase_start_defined e state control (k : nat) cur trajectory s0 :
  (num_feet_ e <= length (feet_names_ e))%nat ->
  Forall (has_stance e) (visited_feet e) ->
  (k <= length (params control))%nat ->
  last trajectory = Some s0 ->
  k <> 0%nat ->
  exists s, phase_start e state control k cur trajectory = Ok s /\
            time s = time s0.
Proof.
  intros Hfeet Hstance Hk Hlast Hk0. unfold phase_start.
  rewrite bool_decide_eq_false_2 by exact Hk0.
  unfold back. rewrite Hlast. cbn [mbind outcome_bind].
  destruct (Qgt_bool _ _); [|exists s0; auto].
  destruct (lookup_lt_is_Some_2 (params control) (k - 1)) as [prev Hprev];
    [lia|].
  destruct (feet_update_defined e (isSwingFoot (phase cur)) prev s0 Hfeet Hstance)
    as (R & E).
  exists (set_support_region R s0). split; [|reflexivity].
  rewrite <- E. apply foldM_ext. intros b a.
  unfold support_step, support_foot, update_foot, vector_get.
  rewrite Hprev. reflexivity.
Qed.

Lemma phase_dispatch_summary e s p :
  response_keeps_time ->
  (0 < sample_time_ e)%Q -> samplable e p ->
  exists s' e',
    phase_dispatch s p false e = Ok ([s'], e') /\
    time s' = (time s + duration p)%Q.
Proof.
  intros Htime Hst [Hd Hr].
  destruct (floor_div_nonneg (duration p) (sample_time_ e) Hst Hd) as [Hf H0];
    [lia|].
  unfold phase_dispatch. case_bool_decide.
  - rewrite (stancePreview_summary e s p [] _ Hf Hr).
    eexists. eexists. split; [reflexivity|].
    unfold computeResponse.
    exact (Htime _ _ _ (set_time (time s + duration p) s)).
  - rewrite (flightPreview_summary e s p [] _ Hf Hr).
    eexists. eexists. split; reflexivity.
Qed.

Lemma samplable_persistent e1 e2 p :
  persistent e1 = persistent e2 -> samplable e1 p -> samplable e2 p.
Proof.
  intros H. apply persistent_fields in H as (Hst & _).
  unfold samplable. rewrite Hst. auto.
Qed.

Lemma visited_feet_persistent e1 e2 :
  persistent e1 = persistent e2 ->
  visited_feet e1 = visited_feet e2 /\
  num_feet_ e1 = num_feet_ e2 /\ feet_names_ e1 = feet_names_ e2 /\
  sample_time_ e1 = sample_time_ e2.
Proof.
  intros H. apply persistent_fields in H as (Hst & Hnf & Hfn & _).
  unfold visited_feet. rewrite Hnf, Hfn. auto.
Qed.

Lemma summary_loop e0 state control :
  response_keeps_time ->
  (0 < sample_time_ e0)%Q ->
  Forall (samplable e0) (params control) ->
  (num_feet_ e0 <= length (feet_names_ e0))%nat ->
  Forall (has_stance e0) (visited_feet e0) ->
  forall n : nat,
    (n <= length (params control))%nat ->
    exists traj e',
      foldM (phase_iteration state control false) (seq 0 n) ([], e0)
      = Ok (traj, e') /\
      persistent e' = persistent e0 /\
      time <$> traj = phase_end_times (time state) (take n (params control)).
Proof.
  intros Htime Hst Hsam Hfeet Hstance. induction n as [|n IH]; intros Hn.
  - exists [], e0. split; [reflexivity|]. split; reflexivity.
  - destruct IH as (traj & e' & Hrun & Hp & Ht); [lia|].
    destruct (lookup_lt_is_Some_2 (params control) n) as [p Hlook]; [lia|].
    pose proof (visited_feet_persistent _ _ Hp) as (Hv & Hnf & Hfn & Hst').
    assert (Hfeet' : (num_feet_ e' <= length (feet_names_ e'))%nat)
      by (rewrite Hnf, Hfn; exact Hfeet).
    assert (Hstance' : Forall (has_stance e') (visited_feet e')).
    { rewrite Hv. eapply Forall_impl; [exact Hstance|]. intros name.
      apply has_stance_persistent. symmetry. exact Hp. }
    assert (Hsam' : samplable e' p).
    { apply (samplable_persistent e0); [symmetry; exact Hp|].
      rewrite Forall_forall in Hsam. apply Hsam.
      eapply list_elem_of_lookup_2, Hlook. }
    assert (Hstart : exists s,
               phase_start e' state control n p traj = Ok s /\
               time s = end_time (time state) (take n (params control))).
    { destruct n as [|n'].
      - exists state. split; reflexivity.
      - assert (Hne : take (S n') (params control) <> []).
        { intros E. apply (f_equal length) in E. rewrite length_take in E.
          cbn [length] in E. lia. }
        pose proof (phase_end_times_last _ (time state) Hne) as Hl.
        rewrite <- Ht, fmap_last in Hl.
        destruct (last traj) as [s0|] eqn:Hs0; [|discriminate].
        injection Hl as Hl.
        destruct (phase_start_defined e' state control (S n') p traj s0
                    Hfeet' Hstance') as (s & Hs & Hts); [lia|exact Hs0|lia|].
        exists s. split; [exact Hs | congruence]. }
    destruct Hstart as (s & Hs & Hts).
    destruct (phase_dispatch_summary e' s p Htime) as (s' & e'' & Hd & Hts');
      [rewrite Hst'; exact Hst | exact Hsam' |].
    exists (traj ++ [s']), e''. split; [|split].
    + rewrite seq_S, foldM_app, Hrun. cbn [mbind outcome_bind foldM plus].
      unfold phase_iteration. cbn [fst snd]. unfold vector_get. rewrite Hlook.
      cbn [mbind outcome_bind]. rewrite Hs. cbn [mbind outcome_bind].
      rewrite Hd. cbn [mbind outcome_bind fst snd]. unfold append_phase.
      rewrite bool_decide_eq_false_2; [reflexivity|].
      rewrite length_app. cbn. lia.
    + apply phase_dispatch_persistent in Hd. cbn [snd] in Hd. congruence.
    + rewrite fmap_app, Ht, (take_S_r _ _ _ Hlook), phase_end_times_snoc.
      cbn. rewrite Hts', Hts. reflexivity.
Qed.

(** X7: in summary mode, with a loaded engine whose feet all have a stance
    posture, [multiPhasePreview] returns one state per phase and the
    trailing state: the state of phase [k] is stamped with the initial time
    plus the durations of the phases up to [k], and the trailing state with
    the end time of the last phase. The sample time plays no role beyond
    being positive. *)
Theorem summary_preview_times e state control trajectory :
  robot_model_ e = true ->
  response_keeps_time ->
  (0 < sample_time_ e)%Q ->
  Forall (samplable e) (params control) ->
  params control <> [] ->
  (num_feet_ e <= length (feet_names_ e))%nat ->
  Forall (has_stance e) (visited_feet e) ->
  exists samples e',
    multiPhasePreview trajectory state control false e = Ok (samples, e', []) /\
    time <$> samples
    = phase_end_times (time state) (params control)
        ++ [end_time (time state) (params control)] /\
    length samples = S (length (params control)).
Proof.
  intros Hmodel Htime Hst Hsam Hne Hfeet Hstance.
  destruct (summary_loop (set_actual_state_ state e) state control Htime Hst
              Hsam Hfeet Hstance (length (params control)))
    as (traj & e' & Hrun & Hp & Ht); [lia|].
  rewrite take_ge in Ht by lia.
  pose proof (phase_end_times_last _ (time state) Hne) as Hl.
  rewrite <- Ht, fmap_last in Hl.
  destruct (last traj) as [s_last|] eqn:Hlast; [|discriminate].
  injection Hl as Hl.
  destruct (last (params control)) as [end_control|] eqn:Hend;
    [|apply last_None in Hend; contradiction].
  pose proof (visited_feet_persistent _ _ Hp) as (Hv & Hnf & Hfn & _).
  change (visited_feet e' = visited_feet e) in Hv.
  change (num_feet_ e' = num_feet_ e) in Hnf.
  change (feet_names_ e' = feet_names_ e) in Hfn.
  destruct (feet_update_defined e' (fun _ => false) end_control s_last)
    as (R & HR).
  { rewrite Hnf, Hfn. exact Hfeet. }
  { rewrite Hv. eapply Forall_impl; [exact Hstance|]. intros name.
    apply (has_stance_persistent (set_actual_state_ state e) e').
    symmetry. exact Hp. }
  exists (traj ++ [set_support_region R s_last]), e'. split; [|split].
  - unfold multiPhasePreview. rewrite Hmodel. cbn [negb].
    unfold phase_loop. rewrite Hrun. cbn [mbind outcome_bind fst snd].
    unfold add_latest_state, back. rewrite Hlast, Hend.
    cbn [mbind outcome_bind].
    rewrite (foldM_ext (trailing_step e' end_control)
               (fun s f => name ← vector_get f (feet_names_ e');
                           update_foot e' (fun _ => false) end_control s name))
      by reflexivity.
    rewrite HR. reflexivity.
  - rewrite fmap_app, Ht. cbn. rewrite Hl. reflexivity.
  - rewrite length_app, <- (length_fmap time traj), Ht, phase_end_times_length.
    cbn. lia.
Qed.

(** ** Reading a preview sequence, further *)

(** X8: whatever the description holds, [readPreviewSequence] writes the
    CoM position, the CoM velocity and the CoP of the state and nothing else
    of it: time, CoM acceleration, orientation, support region and foot
    entries are those the caller passed. *)
Theorem read_state_frame e dflt state control yaml_reader state' control'
    printed :
  readPreviewSequence dflt state control yaml_reader e
  = Ok (state', control', printed) ->
  time state' = time state /\ com_acc state' = com_acc state /\
  angular_pos state' = angular_pos state /\
  angular_vel state' = angular_vel state /\
  angular_acc state' = angular_acc state /\
  support_region state' = support_region state /\
  foot_pos state' = foot_pos state /\ foot_vel state' = foot_vel state /\
  foot_acc state' = foot_acc state.
Proof.
  unfold readPreviewSequence.
  destruct (negb _); [intros [= <- _ _]; repeat split|].
  destruct (read_Vector3d _ _ "com_pos"); [|intros [= <- _ _]; repeat split].
  destruct (read_Vector3d _ _ "com_vel"); [|intros [= <- _ _]; repeat split].
  destruct (read_Vector3d _ _ "cop"); [|intros [= <- _ _]; repeat split].
  destruct (read_int _ _ _); [|intros [= <- _ _]; repeat split].
  case_bool_decide; [discriminate|].
  destruct (read_phases _ _ _ _); cbn [mbind outcome_bind]; [|discriminate].
  intros [= <- _ _]. repeat split.
Qed.

Lemma read_phases_defined yaml_reader e (ks : list nat) :
  forall control,
    Forall (fun k => (k < length (params control))%nat) ks ->
    exists r, read_phases yaml_reader e ks control = Ok r /\
              length (params r.1) = length (params control) /\
              (r.2 = [] \/ exists msg, r.2 = [msg]).
Proof.
  induction ks as [|k ks IH]; intros control Hks; cbn [read_phases].
  - eexists. split; [reflexivity|]. split; [reflexivity | left; reflexivity].
  - apply Forall_cons in Hks as [Hk Hks].
    destruct (lookup_lt_is_Some_2 (params control) k Hk) as [p Hp].
    unfold vector_get. rewrite Hp. cbn [mbind outcome_bind].
    destruct (read_phase yaml_reader e k p).2 as [msg|].
    + eexists. split; [reflexivity|]. cbn [fst snd params].
      split; [apply length_insert | right; eauto].
    + destruct (IH (mkPreviewControl
                      (<[k := (read_phase yaml_reader e k p).1]> (params control))))
        as (r & Hr & Hl & Hm).
      { cbn [params]. rewrite length_insert. exact Hks. }
      exists r. split; [exact Hr|]. split; [|exact Hm].
      rewrite Hl. cbn [params]. apply length_insert.
Qed.

(** X9: once the state keys and [number_phase] are read,
    [readPreviewSequence] resizes [control.params] to [number_phase] entries
    and never indexes it out of bounds: for a count that is not negative it
    returns, with exactly that many phases whether or not a later key is
    missing, having printed at most one message; a negative count makes
    [resize] throw. *)
Theorem read_control_size e dflt state control yaml_reader (num_phases : Z) :
  robot_model_ e = true ->
  state_complete yaml_reader ->
  read_int yaml_reader control_ns "number_phase" = Some num_phases ->
  (num_phases < 0 ->
   readPreviewSequence dflt state control yaml_reader e
   = Undefined LengthError) /\
  (0 <= num_phases ->
   exists state' control' printed,
     readPreviewSequence dflt state control yaml_reader e
     = Ok (state', control', printed) /\
     length (params control') = Z.to_nat num_phases /\
     (printed = [] \/ exists msg, printed = [msg])).
Proof.
  intros Hmodel ([p Hp] & [v Hv] & [c Hc]) Hn.
  unfold readPreviewSequence. rewrite Hmodel, Hp, Hv, Hc, Hn. cbn [negb].
  split; intros Hsign.
  - rewrite bool_decide_eq_true_2 by exact Hsign. reflexivity.
  - rewrite bool_decide_eq_false_2 by lia.
    destruct (read_phases_defined yaml_reader e (seq 0 (Z.to_nat num_phases))
                (mkPreviewControl
                   (resize (Z.to_nat num_phases) dflt (params control))))
      as (r & -> & Hl & Hm).
    { apply Forall_forall. intros k Hk. apply elem_of_seq in Hk.
      cbn [params]. rewrite length_resize. lia. }
    cbn [mbind outcome_bind]. eexists. eexists. eexists.
    split; [reflexivity|]. split; [|exact Hm].
    rewrite Hl. cbn [params]. apply length_resize.
Qed.

Lemma read_foot_shift_fold yaml_reader (k : nat) (names : list string) :
  forall p,
    let p' := foldl (read_foot_shift yaml_reader k) p names in
    let shifted :=
      filter (fun name => is_Some (read_Vector2d yaml_reader (phase_ns k) name))
        names in
    duration p' = duration p /\ cop_shift p' = cop_shift p /\
    head_acc p' = head_acc p /\ type (phase p') = type (phase p) /\
    feet (phase p') = feet (phase p) ++ shifted /\
    swing_feet (phase p') = swing_feet (phase p) ∪ list_to_set shifted /\
    forall name,
      feet_shift (phase p') !! name
      = if decide (name ∈ shifted)
        then read_Vector2d yaml_reader (phase_ns k) name
        else feet_shift (phase p) !! name.
Proof.
  induction names as [|n names IH]; intros p; cbn [foldl].
  - cbn. rewrite app_nil_r. repeat split. set_solver.
  - destruct (IH (read_foot_shift yaml_reader k p n))
      as (Hd & Hc & Hh & Ht & Hf & Hs & Hl).
    cbn zeta. rewrite Hd, Hc, Hh, Ht, Hf, Hs. clear Hd Hc Hh Ht Hf Hs.
    unfold read_foot_shift at 1 2 3 4 5 6.
    destruct (read_Vector2d yaml_reader (phase_ns k) n) as [sh|] eqn:E.
    + rewrite filter_cons_True by (rewrite E; eauto).
      cbn [duration cop_shift head_acc phase set_phase type feet swing_feet
           setFootShift setSwingFoot push_back_feet list_to_set].
      repeat split; [rewrite <- app_assoc; reflexivity | set_solver|].
      intros name. rewrite Hl. unfold read_foot_shift. rewrite E.
      cbn [phase set_phase feet_shift setFootShift setSwingFoot push_back_feet].
      destruct (decide (name ∈ filter _ names)) as [Hin|Hin].
      * rewrite decide_True by (right; exact Hin). reflexivity.
      * destruct (decide (name = n)) as [->|Hne].
        -- rewrite decide_True by left. rewrite lookup_insert_eq. auto.
        -- rewrite decide_False
             by (apply not_elem_of_cons; split; assumption).
           apply lookup_insert_ne. auto.
    + rewrite filter_cons_False by (rewrite E; intros [? [=]]).
      repeat split. intros name. rewrite Hl. unfold read_foot_shift.
      rewrite E. reflexivity.
Qed.

Lemma phase_header_fields yaml_reader (k : nat) (d : Q) p :
  duration (phase_header yaml_reader k d p) = d /\
  feet (phase (phase_header yaml_reader k d p)) = feet (phase p) /\
  swing_feet (phase (phase_header yaml_reader k d p)) = swing_feet (phase p) /\
  feet_shift (phase (phase_header yaml_reader k d p)) = feet_shift (phase p) /\
  type (phase (phase_header yaml_reader k d p))
  = match read_Vector2d yaml_reader (phase_ns k) "cop_shift" with
    | Some _ => STANCE
    | None => type (phase p)
    end.
Proof.
  unfold phase_header.
  destruct (read_Vector2d yaml_reader (phase_ns k) "cop_shift");
    repeat split.
Qed.

Lemma read_phase_done yaml_reader e (k : nat) p p' :
  read_phase yaml_reader e k p = (p', None) ->
  exists d p1,
    read_double yaml_reader (phase_ns k) "duration" = Some d /\
    p' = foldl (read_foot_shift yaml_reader k) p1 (feet_names_ e) /\
    duration p1 = d /\ phase p1 = phase (phase_header yaml_reader k d p).
Proof.
  unfold read_phase.
  destruct (read_double yaml_reader (phase_ns k) "duration") as [d|];
    [|discriminate].
  fold (phase_header yaml_reader k d p).
  pose proof (phase_header_fields yaml_reader k d p) as (Hd & _).
  case_bool_decide.
  - destruct (read_double yaml_reader (phase_ns k) "head_acc") as [h|];
      cbn [fst snd]; [|discriminate].
    intros [= <-]. exists d. eexists. split; [reflexivity|].
    split; [reflexivity|]. split; [exact Hd | reflexivity].
  - cbn [fst snd]. intros [= <-]. exists d. eexists. split; [reflexivity|].
    split; [reflexivity|]. split; [exact Hd | reflexivity].
Qed.

(** X10: when the read of a phase completes, the phase has the duration of
    the description, is a STANCE phase if the description gives a
    [cop_shift] (and keeps its type otherwise), and every foot of the engine
    for which the description gives a shift is appended to its feet, marked
    as swinging and given that shift. No other foot becomes a swinging
    foot; the feet that were listed or marked before the read stay so. *)
Theorem read_phase_swing_feet yaml_reader e (k : nat) p p' :
  read_phase yaml_reader e k p = (p', None) ->
  read_double yaml_reader (phase_ns k) "duration" = Some (duration p') /\
  type (phase p')
  = match read_Vector2d yaml_reader (phase_ns k) "cop_shift" with
    | Some _ => STANCE
    | None => type (phase p)
    end /\
  feet (phase p') = feet (phase p) ++ shifted_feet yaml_reader e k /\
  (forall name,
      isSwingFoot (phase p') name = true <->
      isSwingFoot (phase p) name = true \/ name ∈ shifted_feet yaml_reader e k) /\
  (forall name shift,
      name ∈ feet_names_ e ->
      read_Vector2d yaml_reader (phase_ns k) name = Some shift ->
      getFootShift (phase p') name = shift).
Proof.
  intros H. apply read_phase_done in H as (d & p1 & Hd & -> & Hd1 & Hph).
  destruct (read_foot_shift_fold yaml_reader k (feet_names_ e) p1)
    as (Hdur & _ & _ & Hty & Hfeet & Hsw & Hsh).
  pose proof (phase_header_fields yaml_reader k d p) as (_ & Hf & Hs & Hfs & Ht).
  fold (shifted_feet yaml_reader e k) in Hfeet, Hsw, Hsh.
  cbn zeta in *. rewrite Hph in *.
  split; [rewrite Hdur, Hd1; exact Hd|].
  split; [rewrite Hty; exact Ht|].
  split; [rewrite Hfeet, Hf; reflexivity|]. split.
  - intros name. unfold isSwingFoot. rewrite !bool_decide_eq_true, Hsw, Hs.
    set_solver.
  - intros name shift Hin Hread. unfold getFootShift. rewrite Hsh.
    rewrite decide_True; [rewrite Hread; reflexivity|].
    unfold shifted_feet. apply list_elem_of_filter. split; [|exact Hin].
    rewrite Hread. eauto.
Qed.

Lemma read_phase_complete yaml_reader e (k : nat) p :
  phase_complete yaml_reader k -> (read_phase yaml_reader e k p).2 = None.
Proof.
  intros [[d Hd] [h Hh]]. unfold read_phase. rewrite Hd, Hh.
  case_bool_decide; reflexivity.
Qed.

Lemma read_phases_complete yaml_reader e (ks : list nat) :
  forall control,
    NoDup ks ->
    Forall (fun k => (k < length (params control))%nat) ks ->
    Forall (phase_complete yaml_reader) ks ->
    exists control',
      read_phases yaml_reader e ks control = Ok (control', []) /\
      (forall k, k ∈ ks ->
         exists p, params control !! k = Some p /\
                   params control' !! k
                   = Some (read_phase yaml_reader e k p).1) /\
      (forall k, k ∉ ks -> params control' !! k = params control !! k).
Proof.
  induction ks as [|k ks IH]; intros control Hnd Hks Hc; cbn [read_phases].
  - exists control. split; [reflexivity|]. split; [|reflexivity].
    intros k Hk. apply elem_of_nil in Hk as [].
  - apply NoDup_cons in Hnd as [Hnotin Hnd].
    apply Forall_cons in Hks as [Hk Hks]. apply Forall_cons in Hc as [Hck Hc].
    destruct (lookup_lt_is_Some_2 (params control) k Hk) as [p Hp].
    unfold vector_get. rewrite Hp. cbn [mbind outcome_bind].
    rewrite (read_phase_complete yaml_reader e k p Hck).
    destruct (IH (mkPreviewControl
                    (<[k := (read_phase yaml_reader e k p).1]> (params control)))
                Hnd) as (control' & -> & Hin & Hout).
    { cbn [params]. rewrite length_insert. exact Hks. }
    { exact Hc. }
    cbn [params] in Hin, Hout.
    exists control'. split; [reflexivity|]. split.
    + intros j Hj. apply elem_of_cons in Hj as [->|Hj].
      * exists p. split; [exact Hp|]. rewrite Hout by exact Hnotin.
        apply list_lookup_insert_eq. exact Hk.
      * destruct (Hin j Hj) as (q & Hq & Hq').
        assert (Hne : k <> j) by (intros ->; contradiction).
        rewrite list_lookup_insert_ne in Hq by exact Hne.
        exists q. auto.
    + intros j Hj. apply not_elem_of_cons in Hj as [Hne Hj].
      rewrite Hout by exact Hj. apply list_lookup_insert_ne. auto.
Qed.

(** X11: a description with the state keys, a [number_phase] that is not
    negative and, for each phase below it, a [duration] and a [head_acc] is
    read to the end without a message. The state gets the three values read,
    the control gets [number_phase] phases, and phase [k] has the duration of
    [phase_k] and marks as swinging every foot of the engine for which
    [phase_k] gives a shift. *)
Theorem read_complete_description e dflt state control yaml_reader p v c
    (num_phases : Z) :
  robot_model_ e = true ->
  read_Vector3d yaml_reader state_ns "com_pos" = Some p ->
  read_Vector3d yaml_reader state_ns "com_vel" = Some v ->
  read_Vector3d yaml_reader state_ns "cop" = Some c ->
  read_int yaml_reader control_ns "number_phase" = Some num_phases ->
  0 <= num_phases ->
  (forall k : nat, Z.of_nat k < num_phases -> phase_complete yaml_reader k) ->
  exists control',
    readPreviewSequence dflt state control yaml_reader e
    = Ok (set_cop c (set_com_vel v (set_com_pos p state)), control', []) /\
    length (params control') = Z.to_nat num_phases /\
    forall k : nat, Z.of_nat k < num_phases ->
      exists pk,
        params control' !! k = Some pk /\
        read_double yaml_reader (phase_ns k) "duration" = Some (duration pk) /\
        forall name, name ∈ shifted_feet yaml_reader e k ->
                     isSwingFoot (phase pk) name = true.
Proof.
  intros Hmodel Hp Hv Hc Hn Hsign Hcomplete.
  unfold readPreviewSequence. rewrite Hmodel, Hp, Hv, Hc, Hn. cbn [negb].
  rewrite bool_decide_eq_false_2 by lia.
  set (control0 := mkPreviewControl
                     (resize (Z.to_nat num_phases) dflt (params control))).
  destruct (read_phases_complete yaml_reader e (seq 0 (Z.to_nat num_phases))
              control0) as (control' & Hrun & Hin & _).
  { apply NoDup_seq. }
  { apply Forall_forall. intros k Hk. apply elem_of_seq in Hk.
    cbn [params control0]. rewrite length_resize. lia. }
  { apply Forall_forall. intros k Hk. apply elem_of_seq in Hk.
    apply Hcomplete. lia. }
  rewrite Hrun. cbn [mbind outcome_bind fst snd].
  exists control'. split; [reflexivity|]. split.
  - pose proof (read_phases_length _ _ _ _ _ Hrun) as Hl. cbn [fst] in Hl.
    rewrite Hl. cbn [params control0]. apply length_resize.
  - intros k Hk. destruct (Hin k) as (q & Hq & Hq').
    { apply elem_of_seq. lia. }
    exists (read_phase yaml_reader e k q).1. split; [exact Hq'|].
    destruct (read_phase yaml_reader e k q) as [pk o] eqn:E.
    assert (Ho : o = None).
    { change o with (pk, o).2. rewrite <- E.
      apply read_phase_complete, Hcomplete, Hk. }
    subst o. cbn [fst].
    apply read_phase_done in E as (d & p1 & Hd & -> & Hd1 & Hph).
    destruct (read_foot_shift_fold yaml_reader k (feet_names_ e) p1)
      as (Hdur & _ & _ & _ & _ & Hsw & _).
    cbn zeta in Hdur, Hsw. split; [rewrite Hdur, Hd1; exact Hd|].
    intros name Hname. unfold isSwingFoot. rewrite bool_decide_eq_true, Hsw.
    unfold shifted_feet in Hname. set_solver.
Qed.

(** ** A preview of phases shorter than the sample time *)

Lemma Qgt_bool_short (d st : Q) : (d < st)%Q -> Qgt_bool d st = false.
Proof.
  intros H. unfold Qgt_bool. apply Qlt_bool_false. apply Qlt_le_weak, H.
Qed.

Lemma short_phase_iteration e state control (k : nat) p trajectory :
  params control !! k = Some p ->
  (duration p < sample_time_ e)%Q ->
  trajectory = [] \/ trajectory = [state] ->
  (k = 0%nat \/ trajectory = [state]) ->
  phase_iteration state control true (trajectory, e) k = Ok ([state], e).
Proof.
  intros Hp Hd Ht Hk. unfold phase_iteration, vector_get. cbn [fst snd].
  rewrite Hp. cbn [mbind outcome_bind].
  assert (Hs : phase_start e state control k p trajectory = Ok state).
  { unfold phase_start. case_bool_decide as H0; [reflexivity|].
    destruct Hk as [Hk| ->]; [contradiction|]. cbn [back last mbind outcome_bind].
    rewrite Qgt_bool_short by exact Hd. reflexivity. }
  rewrite Hs. cbn [mbind outcome_bind].
  unfold phase_dispatch, stancePreview, flightPreview.
  apply Qlt_bool_true in Hd. rewrite Hd. cbn [andb].
  destruct (bool_decide _); cbn [mbind outcome_bind fst snd];
    destruct Ht as [-> | ->]; reflexivity.
Qed.

Lemma short_phase_loop e state control :
  Forall (fun p => (duration p < sample_time_ e)%Q) (params control) ->
  forall n : nat,
    (n <= length (params control))%nat ->
    foldM (phase_iteration state control true) (seq 0 n) ([], e)
    = Ok (if decide (n = 0%nat) then [] else [state], e).
Proof.
  intros Hshort. induction n as [|n IH]; intros Hn; [reflexivity|].
  rewrite seq_S, foldM_app, IH by lia. cbn [mbind outcome_bind foldM plus].
  destruct (lookup_lt_is_Some_2 (params control) n) as [p Hp]; [lia|].
  rewrite (short_phase_iteration e state control n p); [reflexivity|exact Hp| | |].
  - rewrite Forall_forall in Hshort. apply Hshort.
    eapply list_elem_of_lookup_2, Hp.
  - destruct (decide (n = 0%nat)); auto.
  - destruct (decide (n = 0%nat)); auto.
Qed.

Lemma trailing_fold_short e end_control (names : list string) s :
  (duration end_control < sample_time_ e)%Q ->
  foldM (trailing_foot e end_control) names s = Ok s.
Proof.
  intros Hd. induction names as [|name names IH]; cbn [foldM]; [reflexivity|].
  assert (Hstep : trailing_foot e end_control s name = Ok s).
  { unfold trailing_foot. rewrite Qgt_bool_short by exact Hd.
    rewrite andb_false_r. reflexivity. }
  rewrite Hstep. cbn [mbind outcome_bind]. exact IH.
Qed.

(** X12: in full mode a preview whose phases are all shorter than the
    sample time has no sample: the sanity action puts the initial state in
    the trajectory and the trailing step repeats it, no foothold being
    committed. The call returns the initial state twice and an engine that
    differs from the one it was given in [actual_state_] only. *)
Theorem short_phases_preview e state control trajectory :
  robot_model_ e = true ->
  params control <> [] ->
  Forall (fun p => (duration p < sample_time_ e)%Q) (params control) ->
  (num_feet_ e <= length (feet_names_ e))%nat ->
  multiPhasePreview trajectory state control true e
  = Ok ([state; state], set_actual_state_ state e, []).
Proof.
  intros Hmodel Hne Hshort Hfeet.
  unfold multiPhasePreview, phase_loop. rewrite Hmodel. cbn [negb].
  rewrite (short_phase_loop (set_actual_state_ state e) state control Hshort)
    by lia.
  rewrite decide_False
    by (destruct (params control); [contradiction | discriminate]).
  cbn [mbind outcome_bind fst snd]. unfold add_latest_state.
  cbn [back last mbind outcome_bind].
  destruct (last (params control)) as [end_control|] eqn:Hend;
    [|apply last_None in Hend; contradiction].
  unfold back. rewrite Hend. cbn [mbind outcome_bind].
  unfold trailing_step.
  rewrite (feet_loop (set_actual_state_ state e)
             (trailing_foot (set_actual_state_ state e) end_control))
    by exact Hfeet.
  rewrite trailing_fold_short; [reflexivity|].
  rewrite Forall_forall in Hshort. apply Hshort.
  apply last_Some_elem_of, Hend.
Qed.

(** ** A FLIGHT phase in a preview in full mode *)

Lemma flightPreview_full_never e s p :
  (0 < sample_time_ e)%Q ->
  (sample_time_ e <= duration p)%Q ->
  Qfloor (double_div (duration p) (sample_time_ e)) + 1 < UINT_MOD ->
  exists f, flightPreview [] s p true e = Undefined f.
Proof.
  intros Hst Hd Hr.
  destruct (floor_div_Ok (duration p) (sample_time_ e) Hst Hd) as [Hf H1];
    [lia|].
  unfold flightPreview.
  replace (Qlt_bool (duration p) (sample_time_ e)) with false
    by (symmetry; apply Qlt_bool_false; exact Hd).
  cbn [andb]. rewrite Hf. cbn [mbind outcome_bind].
  destruct (initSwing s p e) as [e1|f]; cbn [mbind outcome_bind fst snd];
    [|exists f; reflexivity].
  rewrite uadd_small, Z.sub_0_r by lia.
  rewrite flight_loop_overrun; [eexists; reflexivity | lia |].
  rewrite length_resize. reflexivity.
Qed.

Lemma phase_iteration_flight_never state control acc (k : nat) p :
  params control !! k = Some p ->
  type (phase p) = FLIGHT ->
  (0 < sample_time_ acc.2)%Q ->
  (sample_time_ acc.2 <= duration p)%Q ->
  Qfloor (double_div (duration p) (sample_time_ acc.2)) + 1 < UINT_MOD ->
  exists f, phase_iteration state control true acc k = Undefined f.
Proof.
  intros Hp Hty Hst Hd Hr. unfold phase_iteration, vector_get. rewrite Hp.
  cbn [mbind outcome_bind].
  destruct (phase_start _ _ _ _ _ _) as [s|f]; cbn [mbind outcome_bind];
    [|exists f; reflexivity].
  unfold phase_dispatch. rewrite bool_decide_eq_false_2 by congruence.
  destruct (flightPreview_full_never acc.2 s p Hst Hd Hr) as (f & ->).
  exists f. reflexivity.
Qed.

(** X13: a preview in full mode does not return when the control sequence
    holds a FLIGHT phase at least as long as the sample time: whatever the
    phases before it do, the iteration of that phase ends in undefined
    behaviour (the write past the end of the phase trajectory, unless an
    earlier access already failed). *)
Theorem full_preview_flight_undefined e state control trajectory p :
  robot_model_ e = true ->
  (0 < sample_time_ e)%Q ->
  p ∈ params control ->
  type (phase p) = FLIGHT ->
  (sample_time_ e <= duration p)%Q ->
  Qfloor (double_div (duration p) (sample_time_ e)) + 1 < UINT_MOD ->
  exists f, multiPhasePreview trajectory state control true e = Undefined f.
Proof.
  intros Hmodel Hst Hin Hty Hd Hr.
  apply list_elem_of_lookup_1 in Hin as [k Hk].
  pose proof (lookup_lt_Some _ _ _ Hk) as Hlt.
  unfold multiPhasePreview, phase_loop. rewrite Hmodel. cbn [negb].
  replace (length (params control))
    with (k + S (length (params control) - S k))%nat by lia.
  rewrite seq_app, foldM_app. cbn [seq foldM plus].
  destruct (foldM _ (seq 0 k) _) as [acc|f] eqn:E; cbn [mbind outcome_bind];
    [|exists f; reflexivity].
  assert (Hp : persistent acc.2 = persistent (set_actual_state_ state e)).
  { apply (foldM_inv
             (fun a => persistent a.2 = persistent (set_actual_state_ state e)))
      in E; [exact E | | reflexivity].
    intros b a b' Hb Hs. apply phase_iteration_persistent in Hs as ->.
    exact Hb. }
  apply persistent_fields in Hp as (Hst' & _).
  change (sample_time_ acc.2 = sample_time_ e) in Hst'.
  destruct (phase_iteration_flight_never state control acc k p Hk Hty)
    as (f & ->); [rewrite Hst'; assumption..|].
  exists f. reflexivity.
Qed.

(** ** The number of states of a preview in full mode *)

Lemma stance_loop_defined state params n e0 :
  forall (m : nat) g cs trajectory,
  (m <= length trajectory)%nat ->
  exists cs' g' trajectory',
    foldM (stance_step state params true n 0) (seqZ 0 (Z.of_nat m))
      (cs, trajectory, set_feet_spline_generator_ g e0)
    = Ok (cs', trajectory', set_feet_spline_generator_ g' e0) /\
    length trajectory' = length trajectory.
Proof.
  induction m as [|m IH]; intros g cs trajectory Hm.
  - exists cs, g, trajectory. split; reflexivity.
  - rewrite seqZ_S, foldM_app.
    destruct (IH g cs trajectory) as (cs1 & g1 & t1 & -> & Hl); [lia|].
    cbn [mbind outcome_bind foldM]. rewrite Z.add_0_l.
    unfold stance_step. cbn [fst snd].
    match goal with |- context [generateSwing ?s ?t ?e'] =>
      destruct (generateSwing_inv s t e') as (_ & g' & Hg);
      set (r := generateSwing s t e') in * end.
    rewrite Z.sub_0_r, vector_set_Ok by lia. cbn [mbind outcome_bind].
    rewrite Hg. exists r.1, g'. eexists. split; [reflexivity|].
    rewrite length_insert. exact Hl.
Qed.

Lemma phase_dispatch_full e s p :
  (0 < sample_time_ e)%Q ->
  full_samplable e p ->
  exists samples e',
    phase_dispatch s p true e = Ok (samples, e') /\
    length samples = phase_samples e p.
Proof.
  intros Hst Hp. unfold phase_samples, phase_dispatch.
  destruct (Qlt_bool (duration p) (sample_time_ e)) eqn:Hshort.
  - exists [], e. split; [|reflexivity].
    unfold stancePreview, flightPreview. rewrite Hshort. cbn [andb].
    destruct (bool_decide _); reflexivity.
  - destruct Hp as [Hlt|(Hty & Hr & Hfeet)].
    { apply Qlt_bool_true in Hlt. congruence. }
    assert (Hd : (sample_time_ e <= duration p)%Q).
    { apply Qnot_lt_le. intros Hlt. apply Qlt_bool_true in Hlt. congruence. }
    destruct (floor_div_Ok (duration p) (sample_time_ e) Hst Hd) as [Hf H1];
      [lia|].
    set (n := Qfloor (double_div (duration p) (sample_time_ e))) in *.
    rewrite bool_decide_eq_true_2 by exact Hty.
    unfold stancePreview. rewrite Hshort. cbn [andb].
    cbn [sample_time_ set_cart_table_]. rewrite Hf. cbn [mbind outcome_bind].
    match goal with |- context [initSwing s p ?e1] =>
      destruct (initSwing_Ok s p e1) as (sh & g & ->); [exact Hfeet|];
      set (e0 := set_swing_params_ _ (set_phase_state_ s e1)) end.
    cbn [mbind outcome_bind fst snd]. rewrite Z.sub_0_r.
    rewrite uadd_small by lia.
    set (t0 := resize (Z.to_nat (n + 1)) ReducedBodyState_default []).
    assert (Hlen : length t0 = Z.to_nat (n + 1)) by apply length_resize.
    destruct (stance_loop_defined s p n e0 (Z.to_nat (n + 1)) g s t0)
      as (cs' & g' & t' & Hrun & Hl); [lia|].
    rewrite Z2Nat.id in Hrun by lia.
    rewrite Hrun. cbn [mbind outcome_bind fst snd].
    eexists. eexists. split; [reflexivity|].
    rewrite Hl, Hlen. lia.
Qed.

Lemma full_samplable_persistent e1 e2 p :
  persistent e1 = persistent e2 -> full_samplable e1 p -> full_samplable e2 p.
Proof.
  intros H. pose proof (persistent_fields _ _ H) as (Hst & _).
  unfold full_samplable. rewrite Hst. intros [Hlt|(Hty & Hr & Hfeet)]; [auto|].
  right. split; [exact Hty|]. split; [exact Hr|].
  eapply Forall_impl; [exact Hfeet|]. intros name.
  apply has_stance_persistent, H.
Qed.

Lemma full_preview_length_snoc e (ps : list PreviewParams) p :
  ps <> [] ->
  full_preview_length e (ps ++ [p])
  = (full_preview_length e ps + phase_samples e p)%nat.
Proof.
  destruct ps as [|p0 ps]; [contradiction|]. intros _.
  cbn [app full_preview_length]. rewrite fmap_app, sum_list_with_app.
  cbn. lia.
Qed.

Lemma full_loop e0 state control :
  (0 < sample_time_ e0)%Q ->
  Forall (full_samplable e0) (params control) ->
  (num_feet_ e0 <= length (feet_names_ e0))%nat ->
  Forall (has_stance e0) (visited_feet e0) ->
  forall n : nat,
    (n <= length (params control))%nat ->
    exists traj e',
      foldM (phase_iteration state control true) (seq 0 n) ([], e0)
      = Ok (traj, e') /\
      persistent e' = persistent e0 /\
      length traj = full_preview_length e0 (take n (params control)).
Proof.
  intros Hst Hsam Hfeet Hstance. induction n as [|n IH]; intros Hn.
  - exists [], e0. split; [reflexivity|]. split; reflexivity.
  - destruct IH as (traj & e' & Hrun & Hp & Hlen); [lia|].
    destruct (lookup_lt_is_Some_2 (params control) n) as [p Hlook]; [lia|].
    pose proof (visited_feet_persistent _ _ Hp) as (Hv & Hnf & Hfn & Hst').
    assert (Hfeet' : (num_feet_ e' <= length (feet_names_ e'))%nat)
      by (rewrite Hnf, Hfn; exact Hfeet).
    assert (Hstance' : Forall (has_stance e') (visited_feet e')).
    { rewrite Hv. eapply Forall_impl; [exact Hstance|]. intros name.
      apply has_stance_persistent. symmetry. exact Hp. }
    assert (Hsam' : full_samplable e' p).
    { apply (full_samplable_persistent e0); [symmetry; exact Hp|].
      rewrite Forall_forall in Hsam. apply Hsam.
      eapply list_elem_of_lookup_2, Hlook. }
    assert (Hps : phase_samples e' p = phase_samples e0 p).
    { unfold phase_samples. rewrite Hst'. reflexivity. }
    assert (Hstart : exists s, phase_start e' state control n p traj = Ok s).
    { destruct n as [|n'].
      - exists state. reflexivity.
      - destruct (last traj) as [s0|] eqn:Hs0.
        + destruct (phase_start_defined e' state control (S n') p traj s0
                      Hfeet' Hstance') as (s & Hs & _);
            [lia | exact Hs0 | discriminate |].
          exists s. exact Hs.
        + apply last_None in Hs0. subst traj. exfalso.
          destruct (take (S n') (params control)) as [|q qs] eqn:Et.
          * apply (f_equal length) in Et. rewrite length_take in Et.
            cbn [length] in Et. lia.
          * cbn [full_preview_length length] in Hlen. lia. }
    destruct Hstart as (s & Hs).
    destruct (phase_dispatch_full e' s p) as (samples & e'' & Hd & Hl);
      [rewrite Hst'; exact Hst | exact Hsam' |].
    exists (append_phase state traj samples), e''. split; [|split].
    + rewrite seq_S, foldM_app, Hrun. cbn [mbind outcome_bind foldM plus].
      unfold phase_iteration. cbn [fst snd]. unfold vector_get. rewrite Hlook.
      cbn [mbind outcome_bind]. rewrite Hs. cbn [mbind outcome_bind].
      rewrite Hd. reflexivity.
    + apply phase_dispatch_persistent in Hd. cbn [snd] in Hd. congruence.
    + rewrite (take_S_r _ _ _ Hlook). unfold append_phase.
      destruct n as [|n'].
      * destruct traj; [|discriminate Hlen].
        rewrite take_0. cbn [app full_preview_length fmap list_fmap sum_list].
        rewrite <- Hps, <- Hl.
        case_bool_decide as H0; [rewrite length_app, H0; reflexivity|].
        cbn [app] in H0. lia.
      * rewrite full_preview_length_snoc.
        -- rewrite <- Hlen, <- Hps, <- Hl.
           rewrite bool_decide_eq_false_2; [apply length_app|].
           rewrite length_app, Hlen.
           destruct (take (S n') (params control)) as [|q qs] eqn:Et.
           ++ apply (f_equal length) in Et. rewrite length_take in Et.
              cbn [length] in Et. lia.
           ++ cbn [full_preview_length]. lia.
        -- intros Et. apply (f_equal length) in Et. rewrite length_take in Et.
           cbn [length] in Et. lia.
Qed.

(** X14: in full mode, for a loaded engine whose feet all have a stance
    posture and a control sequence in which every phase at least as long as
    the sample time is a STANCE phase, [multiPhasePreview] returns, and the
    number of states is known beforehand: each phase gives no state below the
    sample time and, from it on, one more than the integer part of the
    quotient of its duration by the sample time, the quotient of the two
    doubles as the machine rounds it; the first phase counts for one state at
    least (the initial state, when it gives no sample), and the trailing
    state is added. *)
Theorem full_preview_length_spec e state control trajectory :
  robot_model_ e = true ->
  (0 < sample_time_ e)%Q ->
  Forall (full_samplable e) (params control) ->
  params control <> [] ->
  (num_feet_ e <= length (feet_names_ e))%nat ->
  Forall (has_stance e) (visited_feet e) ->
  exists samples e',
    multiPhasePreview trajectory state control true e = Ok (samples, e', []) /\
    length samples = S (full_preview_length e (params control)).
Proof.
  intros Hmodel Hst Hsam Hne Hfeet Hstance.
  destruct (full_loop (set_actual_state_ state e) state control Hst Hsam Hfeet
              Hstance (length (params control)))
    as (traj & e' & Hrun & Hp & Hlen); [lia|].
  rewrite take_ge in Hlen by lia.
  change (full_preview_length (set_actual_state_ state e) (params control))
    with (full_preview_length e (params control)) in Hlen.
  destruct (last traj) as [s_last|] eqn:Hlast.
  2:{ apply last_None in Hlast. subst traj. exfalso.
      destruct (params control) as [|q qs]; [contradiction|].
      cbn [full_preview_length length] in Hlen. lia. }
  destruct (last (params control)) as [end_control|] eqn:Hend;
    [|apply last_None in Hend; contradiction].
  pose proof (visited_feet_persistent _ _ Hp) as (Hv & Hnf & Hfn & _).
  change (visited_feet e' = visited_feet e) in Hv.
  change (num_feet_ e' = num_feet_ e) in Hnf.
  change (feet_names_ e' = feet_names_ e) in Hfn.
  destruct (feet_update_defined e' (fun _ => false) end_control s_last)
    as (R & HR).
  { rewrite Hnf, Hfn. exact Hfeet. }
  { rewrite Hv. eapply Forall_impl; [exact Hstance|]. intros name.
    apply (has_stance_persistent (set_actual_state_ state e) e').
    symmetry. exact Hp. }
  exists (traj ++ [set_support_region R s_last]), e'. split.
  - unfold multiPhasePreview. rewrite Hmodel. cbn [negb].
    unfold phase_loop. rewrite Hrun. cbn [mbind outcome_bind fst snd].
    unfold add_latest_state, back. rewrite Hlast, Hend.
    cbn [mbind outcome_bind].
    rewrite (foldM_ext (trailing_step e' end_control)
               (fun s f => name ← vector_get f (feet_names_ e');
                           update_foot e' (fun _ => false) end_control s name))
      by reflexivity.
    rewrite HR. reflexivity.
  - rewrite length_app, Hlen. cbn. lia.
Qed.

End Further.

(** * Loading a model and converting a trajectory *)

Section FurtherLoading.

Context {cart : CartTableModel} {swing : FootSplinePatternGenerator}.

Lemma com_frame_fold (com : Vector3d) (l : list string) :
  NoDup l ->
  forall (m : gmap string Vector3d) (name : string),
    foldl (com_frame_step com) m l !! name
    = if decide (name ∈ l) then (fun v => vsub v com) <$> m !! name
      else m !! name.
Proof.
  induction l as [|a l IH]; intros Hnd m name; cbn [foldl].
  - rewrite decide_False by apply not_elem_of_nil. reflexivity.
  - apply NoDup_cons in Hnd as [Ha Hnd]. rewrite (IH Hnd).
    destruct (decide (name = a)) as [->|Hne].
    + rewrite decide_False by exact Ha.
      rewrite decide_True by apply list_elem_of_here.
      unfold com_frame_step. destruct (m !! a) as [v|] eqn:E.
      * rewrite lookup_insert_eq. reflexivity.
      * rewrite E. reflexivity.
    + assert (Hstep : com_frame_step com m a !! name = m !! name).
      { unfold com_frame_step. destruct (m !! a); [|reflexivity].
        apply lookup_insert_ne. congruence. }
      rewrite Hstep. destruct (decide (name ∈ l)) as [Hin|Hin].
      * rewrite decide_True by (apply list_elem_of_further, Hin). reflexivity.
      * rewrite decide_False; [reflexivity|].
        intros H. apply elem_of_cons in H as [H|H]; contradiction.
Qed.

Lemma com_frame_loop (com : Vector3d) (m : gmap string Vector3d) :
  foldl (com_frame_step com) m (map_to_list m).*1
  = (fun v => vsub v com) <$> m.
Proof.
  apply map_eq. intros name.
  rewrite com_frame_fold by apply NoDup_fst_map_to_list.
  rewrite lookup_fmap. destruct (decide _) as [Hin|Hin]; [reflexivity|].
  destruct (m !! name) as [v|] eqn:E; [|reflexivity].
  exfalso. apply Hin. apply list_elem_of_fmap. exists (name, v).
  split; [reflexivity|]. apply elem_of_map_to_list, E.
Qed.

(** X15: [resetFromURDFModel] leaves a loaded engine in which the stance
    posture of a foot is the position that the forward kinematics reports for
    it, less the CoM of the default posture, subtracted once: a foot has a
    stance posture exactly when the forward kinematics reports it. When it
    reports every foot, and the number of feet does not exceed that of their
    names, the accesses by foot of the preview functions are defined. The
    sample time, the step height, the terrain and the context of earlier
    previews, cached cart-table response and pendulum height included, are
    kept. *)
Theorem reset_stance_posture (m : LoadedModel) (e : PreviewLocomotion) :
  let e' := (resetFromURDFModel m e).1 in
  let fk := model_forward_kinematics m (stance_posture_ e) (model_feet_names m) in
  robot_model_ e' = true /\
  stance_posture_ e' = (fun stance => vsub stance (model_com m)) <$> fk /\
  (forall name, has_stance e' name <-> is_Some (fk !! name)) /\
  ((model_num_feet m <= length (model_feet_names m))%nat ->
   (forall name, name ∈ model_feet_names m -> is_Some (fk !! name)) ->
   (num_feet_ e' <= length (feet_names_ e'))%nat /\
   Forall (has_stance e') (visited_feet e')) /\
  (sample_time_ e' = sample_time_ e /\ step_height_ e' = step_height_ e /\
   terrain_ e' = terrain_ e) /\
  (actual_state_ e' = actual_state_ e /\ phase_state_ e' = phase_state_ e /\
   swing_params_ e' = swing_params_ e /\
   feet_spline_generator_ e' = feet_spline_generator_ e /\
   response_ (cart_table_ e') = response_ (cart_table_ e) /\
   getPendulumHeight (cart_table_ e') = getPendulumHeight (cart_table_ e)).
Proof.
  intros e' fk.
  assert (Hsp : stance_posture_ e'
                = (fun stance => vsub stance (model_com m)) <$> fk).
  { apply com_frame_loop. }
  assert (Hhas : forall name, has_stance e' name <-> is_Some (fk !! name)).
  { intros name. unfold has_stance. rewrite Hsp, lookup_fmap.
    apply fmap_is_Some. }
  split; [reflexivity|]. split; [exact Hsp|]. split; [exact Hhas|].
  split; [|split; repeat split].
  intros Hn Hfk. split; [exact Hn|].
  apply Forall_forall. intros name Hin. apply Hhas, Hfk.
  unfold visited_feet in Hin. apply elem_of_take in Hin as (i & Hi & _).
  eapply list_elem_of_lookup_2, Hi.
Qed.

End FurtherLoading.

Section FurtherWholeBody.

Context {WholeBodyState Solvers : Type}.
Variable WholeBodyState_default : WholeBodyState.
Variable toWholeBodyState :
  WholeBodyState -> ReducedBodyState -> Solvers ->
  outcome (WholeBodyState * Solvers).

#[local] Abbreviation conv :=
  (converted WholeBodyState_default toWholeBodyState).
#[local] Abbreviation step := (whole_body_step toWholeBodyState).

Lemma converted_snoc (reduced : list ReducedBodyState) r solvers :
  conv (reduced ++ [r]) solvers
  = (acc ← conv reduced solvers; toWholeBodyState acc.1 r acc.2).
Proof.
  unfold converted. rewrite foldM_app.
  destruct (foldM _ reduced _) as [acc|f]; cbn [mbind outcome_bind foldM];
    [|reflexivity].
  destruct (toWholeBodyState _ _ _); reflexivity.
Qed.

Lemma whole_body_loop (reduced_traj : ReducedBodyTrajectory) solvers
    (full_traj0 : list WholeBodyState) :
  forall n : nat,
    (n <= length reduced_traj)%nat -> (n <= length full_traj0)%nat ->
    match conv (take n reduced_traj) solvers with
    | Ok (full_state, solvers') =>
        exists full_traj,
          foldM (step reduced_traj) (seq 0 n)
            (WholeBodyState_default, full_traj0, solvers)
          = Ok (full_state, full_traj, solvers') /\
          length full_traj = length full_traj0 /\
          forall (k : nat) full_k,
            (k < n)%nat -> full_traj !! k = Some full_k ->
            exists solvers_k,
              conv (take (S k) reduced_traj) solvers
              = Ok (full_k, solvers_k)
    | Undefined f =>
        foldM (step reduced_traj) (seq 0 n)
          (WholeBodyState_default, full_traj0, solvers)
        = Undefined f
    end.
Proof.
  induction n as [|n IH]; intros Hn Hl.
  - rewrite take_0. cbn. exists full_traj0. split; [reflexivity|].
    split; [reflexivity|]. intros k full_k Hk. lia.
  - destruct (lookup_lt_is_Some_2 reduced_traj n) as [r Hr]; [lia|].
    rewrite (take_S_r _ _ _ Hr), converted_snoc, seq_S, foldM_app.
    cbn [plus]. specialize (IH ltac:(lia) ltac:(lia)).
    destruct (conv (take n reduced_traj) solvers) as [[fs kk]|f] eqn:E;
      cbn [mbind outcome_bind fst snd].
    + destruct IH as (ft & -> & Hlen & Hk). cbn [mbind outcome_bind foldM].
      assert (Hstep : step reduced_traj (fs, ft, kk) n
                      = (r' ← toWholeBodyState fs r kk;
                         Ok (r'.1, <[n := r'.1]> ft, r'.2))).
      { unfold whole_body_step, vector_get. cbn [fst snd]. rewrite Hr.
        cbn [mbind outcome_bind].
        destruct (toWholeBodyState fs r kk) as [[fs' kk']|f];
          cbn [mbind outcome_bind fst snd]; [|reflexivity].
        rewrite vector_set_Ok by lia. rewrite Nat2Z.id. reflexivity. }
      rewrite Hstep.
      destruct (toWholeBodyState fs r kk) as [[fs' kk']|f] eqn:Es;
        cbn [mbind outcome_bind fst snd]; [|reflexivity].
      eexists. split; [reflexivity|].
      split; [rewrite length_insert; exact Hlen|].
      intros k full_k Hlt Hlook. destruct (decide (k = n)) as [->|Hne].
      * rewrite list_lookup_insert_eq in Hlook by lia.
        injection Hlook as <-. exists kk'.
        rewrite (take_S_r _ _ _ Hr), converted_snoc, E.
        cbn [mbind outcome_bind fst snd]. exact Es.
      * rewrite list_lookup_insert_ne in Hlook by auto.
        apply (Hk k full_k); [lia | exact Hlook].
    + rewrite IH. reflexivity.
Qed.

(** X16: [toWholeBodyTrajectory] converts the states of a reduced
    trajectory of less than 2^32 states in order, into one and the same
    [full_state] that is declared before the loop: it is defined exactly when
    these successive conversions are, the result has the length of the
    reduced trajectory, whatever the output argument held, and its element
    [k] is the whole-body state reached after converting the states 0 to
    [k] one after the other from a default-constructed state; what a
    conversion leaves untouched in [full_state] is carried over from the
    states before. *)
Theorem toWholeBodyTrajectory_carries_state (full_traj : list WholeBodyState)
    (reduced_traj : ReducedBodyTrajectory) (solvers : Solvers) :
  Z.of_nat (length reduced_traj) < UINT_MOD ->
  match conv reduced_traj solvers with
  | Ok (full_state, solvers') =>
      exists full,
        toWholeBodyTrajectory WholeBodyState_default toWholeBodyState
          full_traj reduced_traj solvers = Ok (full, solvers') /\
        length full = length reduced_traj /\
        forall (k : nat) full_k,
          full !! k = Some full_k ->
          exists solvers_k,
            conv (take (S k) reduced_traj) solvers = Ok (full_k, solvers_k)
  | Undefined f =>
      toWholeBodyTrajectory WholeBodyState_default toWholeBodyState
        full_traj reduced_traj solvers = Undefined f
  end.
Proof.
  intros Hsize. unfold toWholeBodyTrajectory.
  rewrite Z.mod_small, Nat2Z.id by lia.
  pose proof (whole_body_loop reduced_traj solvers
                (resize (length reduced_traj) WholeBodyState_default [])
                (length reduced_traj)) as H.
  rewrite take_ge, length_resize in H by lia.
  specialize (H ltac:(lia) ltac:(lia)).
  destruct (conv reduced_traj solvers) as [[fs kk]|f].
  - destruct H as (ft & -> & Hlen & Hk). cbn [mbind outcome_bind fst snd].
    exists ft. split; [reflexivity|]. split; [exact Hlen|].
    intros k full_k Hlook. apply (Hk k full_k); [|exact Hlook].
    apply lookup_lt_Some in Hlook. lia.
  - rewrite H. reflexivity.
Qed.

End FurtherWholeBody.


(** * Properties of the floating-base system *)

Lemma elem_of_coords (c : Z) : c ∈ coords <-> 0 <= c <= 5.
Proof.
  unfold coords, rbd_AX, rbd_AY, rbd_AZ, rbd_LX, rbd_LY, rbd_LZ.
  rewrite !elem_of_cons, elem_of_nil. lia.
Qed.

Ltac coord_cases :=
  unfold rbd_AX, rbd_AY, rbd_AZ, rbd_LX, rbd_LY, rbd_LZ in *;
  repeat (case_bool_decide; try lia); try reflexivity.

(** X17: [setFloatingBaseJoint(joint, coord)] followed by
    [getFloatingBaseJoint(coord')] gives the joint that was set when the two
    values select the same coordinate, and the joint that was there before
    otherwise. A value that is not that of an enumerator, as a cast of a
    number above 5 gives, selects [rbd::LZ] in both functions. *)
Theorem set_get_floating_base_joint (joint : FloatingBaseJoint) (c c' : Z)
    (s : FloatingBaseSystem) :
  getFloatingBaseJoint c' (setFloatingBaseJoint_coord joint c s)
  = if decide (selected c' = selected c) then joint
    else getFloatingBaseJoint c' s.
Proof.
  unfold getFloatingBaseJoint, setFloatingBaseJoint_coord, selected.
  destruct (decide _) as [e|n]; revert e || revert n; coord_cases; lia.
Qed.

(** X18: [setFloatingBaseJoint(joint)] gives each of the six coordinates
    the joint with the value of the coordinate as identifier, whatever
    identifier the joint had. The base is then fully floating exactly when
    the joint is active, and constrained exactly when the joint is; for an
    active joint [getFloatingBaseJointCoordinate(id)] returns [id] for the
    identifiers 0 to 5, and for any other identifier, or an inactive joint,
    it prints the error and returns 0. *)
Theorem six_dof_joint_coordinates (joint : FloatingBaseJoint)
    (s : FloatingBaseSystem) :
  let s' := setFloatingBaseJoint joint s in
  (forall c, c ∈ coords -> getFloatingBaseJoint c s' = with_id c joint) /\
  isFullyFloatingBase s' = active joint /\
  hasFloatingBaseConstraints s' = constrained joint /\
  forall id,
    getFloatingBaseJointCoordinate id s'
    = if active joint && bool_decide (0 <= id <= 5) then (id, [])
      else (0, [MSG_NOT_FLOATING id]).
Proof.
  intros s'. split; [|split; [|split]].
  - intros c Hc. apply elem_of_coords in Hc.
    unfold getFloatingBaseJoint, s', setFloatingBaseJoint.
    unfold rbd_AX, rbd_AY, rbd_AZ, rbd_LX, rbd_LY, rbd_LZ.
    repeat (case_bool_decide; [subst c; reflexivity|]).
    assert (c = 5) as -> by lia. reflexivity.
  - unfold isFullyFloatingBase, s', setFloatingBaseJoint. cbn.
    destruct (active joint); reflexivity.
  - unfold hasFloatingBaseConstraints, s', setFloatingBaseJoint. cbn.
    destruct (constrained joint); reflexivity.
  - intros id. unfold getFloatingBaseJointCoordinate, s', setFloatingBaseJoint.
    cbn. destruct (active joint); cbn; [|reflexivity].
    unfold rbd_AX, rbd_AY, rbd_AZ, rbd_LX, rbd_LY, rbd_LZ.
    repeat (case_bool_decide; [subst id; reflexivity|]).
    rewrite bool_decide_eq_false_2 by lia. reflexivity.
Qed.

Lemma carries_coord (s : FloatingBaseSystem) (c id : Z) (j : FloatingBaseJoint) :
  getFloatingBaseJoint c s = j ->
  active j && bool_decide (joint_id j = id) = true <-> carries s c id.
Proof.
  intros <-. unfold carries. rewrite andb_true_iff, bool_decide_eq_true.
  reflexivity.
Qed.

(** X19: when [getFloatingBaseJointCoordinate(id)] prints nothing, it
    returns the first coordinate, in the order AX, AY, AZ, LX, LY, LZ, whose
    joint is active and carries [id]. When it prints the error, no coordinate
    carries [id], and the value returned is that of [rbd::AX]: the value
    alone does not tell the failure from the answer [rbd::AX]. *)
Theorem floating_base_joint_coordinate_sound (id : Z) (s : FloatingBaseSystem) :
  let r := getFloatingBaseJointCoordinate id s in
  (r.2 = [] ->
   r.1 ∈ coords /\ carries s r.1 id /\
   forall c, c ∈ coords -> c < r.1 -> ~ carries s c id) /\
  (r.2 <> [] ->
   r = (rbd_AX, [MSG_NOT_FLOATING id]) /\
   forall c, c ∈ coords -> ~ carries s c id).
Proof.
  intros r. unfold r, getFloatingBaseJointCoordinate.
  pose proof (carries_coord s rbd_AX id (AX s) eq_refl) as HAX.
  pose proof (carries_coord s rbd_AY id (AY s) eq_refl) as HAY.
  pose proof (carries_coord s rbd_AZ id (AZ s) eq_refl) as HAZ.
  pose proof (carries_coord s rbd_LX id (LX s) eq_refl) as HLX.
  pose proof (carries_coord s rbd_LY id (LY s) eq_refl) as HLY.
  pose proof (carries_coord s rbd_LZ id (LZ s) eq_refl) as HLZ.
  assert (Hcases : forall (P : Z -> Prop),
             P rbd_AX -> P rbd_AY -> P rbd_AZ -> P rbd_LX -> P rbd_LY ->
             P rbd_LZ -> forall c, c ∈ coords -> P c).
  { intros P ? ? ? ? ? ? c Hc. unfold coords in Hc.
    repeat (apply elem_of_cons in Hc as [->|Hc]; [assumption|]).
    apply elem_of_nil in Hc. contradiction. }
  destruct (active (AX s) && _) eqn:EAX; cbn [fst snd].
  { split; [intros _|intros H; contradiction].
    split; [apply elem_of_coords; unfold rbd_AX; lia|].
    split; [apply HAX; reflexivity|].
    intros c Hc Hlt. apply elem_of_coords in Hc. unfold rbd_AX in Hlt. lia. }
  destruct (active (AY s) && _) eqn:EAY; cbn [fst snd].
  { split; [intros _|intros H; contradiction].
    split; [apply elem_of_coords; unfold rbd_AY; lia|].
    split; [apply HAY; reflexivity|].
    intros c Hc Hlt. apply elem_of_coords in Hc. unfold rbd_AY in Hlt.
    assert (c = rbd_AX) as -> by (unfold rbd_AX; lia).
    rewrite <- HAX. congruence. }
  destruct (active (AZ s) && _) eqn:EAZ; cbn [fst snd].
  { split; [intros _|intros H; contradiction].
    split; [apply elem_of_coords; unfold rbd_AZ; lia|].
    split; [apply HAZ; reflexivity|].
    intros c Hc Hlt. revert c Hc Hlt.
    apply (Hcases (fun c => c < rbd_AZ -> ~ carries s c id));
      unfold rbd_AX, rbd_AY, rbd_AZ, rbd_LX, rbd_LY, rbd_LZ in *;
      intros Hlt; try lia; [rewrite <- HAX | rewrite <- HAY]; congruence. }
  destruct (active (LX s) && _) eqn:ELX; cbn [fst snd].
  { split; [intros _|intros H; contradiction].
    split; [apply elem_of_coords; unfold rbd_LX; lia|].
    split; [apply HLX; reflexivity|].
    intros c Hc Hlt. revert c Hc Hlt.
    apply (Hcases (fun c => c < rbd_LX -> ~ carries s c id));
      unfold rbd_AX, rbd_AY, rbd_AZ, rbd_LX, rbd_LY, rbd_LZ in *;
      intros Hlt; try lia;
      [rewrite <- HAX | rewrite <- HAY | rewrite <- HAZ]; congruence. }
  destruct (active (LY s) && _) eqn:ELY; cbn [fst snd].
  { split; [intros _|intros H; contradiction].
    split; [apply elem_of_coords; unfold rbd_LY; lia|].
    split; [apply HLY; reflexivity|].
    intros c Hc Hlt. revert c Hc Hlt.
    apply (Hcases (fun c => c < rbd_LY -> ~ carries s c id));
      unfold rbd_AX, rbd_AY, rbd_AZ, rbd_LX, rbd_LY, rbd_LZ in *;
      intros Hlt; try lia;
      [rewrite <- HAX | rewrite <- HAY | rewrite <- HAZ | rewrite <- HLX];
      congruence. }
  destruct (active (LZ s) && _) eqn:ELZ; cbn [fst snd].
  { split; [intros _|intros H; contradiction].
    split; [apply elem_of_coords; unfold rbd_LZ; lia|].
    split; [apply HLZ; reflexivity|].
    intros c Hc Hlt. revert c Hc Hlt.
    apply (Hcases (fun c => c < rbd_LZ -> ~ carries s c id));
      unfold rbd_AX, rbd_AY, rbd_AZ, rbd_LX, rbd_LY, rbd_LZ in *;
      intros Hlt; try lia;
      [rewrite <- HAX | rewrite <- HAY | rewrite <- HAZ | rewrite <- HLX
       | rewrite <- HLY]; congruence. }
  split; [intros H; discriminate|intros _].
  split; [reflexivity|].
  apply (Hcases (fun c => ~ carries s c id));
    [rewrite <- HAX | rewrite <- HAY | rewrite <- HAZ | rewrite <- HLX
     | rewrite <- HLY | rewrite <- HLZ]; congruence.
Qed.

Lemma segment_app_mid (a x b : list Q) :
  segment (Z.of_nat (length a)) (Z.of_nat (length x)) (a ++ x ++ b) = Return x.
Proof.
  unfold segment. rewrite bool_decide_eq_true_2.
  - rewrite !Nat2Z.id, drop_app_length, take_app_length. reflexivity.
  - rewrite !length_app. lia.
Qed.

Lemma segment_suffix (a x : list Q) :
  segment (Z.of_nat (length a)) (Z.of_nat (length x)) (a ++ x) = Return x.
Proof.
  pose proof (segment_app_mid a x []) as H. rewrite app_nil_r in H. exact H.
Qed.

(** X20: for a joint state whose size is not the number of joints,
    [toGeneralizedJointState] fails its assertion. Otherwise, for a floating
    base, constrained or not, the generalized state is the linear part of the
    base state, its angular part and the joint state, in this order, and
    [fromGeneralizedJointState] gives the base state and the joint state
    back, whatever its two output arguments held; for a fixed base the
    generalized state is the joint state, and the base state that comes back
    is zero, whatever base state was given. *)
Theorem generalized_state_round_trip (uninitialized : list Q)
    (base_state : Vector6d) (joint_state : VectorXd) (s : FloatingBaseSystem) :
  (Z.of_nat (length joint_state) <> getJointDoF s ->
   toGeneralizedJointState uninitialized base_state joint_state s
   = Stopped AssertionFailure) /\
  (Z.of_nat (length joint_state) = getJointDoF s ->
   (getTypeOfDynamicSystem s = FloatingBase \/
    getTypeOfDynamicSystem s = ConstrainedFloatingBase) ->
   6 + getJointDoF s < UINT_MOD ->
   toGeneralizedJointState uninitialized base_state joint_state s
   = Return (linearPart base_state ++ angularPart base_state ++ joint_state) /\
   forall base0 joint0,
     fromGeneralizedJointState base0 joint0
       (linearPart base_state ++ angularPart base_state ++ joint_state) s
     = Return (base_state, joint_state)) /\
  (Z.of_nat (length joint_state) = getJointDoF s ->
   getTypeOfDynamicSystem s = FixedBase ->
   toGeneralizedJointState uninitialized base_state joint_state s
   = Return joint_state /\
   forall base0 joint0,
     fromGeneralizedJointState base0 joint0 joint_state s
     = Return (Vector6d_Zero, joint_state)).
Proof.
  split; [|split].
  - intros Hne. unfold toGeneralizedJointState.
    rewrite bool_decide_eq_false_2 by exact Hne. reflexivity.
  - intros Hlen Hty Hr.
    assert (Hb : bool_decide (getTypeOfDynamicSystem s = FloatingBase)
                 || bool_decide (getTypeOfDynamicSystem s
                                 = ConstrainedFloatingBase) = true).
    { destruct Hty as [-> | ->]; reflexivity. }
    split.
    + unfold toGeneralizedJointState.
      rewrite bool_decide_eq_true_2 by exact Hlen. cbn [negb]. rewrite Hb.
      unfold comma_init, uadd. rewrite Z.mod_small by lia.
      rewrite bool_decide_eq_true_2; [reflexivity|].
      rewrite !length_app. cbn [length linearPart angularPart]. lia.
    + intros base0 joint0. unfold fromGeneralizedJointState. rewrite Hb.
      assert (Hlin : segment rbd_LX 3
                       (linearPart base_state ++ angularPart base_state
                        ++ joint_state)
                     = Return (angularPart base_state)).
      { exact (segment_app_mid (linearPart base_state)
                 (angularPart base_state) joint_state). }
      assert (Hang : segment rbd_AX 3
                       (linearPart base_state ++ angularPart base_state
                        ++ joint_state)
                     = Return (linearPart base_state)).
      { exact (segment_app_mid [] (linearPart base_state)
                 (angularPart base_state ++ joint_state)). }
      rewrite Hlin, Hang. cbn [mbind run_bind].
      assert (Hjnt : segment 6 (getJointDoF s)
                       (linearPart base_state ++ angularPart base_state
                        ++ joint_state)
                     = Return joint_state).
      { rewrite <- Hlen, app_assoc.
        exact (segment_suffix (linearPart base_state ++ angularPart base_state)
                 joint_state). }
      cbn [angularPart linearPart app comma_init6 mbind run_bind] in *.
      rewrite Hjnt. cbn [mbind run_bind]. destruct base_state. reflexivity.
  - intros Hlen Hty.
    assert (Hb : bool_decide (getTypeOfDynamicSystem s = FloatingBase)
                 || bool_decide (getTypeOfDynamicSystem s
                                 = ConstrainedFloatingBase) = false).
    { rewrite Hty. reflexivity. }
    assert (Hv : bool_decide (getTypeOfDynamicSystem s = VirtualFloatingBase)
                 = false) by (rewrite Hty; reflexivity).
    split.
    + unfold toGeneralizedJointState.
      rewrite bool_decide_eq_true_2 by exact Hlen. cbn [negb].
      rewrite Hb, Hv. reflexivity.
    + intros base0 joint0. unfold fromGeneralizedJointState.
      rewrite Hb, Hv. reflexivity.
Qed.

Lemma run_foldM_app {A B : Type} (f : B -> A -> run B) (l1 l2 : list A) (b : B) :
  run_foldM f (l1 ++ l2) b = (b' ← run_foldM f l1 b; run_foldM f l2 b').
Proof.
  revert b. induction l1 as [|a l1 IH]; intros b; cbn [app run_foldM].
  - reflexivity.
  - destruct (f b a) as [b1|st]; cbn [mbind run_bind]; [apply IH | reflexivity].
Qed.

Lemma set_virtual_spec (j : FloatingBaseJoint) (x : Q) (vb : VectorXd) :
  (active j = true -> 0 <= joint_id j < Z.of_nat (length vb)) ->
  exists vb',
    set_virtual j x vb = Return vb' /\ length vb' = length vb /\
    (active j = true -> vb' !! Z.to_nat (joint_id j) = Some x) /\
    (forall i : nat, (active j = true -> i <> Z.to_nat (joint_id j)) ->
                     vb' !! i = vb !! i).
Proof.
  intros Hr. unfold set_virtual, set_coeff. destruct (active j).
  - specialize (Hr eq_refl). rewrite bool_decide_eq_true_2 by exact Hr.
    eexists. split; [reflexivity|]. split; [apply length_insert|]. split.
    + intros _. apply list_lookup_insert_eq. lia.
    + intros i Hi. apply list_lookup_insert_ne. specialize (Hi eq_refl). lia.
  - exists vb. split; [reflexivity|]. split; [reflexivity|].
    split; [discriminate | reflexivity].
Qed.

Lemma set_virtual_fold (l : list (FloatingBaseJoint * Q)) :
  forall vb : VectorXd,
    (forall jx, jx ∈ l -> active jx.1 = true ->
                0 <= joint_id jx.1 < Z.of_nat (length vb)) ->
    (forall (i1 i2 : nat) jx1 jx2,
        l !! i1 = Some jx1 -> l !! i2 = Some jx2 ->
        active jx1.1 = true -> active jx2.1 = true ->
        joint_id jx1.1 = joint_id jx2.1 -> i1 = i2) ->
    exists vb',
      run_foldM (fun vb jx => set_virtual jx.1 jx.2 vb) l vb = Return vb' /\
      length vb' = length vb /\
      (forall jx, jx ∈ l -> active jx.1 = true ->
                  vb' !! Z.to_nat (joint_id jx.1) = Some jx.2) /\
      (forall i : nat,
          (forall jx, jx ∈ l -> active jx.1 = true ->
                      i <> Z.to_nat (joint_id jx.1)) ->
          vb' !! i = vb !! i).
Proof.
  induction l as [|[j x] l IH]; intros vb Hr Hd; cbn [run_foldM].
  - exists vb. split; [reflexivity|]. split; [reflexivity|]. split.
    + intros jx Hin. apply elem_of_nil in Hin. contradiction.
    + reflexivity.
  - cbn [fst snd]. destruct (set_virtual_spec j x vb) as (vb1 & -> & Hl1 & Hw1 & Hk1).
    { apply (Hr (j, x)). apply list_elem_of_here. }
    cbn [mbind run_bind].
    destruct (IH vb1) as (vb' & -> & Hl & Hw & Hk).
    { intros jx Hin Ha. rewrite Hl1. apply Hr; [|exact Ha].
      apply list_elem_of_further, Hin. }
    { intros i1 i2 jx1 jx2 H1 H2 Ha1 Ha2 Hid.
      assert (S i1 = S i2) by (eapply (Hd (S i1) (S i2)); eassumption).
      lia. }
    exists vb'. split; [reflexivity|]. split; [congruence|]. split.
    + intros jx Hin Ha. apply elem_of_cons in Hin as [->|Hin].
      * cbn [fst snd] in *. rewrite Hk; [apply Hw1, Ha|].
        intros jx' Hin' Ha' Heq.
        apply list_elem_of_lookup_1 in Hin' as [i' Hi'].
        assert (0%nat = S i') as Habs; [|discriminate Habs].
        apply (Hd 0%nat (S i') (j, x) jx'); try assumption; try reflexivity.
        cbn [fst].
        pose proof (Hr (j, x) (list_elem_of_here _ _) Ha) as Hr0.
        assert (Hr' : 0 <= joint_id jx'.1 < Z.of_nat (length vb)).
        { apply Hr; [|exact Ha'].
          apply list_elem_of_further. eapply list_elem_of_lookup_2, Hi'. }
        cbn [fst] in Hr0. lia.
      * apply Hw; assumption.
    + intros i Hi. rewrite Hk.
      * apply Hk1. intros Ha. apply (Hi (j, x)); [apply list_elem_of_here|exact Ha].
      * intros jx Hin Ha. apply Hi; [apply list_elem_of_further, Hin | exact Ha].
Qed.

Lemma coords_cases (c : Z) :
  c ∈ coords ->
  c = rbd_AX \/ c = rbd_AY \/ c = rbd_AZ \/ c = rbd_LX \/ c = rbd_LY \/
  c = rbd_LZ.
Proof.
  intros Hc. apply elem_of_coords in Hc.
  unfold rbd_AX, rbd_AY, rbd_AZ, rbd_LX, rbd_LY, rbd_LZ. lia.
Qed.

Lemma set_coeff6_spec (c : Z) (x : Q) (v : Vector6d) :
  c ∈ coords ->
  exists v',
    set_coeff6 c x v = Return v' /\
    forall c', c' ∈ coords ->
      at_coord v' c' = if decide (c' = c) then x else at_coord v c'.
Proof.
  intros Hc.
  destruct (coords_cases c Hc) as [->|[->|[->|[->|[->| ->]]]]];
    (eexists; split; [reflexivity|]; intros c' Hc';
     destruct (coords_cases c' Hc') as [->|[->|[->|[->|[->| ->]]]]];
     reflexivity).
Qed.

Lemma from_virtual_step_spec (q : VectorXd) (s : FloatingBaseSystem)
    (b : Vector6d) (c : Z) (v : Q) :
  c ∈ coords ->
  (active (getFloatingBaseJoint c s) = true ->
   coeff q (joint_id (getFloatingBaseJoint c s)) = Return v) ->
  exists b',
    from_virtual_step q s b c = Return b' /\
    forall c', c' ∈ coords ->
      at_coord b' c'
      = if decide (c' = c) then
          if active (getFloatingBaseJoint c s) then v else at_coord b c'
        else at_coord b c'.
Proof.
  intros Hc Hv. unfold from_virtual_step.
  destruct (active (getFloatingBaseJoint c s)) eqn:Ha.
  - rewrite (Hv eq_refl). cbn [mbind run_bind].
    destruct (set_coeff6_spec c v b Hc) as (b' & -> & Hb').
    exists b'. split; [reflexivity | exact Hb'].
  - exists b. split; [reflexivity|]. intros c' _.
    destruct (decide _); reflexivity.
Qed.

Lemma from_virtual_fold (q : VectorXd) (s : FloatingBaseSystem)
    (value : Z -> Q) (l : list Z) :
  NoDup l ->
  (forall c, c ∈ l -> c ∈ coords) ->
  (forall c, c ∈ l -> active (getFloatingBaseJoint c s) = true ->
             coeff q (joint_id (getFloatingBaseJoint c s)) = Return (value c)) ->
  forall b,
  exists b',
    run_foldM (from_virtual_step q s) l b = Return b' /\
    forall c', c' ∈ coords ->
      at_coord b' c'
      = if decide (c' ∈ l) then
          if active (getFloatingBaseJoint c' s) then value c'
          else at_coord b c'
        else at_coord b c'.
Proof.
  induction l as [|c l IH]; intros Hnd Hl Hv b; cbn [run_foldM].
  - exists b. split; [reflexivity|]. intros c' _.
    rewrite decide_False by apply not_elem_of_nil. reflexivity.
  - apply NoDup_cons in Hnd as [Hc Hnd].
    destruct (from_virtual_step_spec q s b c (value c)) as (b1 & -> & Hb1).
    { apply Hl, list_elem_of_here. }
    { apply Hv, list_elem_of_here. }
    cbn [mbind run_bind].
    destruct (IH Hnd) with (b := b1) as (b' & -> & Hb').
    { intros c' Hin. apply Hl, list_elem_of_further, Hin. }
    { intros c' Hin. apply Hv, list_elem_of_further, Hin. }
    exists b'. split; [reflexivity|]. intros c' Hc'.
    rewrite (Hb' c' Hc'), (Hb1 c' Hc').
    destruct (decide (c' = c)) as [->|Hne].
    + rewrite decide_False by exact Hc.
      rewrite decide_True by apply list_elem_of_here. reflexivity.
    + destruct (decide (c' ∈ l)) as [Hin|Hin].
      * rewrite decide_True by (apply list_elem_of_further, Hin).
        destruct (active _); reflexivity.
      * rewrite decide_False; [reflexivity|].
        intros H. apply elem_of_cons in H as [H|H]; contradiction.
Qed.

(** X21: for a virtual floating base whose active coordinates carry
    distinct identifiers below the number of floating-base joints,
    [toGeneralizedJointState] puts the coefficient of each active coordinate
    of the base state at the identifier of its joint, followed by the joint
    state; [fromGeneralizedJointState] gives the joint state back and
    writes the active coordinates of its base state, which get the values
    they had, and leaves the other coordinates as its argument held them. The
    coefficients of [virtual_base] that no active coordinate writes are never
    read back. *)
Theorem virtual_base_round_trip (uninitialized : list Q)
    (base_state : Vector6d) (joint_state : VectorXd) (s : FloatingBaseSystem) :
  getTypeOfDynamicSystem s = VirtualFloatingBase ->
  Z.of_nat (length joint_state) = getJointDoF s ->
  0 <= getFloatingBaseDoF s ->
  getFloatingBaseDoF s + getJointDoF s < UINT_MOD ->
  virtual_base_indexed s ->
  exists q,
    toGeneralizedJointState uninitialized base_state joint_state s = Return q /\
    Z.of_nat (length q) = getFloatingBaseDoF s + getJointDoF s /\
    (forall c, c ∈ coords -> active (getFloatingBaseJoint c s) = true ->
               q !! Z.to_nat (joint_id (getFloatingBaseJoint c s))
               = Some (at_coord base_state c)) /\
    forall base0 joint0,
    exists base_state',
      fromGeneralizedJointState base0 joint0 q s
      = Return (base_state', joint_state) /\
      forall c, c ∈ coords ->
        at_coord base_state' c
        = if active (getFloatingBaseJoint c s) then at_coord base_state c
          else at_coord base0 c.
Proof.
  intros Hty Hlen Hdof Hr [Hidx Hdist].
  assert (Hb : bool_decide (getTypeOfDynamicSystem s = FloatingBase)
               || bool_decide (getTypeOfDynamicSystem s
                               = ConstrainedFloatingBase) = false).
  { rewrite Hty. reflexivity. }
  assert (Hv : bool_decide (getTypeOfDynamicSystem s = VirtualFloatingBase)
               = true) by (rewrite Hty; reflexivity).
  set (vb0 := resize (Z.to_nat (getFloatingBaseDoF s)) 0%Q uninitialized).
  assert (Hl0 : Z.of_nat (length vb0) = getFloatingBaseDoF s).
  { unfold vb0. rewrite length_resize. lia. }
  set (l := [(AX s, at_AX base_state); (AY s, at_AY base_state);
             (AZ s, at_AZ base_state); (LX s, at_LX base_state);
             (LY s, at_LY base_state); (LZ s, at_LZ base_state)]).
  assert (Hl : forall (i : nat) jx,
             l !! i = Some jx ->
             exists c, c ∈ coords /\ Z.of_nat i = c /\
                       jx = (getFloatingBaseJoint c s, at_coord base_state c)).
  { intros i jx Hi.
    destruct i as [|[|[|[|[|[|i]]]]]]; cbn in Hi; try discriminate;
      injection Hi as <-; eexists; (split; [|split; reflexivity]);
      apply elem_of_coords; lia. }
  destruct (set_virtual_fold l vb0) as (vb & Hrun & Hlvb & Hw & _).
  { intros jx Hin Ha. apply list_elem_of_lookup_1 in Hin as [i Hi].
    destruct (Hl i jx Hi) as (c & Hc & _ & ->). cbn [fst] in *.
    rewrite Hl0. apply Hidx; assumption. }
  { intros i1 i2 jx1 jx2 H1 H2 Ha1 Ha2 Hid.
    destruct (Hl i1 jx1 H1) as (c1 & Hc1 & E1 & ->).
    destruct (Hl i2 jx2 H2) as (c2 & Hc2 & E2 & ->). cbn [fst] in *.
    assert (c1 = c2) by (apply Hdist; assumption). lia. }
  assert (Hto : toGeneralizedJointState uninitialized base_state joint_state s
                = Return (vb ++ joint_state)).
  { unfold toGeneralizedJointState.
    rewrite bool_decide_eq_true_2 by exact Hlen. cbn [negb]. rewrite Hb, Hv.
    fold vb0. unfold l in Hrun. cbn [run_foldM fst snd] in Hrun.
    destruct (set_virtual (AX s) _ vb0) as [vb1|]; cbn [mbind run_bind] in *;
      [|discriminate].
    destruct (set_virtual (AY s) _ vb1) as [vb2|]; cbn [mbind run_bind] in *;
      [|discriminate].
    destruct (set_virtual (AZ s) _ vb2) as [vb3|]; cbn [mbind run_bind] in *;
      [|discriminate].
    destruct (set_virtual (LX s) _ vb3) as [vb4|]; cbn [mbind run_bind] in *;
      [|discriminate].
    destruct (set_virtual (LY s) _ vb4) as [vb5|]; cbn [mbind run_bind] in *;
      [|discriminate].
    destruct (set_virtual (LZ s) _ vb5) as [vb6|]; cbn [mbind run_bind] in *;
      [|discriminate].
    injection Hrun as ->. unfold comma_init, uadd.
    rewrite Z.mod_small by lia.
    rewrite bool_decide_eq_true_2; [reflexivity|]. rewrite length_app. lia. }
  assert (Hq : forall c, c ∈ coords ->
                 active (getFloatingBaseJoint c s) = true ->
                 (vb ++ joint_state)
                   !! Z.to_nat (joint_id (getFloatingBaseJoint c s))
                 = Some (at_coord base_state c)).
  { intros c Hc Ha.
    assert (Hin : (getFloatingBaseJoint c s, at_coord base_state c) ∈ l).
    { destruct (coords_cases c Hc) as [->|[->|[->|[->|[->| ->]]]]];
        unfold l;
        repeat first [apply list_elem_of_here | apply list_elem_of_further]. }
    pose proof (Hw _ Hin Ha) as Hlook. cbn [fst snd] in Hlook.
    rewrite lookup_app_l; [exact Hlook|].
    apply lookup_lt_Some in Hlook. exact Hlook. }
  exists (vb ++ joint_state). split; [exact Hto|].
  split; [rewrite length_app; lia|]. split; [exact Hq|].
  intros base0 joint0.
  destruct (from_virtual_fold (vb ++ joint_state) s (at_coord base_state)
              (seqZ 0 6)) with (b := base0) as (b' & Hfrom & Hb').
  { apply NoDup_seqZ. }
  { intros c Hc. apply elem_of_seqZ in Hc. apply elem_of_coords. lia. }
  { intros c Hc Ha. apply elem_of_seqZ in Hc.
    assert (Hc' : c ∈ coords) by (apply elem_of_coords; lia).
    unfold coeff. pose proof (Hidx c Hc' Ha) as Hrange.
    rewrite bool_decide_eq_true_2 by lia. rewrite (Hq c Hc' Ha). reflexivity. }
  exists b'. split.
  - unfold fromGeneralizedJointState. rewrite Hb, Hv, Hfrom.
    cbn [mbind run_bind].
    assert (Hseg : segment (getFloatingBaseDoF s) (getJointDoF s)
                     (vb ++ joint_state) = Return joint_state).
    { rewrite <- Hlen, <- Hl0, <- Hlvb. apply segment_suffix. }
    rewrite Hseg. reflexivity.
  - intros c Hc. rewrite (Hb' c Hc).
    rewrite decide_True; [reflexivity|].
    apply elem_of_seqZ. apply elem_of_coords in Hc. lia.
Qed.

(** ** Reading a robot description *)

Lemma in_order_Permutation {T : Type} (m : gmap string T) :
  in_order m ≡ₚ map_to_list m.
Proof. apply merge_sort_Permutation. Qed.

Lemma names_in_order_spec {T : Type} (m : gmap string T) :
  NoDup (names_in_order m) /\
  (forall name, name ∈ names_in_order m <-> is_Some (m !! name)) /\
  length (names_in_order m) = size m.
Proof.
  unfold names_in_order.
  assert (Hp : (in_order m).*1 ≡ₚ (map_to_list m).*1).
  { apply fmap_Permutation, in_order_Permutation. }
  split; [|split].
  - rewrite Hp. apply NoDup_fst_map_to_list.
  - intros name. rewrite Hp. split.
    + intros Hin. apply list_elem_of_fmap in Hin as ([n v] & -> & Hin).
      apply elem_of_map_to_list in Hin. cbn. rewrite Hin. eauto.
    + intros [v Hv]. apply list_elem_of_fmap. exists (name, v).
      split; [reflexivity|]. apply elem_of_map_to_list, Hv.
  - rewrite Hp, length_fmap. apply length_map_to_list.
Qed.

Lemma floating_joint_step_books names s jnt s' :
  floating_joint_step names s jnt = Return s' -> books s' = books s.
Proof.
  unfold floating_joint_step. destruct (names !! jnt.1); [|discriminate].
  case_bool_decide; intros [= <-]; [reflexivity|].
  unfold setFloatingBaseJoint_coord. repeat case_bool_decide; reflexivity.
Qed.

Lemma floating_loop_books names (l : list (string * Z)) :
  forall s s',
    run_foldM (floating_joint_step names) l s = Return s' -> books s' = books s.
Proof.
  induction l as [|jnt l IH]; intros s s'; cbn [run_foldM].
  - intros [= <-]. reflexivity.
  - destruct (floating_joint_step names s jnt) as [s1|] eqn:E;
      cbn [mbind run_bind]; [|discriminate].
    intros H. rewrite (IH _ _ H). eapply floating_joint_step_books, E.
Qed.

Lemma free_joint_step_frame names s jnt :
  base_joints (free_joint_step names s jnt) = base_joints s /\
  num_floating_joints (free_joint_step names s jnt) = num_floating_joints s /\
  num_joints (free_joint_step names s jnt) = num_joints s /\
  joint_names_ (free_joint_step names s jnt) = joint_names_ s /\
  end_effectors (free_joint_step names s jnt) = end_effectors s /\
  end_effector_names_ (free_joint_step names s jnt) = end_effector_names_ s.
Proof.
  unfold free_joint_step. case_bool_decide; [|repeat split].
  destruct (names !! jnt.1); repeat split.
Qed.

Lemma free_loop_frame names (l : list (string * Z)) :
  forall s,
    base_joints (foldl (free_joint_step names) s l) = base_joints s /\
    num_floating_joints (foldl (free_joint_step names) s l)
    = num_floating_joints s /\
    num_joints (foldl (free_joint_step names) s l) = num_joints s /\
    joint_names_ (foldl (free_joint_step names) s l) = joint_names_ s /\
    end_effectors (foldl (free_joint_step names) s l) = end_effectors s /\
    end_effector_names_ (foldl (free_joint_step names) s l)
    = end_effector_names_ s.
Proof.
  induction l as [|jnt l IH]; intros s; cbn [foldl]; [repeat split|].
  destruct (IH (free_joint_step names s jnt)) as (-> & -> & -> & -> & -> & ->).
  apply free_joint_step_frame.
Qed.

Lemma classify_frame s :
  base_joints (classify s) = base_joints s /\
  num_floating_joints (classify s) = num_floating_joints s /\
  num_joints (classify s) = num_joints s /\
  joints (classify s) = joints s /\
  joint_names_ (classify s) = joint_names_ s /\
  end_effectors (classify s) = end_effectors s /\
  end_effector_names_ (classify s) = end_effector_names_ s.
Proof.
  unfold classify. destruct (isFullyFloatingBase _).
  - destruct (hasFloatingBaseConstraints _); repeat split.
  - case_bool_decide; repeat split.
Qed.

Lemma read_floating_joints_books urdf_model s s' :
  read_floating_joints urdf_model s = Return s' ->
  books s' = books (set_num_floating_joints
                      (to_unsigned
                         (Z.of_nat (size (floating_joint_names_of urdf_model))))
                      s).
Proof.
  unfold read_floating_joints. cbn zeta.
  case_bool_decide; [apply floating_loop_books|]. intros [= <-]. reflexivity.
Qed.

Lemma read_actuated_joints_frame urdf_model s :
  base_joints (read_actuated_joints urdf_model s) = base_joints s /\
  num_floating_joints (read_actuated_joints urdf_model s)
  = num_floating_joints s /\
  joint_names_ (read_actuated_joints urdf_model s) = joint_names_ s /\
  end_effectors (read_actuated_joints urdf_model s) = end_effectors s /\
  end_effector_names_ (read_actuated_joints urdf_model s)
  = end_effector_names_ s.
Proof.
  unfold read_actuated_joints. cbn zeta.
  match goal with |- context [foldl (free_joint_step ?n) ?x ?l] =>
    destruct (free_loop_frame n l x) as (-> & -> & _ & -> & -> & ->) end.
  repeat split.
Qed.

(** X22: [resetFromURDFModel] sets the number of end-effectors to the
    size of the map that [getEndEffectors] filled and appends their names, in
    the order of the map and each once, to the list of names, which it does
    not clear: after the call the list has the names it had before followed
    by those of the map, so that on a system that was read before the list is
    longer than the number of end-effectors. *)
Theorem reset_end_effector_names (urdf_model : URDFModel)
    (s s' : FloatingBaseSystem) :
  resetFromURDFModel_system urdf_model s = Return s' ->
  let found := getEndEffectors_of urdf_model (getEndEffectors s) in
  getEndEffectors s' = found /\
  getNumberOfEndEffectors s' = to_unsigned (Z.of_nat (size found)) /\
  getEndEffectorNames s' = getEndEffectorNames s ++ names_in_order found /\
  NoDup (names_in_order found) /\
  (forall name, name ∈ names_in_order found <-> is_Some (found !! name)) /\
  length (getEndEffectorNames s')
  = (length (getEndEffectorNames s) + size found)%nat.
Proof.
  intros Hrun found. revert Hrun. unfold resetFromURDFModel_system.
  destruct (read_floating_joints _ _) as [s1|] eqn:E; cbn [mbind run_bind];
    [|discriminate].
  apply read_floating_joints_books in E.
  injection E as _ _ _ _ _ _ _ He Hn _.
  cbn [end_effectors end_effector_names_ set_num_floating_joints set_rbd_model]
    in He, Hn.
  intros [= <-].
  unfold getEndEffectors, getNumberOfEndEffectors, getEndEffectorNames,
    read_end_effectors.
  cbn [end_effectors num_end_effectors end_effector_names_
       set_end_effector_names_ set_num_end_effectors set_end_effectors].
  destruct (classify_frame (read_joint_names (read_actuated_joints urdf_model s1)))
    as (_ & _ & _ & _ & _ & -> & ->).
  unfold read_joint_names. cbn [end_effectors end_effector_names_ set_joint_names_].
  destruct (read_actuated_joints_frame urdf_model s1) as (_ & _ & _ & -> & ->).
  rewrite He, Hn. fold (getEndEffectors s). fold found.
  destruct (names_in_order_spec found) as (Hnd & Hin & Hlen).
  split; [reflexivity|]. split; [reflexivity|]. split; [reflexivity|].
  split; [exact Hnd|]. split; [exact Hin|].
  rewrite length_app, Hlen. reflexivity.
Qed.

Lemma free_loop_fixed names (l : list (string * Z)) (s : FloatingBaseSystem) :
  ~ num_floating_joints s > 0 -> foldl (free_joint_step names) s l = s.
Proof.
  intros H. induction l as [|jnt l IH]; cbn [foldl]; [reflexivity|].
  assert (Hstep : free_joint_step names s jnt = s).
  { unfold free_joint_step. rewrite bool_decide_eq_false_2 by exact H.
    reflexivity. }
  rewrite Hstep. exact IH.
Qed.

Lemma to_unsigned_idemp (n : Z) : usub (to_unsigned n) 0 = to_unsigned n.
Proof.
  unfold usub, to_unsigned. rewrite Z.sub_0_r. apply Z.mod_mod. discriminate.
Qed.

(** X23: for a description without floating-base joint,
    [resetFromURDFModel] returns and registers no joint: the map of the
    joints is the one the system had, and only its names are appended to the
    list of joint names, while the number of joints is the number of free
    joints of the description; the coordinates of the base are untouched. If
    the base was not fully floating the system is a fixed base with as many
    degrees of freedom as joints. *)
Theorem reset_fixed_base_description (urdf_model : URDFModel)
    (s : FloatingBaseSystem) :
  size (floating_joint_names_of urdf_model) = 0%nat ->
  exists s',
    resetFromURDFModel_system urdf_model s = Return s' /\
    getFloatingBaseDoF s' = 0 /\
    getJointDoF s'
    = to_unsigned (Z.of_nat (size (free_joint_names_of urdf_model))) /\
    getJoints s' = getJoints s /\
    getJointNames s' = getJointNames s ++ names_in_order (getJoints s) /\
    base_joints s' = base_joints s /\
    (isFullyFloatingBase s = false ->
     getTypeOfDynamicSystem s' = FixedBase /\
     getSystemDoF s' = getJointDoF s').
Proof.
  intros Hsize. unfold resetFromURDFModel_system, read_floating_joints.
  rewrite Hsize. cbn zeta.
  change (to_unsigned (Z.of_nat 0)) with 0.
  rewrite bool_decide_eq_false_2
    by (cbn [num_floating_joints set_num_floating_joints]; lia).
  cbn [mbind run_bind].
  set (s0 := set_num_floating_joints _ _).
  assert (Hact : read_actuated_joints urdf_model s0
                 = set_num_joints
                     (to_unsigned
                        (Z.of_nat (size (free_joint_names_of urdf_model)))) s0).
  { unfold read_actuated_joints. cbn zeta.
    rewrite free_loop_fixed
      by (cbn [num_floating_joints set_num_joints s0 set_num_floating_joints];
          lia).
    change (num_floating_joints s0) with 0. rewrite to_unsigned_idemp.
    reflexivity. }
  rewrite Hact. eexists. split; [reflexivity|].
  set (s2 := read_joint_names (set_num_joints _ s0)).
  destruct (classify_frame s2) as (Hb & Hnf & Hnj & Hj & Hjn & _).
  assert (Hsame : forall x,
             getFloatingBaseDoF (read_end_effectors urdf_model x)
             = num_floating_joints x /\
             getJointDoF (read_end_effectors urdf_model x) = num_joints x /\
             getJoints (read_end_effectors urdf_model x) = joints x /\
             getJointNames (read_end_effectors urdf_model x) = joint_names_ x /\
             base_joints (read_end_effectors urdf_model x) = base_joints x /\
             getTypeOfDynamicSystem (read_end_effectors urdf_model x)
             = type_of_system x /\
             getSystemDoF (read_end_effectors urdf_model x)
             = num_system_joints x)
    by (intros x; repeat split).
  destruct (Hsame (classify s2)) as (-> & -> & -> & -> & -> & -> & ->).
  rewrite Hb, Hnf, Hnj, Hj, Hjn.
  split; [reflexivity|]. split; [reflexivity|]. split; [reflexivity|].
  split; [reflexivity|]. split; [reflexivity|]. intros Hfull.
  unfold classify. cbn zeta.
  assert (E1 : forall v x, isFullyFloatingBase (set_num_system_joints v x)
                           = isFullyFloatingBase x) by reflexivity.
  rewrite E1. change (isFullyFloatingBase s2) with (isFullyFloatingBase s).
  rewrite Hfull.
  rewrite bool_decide_eq_false_2
    by (change (~ 0 > 0); lia).
  split; [reflexivity|].
  change (uadd 0 (num_joints s2) = num_joints s2).
  change (num_joints s2)
    with (to_unsigned (Z.of_nat (size (free_joint_names_of urdf_model)))).
  unfold uadd, to_unsigned. rewrite Z.add_0_l. apply Z.mod_mod. discriminate.
Qed.

Lemma floating_joint_step_full names s jnt :
  is_Some (names !! jnt.1) ->
  exists s',
    floating_joint_step names s jnt = Return s' /\
    (free_floating s \/ jnt.2 = 6 -> free_floating s').
Proof.
  intros [id Hid]. unfold floating_joint_step. rewrite Hid.
  case_bool_decide as H6.
  - eexists. split; [reflexivity|]. intros _. split; reflexivity.
  - eexists. split; [reflexivity|]. intros [[Hf Hc]|H]; [|contradiction].
    unfold isFullyFloatingBase, hasFloatingBaseConstraints in *.
    apply andb_true_iff in Hf as [Hf HLZ]. apply andb_true_iff in Hf as [Hf HLY].
    apply andb_true_iff in Hf as [Hf HLX]. apply andb_true_iff in Hf as [Hf HAZ].
    apply andb_true_iff in Hf as [HAX HAY].
    apply orb_false_iff in Hc as [Hc CLZ]. apply orb_false_iff in Hc as [Hc CLY].
    apply orb_false_iff in Hc as [Hc CLX]. apply orb_false_iff in Hc as [Hc CAZ].
    apply orb_false_iff in Hc as [CAX CAY].
    unfold free_floating, isFullyFloatingBase, hasFloatingBaseConstraints,
      setFloatingBaseJoint_coord.
    repeat case_bool_decide; cbn;
      rewrite ?HAX, ?HAY, ?HAZ, ?HLX, ?HLY, ?HLZ, ?CAX, ?CAY, ?CAZ, ?CLX, ?CLY,
        ?CLZ; split; reflexivity.
Qed.

Lemma floating_loop_full names (l : list (string * Z)) :
  (forall jnt, jnt ∈ l -> is_Some (names !! jnt.1)) ->
  forall s,
  exists s',
    run_foldM (floating_joint_step names) l s = Return s' /\
    (free_floating s \/ (exists jnt, jnt ∈ l /\ jnt.2 = 6) -> free_floating s').
Proof.
  induction l as [|jnt l IH]; intros Hl s; cbn [run_foldM].
  - exists s. split; [reflexivity|]. intros [H|(jnt & Hin & _)]; [exact H|].
    apply elem_of_nil in Hin. contradiction.
  - destruct (floating_joint_step_full names s jnt) as (s1 & -> & H1).
    { apply Hl, list_elem_of_here. }
    cbn [mbind run_bind].
    destruct (IH (fun j Hj => Hl j (list_elem_of_further _ _ _ Hj)) s1)
      as (s' & -> & H').
    exists s'. split; [reflexivity|]. intros [H|(j & Hin & H6)].
    + apply H'. left. apply H1. left. exact H.
    + apply elem_of_cons in Hin as [->|Hin].
      * apply H'. left. apply H1. right. exact H6.
      * apply H'. right. exists j. split; assumption.
Qed.

Lemma free_loop_joints names (l : list (string * Z)) :
  NoDup l.*1 ->
  forall s,
    num_floating_joints s > 0 ->
    forall n,
      (forall v, (n, v) ∈ l -> names !! n = None ->
                 joints (foldl (free_joint_step names) s l) !! n = Some v) /\
      (n ∉ l.*1 \/ is_Some (names !! n) ->
       joints (foldl (free_joint_step names) s l) !! n = joints s !! n).
Proof.
  induction l as [|[k v] l IH]; intros Hnd s Hpos n; cbn [foldl].
  - split; [|reflexivity]. intros v Hin. apply elem_of_nil in Hin. contradiction.
  - cbn [fmap list_fmap fst] in Hnd. apply NoDup_cons in Hnd as [Hk Hnd].
    set (s1 := free_joint_step names s (k, v)).
    assert (Hpos1 : num_floating_joints s1 > 0).
    { pose proof (free_joint_step_frame names s (k, v)) as (_ & E & _).
      unfold s1. rewrite E. exact Hpos. }
    assert (Hj1 : joints s1
                  = match names !! k with
                    | None => <[k := v]> (joints s)
                    | Some _ => joints s
                    end).
    { unfold s1, free_joint_step. cbn [fst snd].
      rewrite bool_decide_eq_true_2 by exact Hpos.
      destruct (names !! k); reflexivity. }
    destruct (IH Hnd s1 Hpos1 n) as [IH1 IH2]. split.
    + intros v' Hin Hnone. apply elem_of_cons in Hin as [[= -> ->]|Hin].
      * rewrite IH2 by (left; exact Hk). rewrite Hj1, Hnone.
        apply lookup_insert_eq.
      * apply IH1; assumption.
    + intros Hn. cbn [fmap list_fmap fst] in Hn.
      rewrite IH2.
      * rewrite Hj1. destruct (names !! k) eqn:Ek; [reflexivity|].
        apply lookup_insert_ne. intros ->.
        destruct Hn as [Hn|[x Hx]]; [|congruence].
        apply Hn, list_elem_of_here.
      * destruct Hn as [Hn|Hn]; [left|right; exact Hn].
        intros Hin. apply Hn, list_elem_of_further, Hin.
Qed.

(** X24: for a description with floating-base joints, each of which has
    an identifier, and among whose motions one is 6 (the six coordinates),
    [resetFromURDFModel] returns a fully floating base without constraint
    (those set before the call are lost), of type [FloatingBase], with
    [num_joints = free - floating] and [num_system_joints = 6 + num_joints]
    in [unsigned int] arithmetic; the joints registered are those the system
    had and the free joints that are not floating-base joints, under the
    identifier of the description. *)
Theorem reset_floating_base_description (urdf_model : URDFModel)
    (s : FloatingBaseSystem) (name : string) :
  0 < to_unsigned (Z.of_nat (size (floating_joint_names_of urdf_model))) ->
  (forall n, is_Some (floating_joint_motions_of urdf_model !! n) ->
             is_Some (floating_joint_names_of urdf_model !! n)) ->
  floating_joint_motions_of urdf_model !! name = Some 6 ->
  exists s',
    resetFromURDFModel_system urdf_model s = Return s' /\
    isFullyFloatingBase s' = true /\
    hasFloatingBaseConstraints s' = false /\
    getTypeOfDynamicSystem s' = FloatingBase /\
    getFloatingBaseDoF s'
    = to_unsigned (Z.of_nat (size (floating_joint_names_of urdf_model))) /\
    getJointDoF s'
    = usub (to_unsigned (Z.of_nat (size (free_joint_names_of urdf_model))))
        (getFloatingBaseDoF s') /\
    getSystemDoF s' = uadd 6 (getJointDoF s') /\
    forall n,
      getJoints s' !! n
      = match floating_joint_names_of urdf_model !! n,
              free_joint_names_of urdf_model !! n with
        | None, Some id => Some id
        | _, _ => getJoints s !! n
        end.
Proof.
  intros Hpos Hnames H6.
  unfold resetFromURDFModel_system.
  set (s0 := set_rbd_model _ s).
  assert (Hloop : exists s1,
             read_floating_joints urdf_model s0 = Return s1 /\
             free_floating s1).
  { unfold read_floating_joints. cbn zeta.
    rewrite bool_decide_eq_true_2 by (cbn; lia).
    match goal with |- context [run_foldM ?f ?l ?x] =>
      destruct (floating_loop_full (floating_joint_names_of urdf_model) l)
        with (s := x) as (s1 & Hrun & Hfull) end.
    { intros [n m] Hin. apply Hnames. cbn [fst].
      rewrite in_order_Permutation in Hin.
      apply elem_of_map_to_list in Hin. rewrite Hin. eauto. }
    exists s1. split; [exact Hrun|]. apply Hfull. right.
    exists (name, 6). split; [|reflexivity].
    rewrite in_order_Permutation. apply elem_of_map_to_list, H6. }
  destruct Hloop as (s1 & Hrun & Hfull & Hcons).
  rewrite Hrun. cbn [mbind run_bind]. eexists. split; [reflexivity|].
  pose proof (read_floating_joints_books _ _ _ Hrun) as Hb.
  injection Hb as _ Hnf _ _ _ Hj _ _ _ _.
  cbn [num_floating_joints joints set_num_floating_joints set_rbd_model s0]
    in Hnf, Hj.
  destruct (read_actuated_joints_frame urdf_model s1) as (Hbase & Hnf1 & _).
  set (s2 := read_actuated_joints urdf_model s1) in *.
  assert (Hfull2 : isFullyFloatingBase (read_joint_names s2) = true).
  { unfold isFullyFloatingBase, read_joint_names in *.
    cbn [AX AY AZ LX LY LZ set_joint_names_].
    injection Hbase as -> -> -> -> -> ->. exact Hfull. }
  assert (Hcons2 : hasFloatingBaseConstraints (read_joint_names s2) = false).
  { unfold hasFloatingBaseConstraints, read_joint_names in *.
    cbn [AX AY AZ LX LY LZ set_joint_names_].
    injection Hbase as -> -> -> -> -> ->. exact Hcons. }
  assert (Hcl : classify (read_joint_names s2)
                = set_type_of_system FloatingBase
                    (set_num_system_joints
                       (uadd 6 (num_joints (read_joint_names s2)))
                       (set_num_system_joints
                          (uadd (num_floating_joints (read_joint_names s2))
                             (num_joints (read_joint_names s2)))
                          (read_joint_names s2)))).
  { unfold classify. cbn zeta.
    assert (E1 : forall v x, isFullyFloatingBase (set_num_system_joints v x)
                             = isFullyFloatingBase x) by reflexivity.
    assert (E2 : forall v x, hasFloatingBaseConstraints (set_num_system_joints v x)
                             = hasFloatingBaseConstraints x) by reflexivity.
    rewrite E1, Hfull2, !E2, Hcons2. reflexivity. }
  rewrite Hcl.
  assert (Hnj : num_joints s2
                = usub (to_unsigned
                          (Z.of_nat (size (free_joint_names_of urdf_model))))
                    (num_floating_joints s1)).
  { unfold s2, read_actuated_joints. cbn zeta.
    match goal with |- context [foldl (free_joint_step ?n) ?x ?l] =>
      destruct (free_loop_frame n l x) as (_ & _ & -> & _) end.
    reflexivity. }
  split; [exact Hfull2|]. split; [exact Hcons2|]. split; [reflexivity|].
  split.
  { unfold getFloatingBaseDoF, read_end_effectors, read_joint_names.
    cbn. rewrite Hnf1. exact Hnf. }
  split.
  { unfold getJointDoF, getFloatingBaseDoF, read_end_effectors, read_joint_names.
    cbn. rewrite Hnj, Hnf1. reflexivity. }
  split; [reflexivity|].
  intros n. unfold getJoints, read_end_effectors, read_joint_names. cbn.
  unfold s2, read_actuated_joints. cbn zeta.
  match goal with |- context [foldl (free_joint_step ?nm) ?x ?l] =>
    destruct (free_loop_joints nm l) with (s := x) (n := n) as [H1 H2] end.
  { apply names_in_order_spec. }
  { cbn. rewrite Hnf. lia. }
  cbn [joints set_num_joints] in H1, H2.
  destruct (floating_joint_names_of urdf_model !! n) as [fid|] eqn:Ef.
  - rewrite H2 by (right; eauto). rewrite Hj. reflexivity.
  - destruct (free_joint_names_of urdf_model !! n) as [id|] eqn:Efree.
    + apply H1; [|reflexivity].
      rewrite in_order_Permutation. apply elem_of_map_to_list, Efree.
    + rewrite H2; [rewrite Hj; reflexivity|]. left. intros Hin.
      apply (names_in_order_spec (free_joint_names_of urdf_model)) in Hin.
      rewrite Efree in Hin. destruct Hin as [? [=]].
Qed.

(** ** Branches of the kinematic tree *)

Lemma uadd_succ (a : Z) (k : nat) :
  uadd ((a + Z.of_nat k) mod UINT_MOD) 1 = (a + Z.of_nat (S k)) mod UINT_MOD.
Proof.
  unfold uadd. rewrite Zplus_mod_idemp_l. f_equal. lia.
Qed.

Lemma last_cons_default (path : list Z) :
  forall p p', List.last (p' :: path) p = List.last path p'.
Proof.
  induction path as [|a l IH]; intros p p'; [reflexivity|].
  change (List.last (p' :: a :: l) p) with (List.last (a :: l) p).
  rewrite !IH. reflexivity.
Qed.

Lemma branch_walk_climbs (m : RBDModel) (base_id : Z) (path : list Z) :
  forall (fuel : nat) (p a : Z) (k : nat),
    climbs m base_id (p :: path) ->
    (length (p :: path) <= fuel)%nat ->
    exists q_index,
      mJoints m !! Z.to_nat (List.last path p) = Some q_index /\
      branch_walk fuel m base_id p ((a + Z.of_nat k) mod UINT_MOD)
      = Some (Return (q_index,
                      (a + Z.of_nat (k + length (p :: path))) mod UINT_MOD)).
Proof.
  induction path as [|p' path IH]; intros fuel p a k Hc Hfuel.
  - destruct Hc as (Hp & Hne & [q Hq] & Hlam & _). cbn [hd] in Hlam.
    destruct fuel as [|fuel]; [cbn in Hfuel; lia|].
    exists q. split; [exact Hq|]. cbn [branch_walk]. rewrite Hq, Hlam.
    rewrite bool_decide_eq_false_2 by auto. rewrite uadd_succ.
    replace (k + length [p])%nat with (S k) by (cbn [length]; lia).
    reflexivity.
  - destruct Hc as (Hp & Hne & [q Hq] & Hlam & Hc). cbn [hd] in Hlam.
    destruct fuel as [|fuel]; [cbn in Hfuel; lia|].
    destruct (IH fuel p' a (S k) Hc) as (q' & Hq' & Hrun).
    { cbn [length] in *. lia. }
    exists q'. split; [rewrite last_cons_default; exact Hq'|].
    cbn [branch_walk]. rewrite Hq, Hlam.
    assert (Hp' : p' <> base_id) by (destruct Hc as (_ & H & _); exact H).
    rewrite bool_decide_eq_true_2 by exact Hp'. rewrite uadd_succ, Hrun.
    replace (S k + length (p' :: path))%nat
      with (k + length (p :: p' :: path))%nat by (cbn [length]; lia).
    reflexivity.
Qed.

Lemma branch_walk_loops (m : RBDModel) (base_id r : Z) :
  r <> base_id ->
  is_Some (mJoints m !! Z.to_nat r) ->
  lambda m !! Z.to_nat r = Some r ->
  forall (fuel : nat) (num_dof : Z), branch_walk fuel m base_id r num_dof = None.
Proof.
  intros Hne [q Hq] Hlam. induction fuel as [|fuel IH]; intros num_dof.
  - reflexivity.
  - cbn [branch_walk]. rewrite Hq, Hlam.
    rewrite bool_decide_eq_true_2 by exact Hne. apply IH.
Qed.

Lemma branch_walk_to_loop (m : RBDModel) (base_id r : Z) (path : list Z) :
  r <> base_id ->
  is_Some (mJoints m !! Z.to_nat r) ->
  lambda m !! Z.to_nat r = Some r ->
  forall (fuel : nat) (p num_dof : Z),
    climbs_to m base_id r (p :: path) ->
    branch_walk fuel m base_id p num_dof = None.
Proof.
  intros Hne Hq Hlam. induction path as [|p' path IH]; intros fuel p n Hc.
  - destruct Hc as (Hp & Hpb & [q Hqp] & Hl & _). cbn [hd] in Hl.
    destruct fuel as [|fuel]; [reflexivity|]. cbn [branch_walk].
    rewrite Hqp, Hl. rewrite bool_decide_eq_true_2 by exact Hne.
    apply branch_walk_loops; assumption.
  - destruct Hc as (Hp & Hpb & [q Hqp] & Hl & Hc). cbn [hd] in Hl.
    destruct fuel as [|fuel]; [reflexivity|]. cbn [branch_walk].
    rewrite Hqp, Hl.
    assert (Hp' : p' <> base_id) by (destruct Hc as (_ & H & _); exact H).
    rewrite bool_decide_eq_true_2 by exact Hp'. apply IH, Hc.
Qed.

Lemma getBranch_start fuel pos_idx body_name s :
  getBranch fuel pos_idx body_name s
  = match branch_start s body_name with
    | None => Some (Stopped (UndefinedBehaviour OutOfBounds))
    | Some parent_id =>
        if bool_decide (parent_id <> base_body s) then
          match branch_walk fuel (rbd_model s) (base_body s) parent_id 0 with
          | Some (Return r) => Some (Return (Some r.1, r.2))
          | Some (Stopped f) => Some (Stopped f)
          | None => None
          end
        else Some (Return (pos_idx, 0))
    end.
Proof.
  unfold getBranch, branch_start, base_body.
  destruct (IsFixedBodyId _ _); [|reflexivity].
  destruct (mFixedBodies _ !! _); reflexivity.
Qed.

(** X25: [getBranch] climbs from the body, or from its movable parent if
    it is a fixed body, towards the base. If that body is the base, it
    returns no degree of freedom and leaves [pos_idx] as the caller passed
    it. If the parents lead to the base, it returns, given enough fuel, the
    number of bodies on the way and the index of the joint of the last of
    them, the child of the base. If they lead to a body other than the base
    that is its own parent, as the root of the model, no fuel suffices: the
    loop does not end. *)
Theorem getBranch_climbs (fuel : nat) (pos_idx : option Z) (body_name : string)
    (s : FloatingBaseSystem) (p : Z) (path : list Z) :
  branch_start s body_name = Some p ->
  (p = base_body s ->
   getBranch fuel pos_idx body_name s = Some (Return (pos_idx, 0))) /\
  (climbs (rbd_model s) (base_body s) (p :: path) ->
   Z.of_nat (length (p :: path)) < UINT_MOD ->
   (length (p :: path) <= fuel)%nat ->
   exists q_index,
     mJoints (rbd_model s) !! Z.to_nat (List.last path p) = Some q_index /\
     getBranch fuel pos_idx body_name s
     = Some (Return (Some q_index, Z.of_nat (length (p :: path))))) /\
  (forall r,
      r <> base_body s ->
      is_Some (mJoints (rbd_model s) !! Z.to_nat r) ->
      lambda (rbd_model s) !! Z.to_nat r = Some r ->
      climbs_to (rbd_model s) (base_body s) r (p :: path) ->
      getBranch fuel pos_idx body_name s = None).
Proof.
  intros Hstart. rewrite getBranch_start, Hstart. split; [|split].
  - intros ->. rewrite bool_decide_eq_false_2 by auto. reflexivity.
  - intros Hc Hlen Hfuel.
    destruct (branch_walk_climbs (rbd_model s) (base_body s) path fuel p 0 0
                Hc Hfuel) as (q & Hq & Hrun).
    rewrite Z.mod_0_l in Hrun by discriminate.
    exists q. split; [exact Hq|].
    assert (Hp : p <> base_body s) by (destruct Hc as (_ & H & _); exact H).
    rewrite bool_decide_eq_true_2 by exact Hp. rewrite Hrun.
    cbn [fst snd]. rewrite Z.mod_small by lia. reflexivity.
  - intros r Hne Hq Hlam Hc.
    assert (Hp : p <> base_body s) by (destruct Hc as (_ & H & _); exact H).
    rewrite bool_decide_eq_true_2 by exact Hp.
    rewrite (branch_walk_to_loop (rbd_model s) (base_body s) r path Hne Hq Hlam
               fuel p 0 Hc).
    reflexivity.
Qed.

Lemma segment_set_segment (i n : Z) (x v v' : VectorXd) :
  set_segment i n x v = Return v' ->
  length v' = length v /\ segment i n v' = Return x /\
  (forall k : nat, (Z.of_nat k < i \/ i + n <= Z.of_nat k) -> v' !! k = v !! k).
Proof.
  unfold set_segment. case_bool_decide as Hr; [|discriminate].
  case_bool_decide as Hl; [|discriminate]. intros [= <-].
  destruct Hr as (Hi & Hn & Hlen).
  assert (Hlt : length (take (Z.to_nat i) v) = Z.to_nat i)
    by (rewrite length_take; lia).
  split; [|split].
  - rewrite !length_app, length_take, length_drop. lia.
  - replace i with (Z.of_nat (length (take (Z.to_nat i) v))) at 1 by lia.
    rewrite <- Hl. apply segment_app_mid.
  - intros k [Hk|Hk].
    + rewrite lookup_app_l by lia. apply lookup_take_lt. lia.
    + rewrite lookup_app_r by lia. rewrite lookup_app_r by lia.
      rewrite lookup_drop. f_equal. lia.
Qed.

(** X26: [setBranchState] ends the process when the size of the branch
    state is not the number of degrees of freedom of the branch. When it
    returns, the joint state has the size it had, [getBranchState] on it
    gives the branch state back, and the coefficients outside the segment of
    the branch are untouched. *)
Theorem branch_state_round_trip (fuel : nat) (new_joint_state : VectorXd)
    (branch_state : VectorXd) (body_name : string) (s : FloatingBaseSystem) :
  (forall q_index num_dof,
      getBranch fuel None body_name s = Some (Return (q_index, num_dof)) ->
      Z.of_nat (length branch_state) <> num_dof ->
      setBranchState fuel new_joint_state branch_state body_name s
      = Some (Stopped ExitFailure)) /\
  (forall joint_state',
      setBranchState fuel new_joint_state branch_state body_name s
      = Some (Return joint_state') ->
      length joint_state' = length new_joint_state /\
      getBranchState fuel joint_state' body_name s = Some (Return branch_state) /\
      exists q_index,
        getBranch fuel None body_name s
        = Some (Return (Some q_index, Z.of_nat (length branch_state))) /\
        forall k : nat,
          (Z.of_nat k < q_index \/
           q_index + Z.of_nat (length branch_state) <= Z.of_nat k) ->
          joint_state' !! k = new_joint_state !! k).
Proof.
  split.
  - intros q_index num_dof Hb Hne. unfold setBranchState. rewrite Hb.
    rewrite bool_decide_eq_true_2 by exact Hne. reflexivity.
  - intros joint_state'. unfold setBranchState, getBranchState.
    destruct (getBranch fuel None body_name s) as [[[q_index num_dof]|]|];
      [|discriminate..].
    case_bool_decide as Hne; [discriminate|].
    destruct q_index as [q_index|]; [|discriminate].
    intros [= Hset]. subst num_dof.
    apply segment_set_segment in Hset as (Hlen & Hseg & Hout).
    split; [exact Hlen|]. split; [rewrite Hseg; reflexivity|].
    exists q_index. split; [reflexivity | exact Hout].
Qed.

(** * The further properties on the concrete engine *)

Lemma toy_response_keeps_support : response_keeps_support (cart := toy_cart).
Proof. intros props h [s0|] s t; reflexivity. Defined.

(** X27 on the doubles 0.3 and 0.1: the quotient is the double just below
    3, and the number of samples is 2. *)
Lemma floor_div_nearest_witness :
  floor_div double_03 double_01 = Ok 2 /\
  exists q : Q,
    2 = Qfloor q /\
    (exists m : Z, (q == inject_Z m * 2 ^ (1 - 52))%Q) /\
    (Qabs (q - double_03 / double_01) <= 2 ^ (1 - 53))%Q.
Proof.
  split; [vm_compute; reflexivity|].
  apply (floor_div_nearest double_03 double_01 2). vm_compute. reflexivity.
Defined.

Lemma toy_samplable (p : PreviewParams) :
  Qle_bool 0 (duration p) = true ->
  Z.ltb (Qfloor (double_div (duration p) (sample_time_ toy_engine)) + 1) UINT_MOD = true ->
  samplable toy_engine p.
Proof.
  intros Hd Hr. split.
  - apply Qle_bool_iff, Hd.
  - apply Z.ltb_lt, Hr.
Defined.

Lemma toy_engine_feet_stance : Forall (has_stance toy_engine) ["LF"; "RF"].
Proof.
  apply Forall_cons. split; [eexists; reflexivity|].
  apply Forall_cons. split; [eexists; reflexivity|]. apply Forall_nil_2.
Defined.

(** X1 on a STANCE phase of 0.5 s, whatever the caller left in the output
    trajectory. *)
Lemma stance_summary_terminal_witness :
  let ct := initResponse toy_state
              (mkCartTableControlParams (1 # 2) Vector2d_Zero)
              (cart_table_ toy_engine) in
  stancePreview (frame_tf_ := toy_frame) [toy_state; toy_state] toy_state
    stance_05 false toy_engine
  = Ok ([computeResponse ct (set_time (0 + (1 # 2)) toy_state) (0 + (1 # 2))],
        set_cart_table_ ct toy_engine).
Proof.
  exact (stance_summary_terminal (frame_tf_ := toy_frame) toy_engine toy_state
           stance_05 [toy_state; toy_state] eq_refl
           (toy_samplable stance_05 eq_refl eq_refl)).
Defined.

(** X2 on a FLIGHT phase of 0.5 s from rest at 0.5 m. *)
Lemma flight_summary_projectile_witness :
  exists s,
    flightPreview (frame_tf_ := toy_frame) [] toy_state flight_05 false toy_engine
    = Ok ([s], toy_engine) /\
    (Z3 (com_pos s)
     == (1 # 2) + 0 * (1 # 2) - (1 # 2) * (981 # 100) * (1 # 2) * (1 # 2))%Q /\
    support_region s = ∅.
Proof.
  destruct (flight_summary_projectile (frame_tf_ := toy_frame) toy_engine
              toy_state flight_05 [] eq_refl
              (toy_samplable flight_05 eq_refl eq_refl))
    as (s & Hrun & _ & (_ & _ & Hz & _) & _ & Hsup & _).
  exists s. split; [exact Hrun|]. split; [exact Hz | exact Hsup].
Defined.


(** X5 on a phase in which LF swings and on one in which LH, unknown to the
    engine, swings. *)
Lemma initSwing_defined_iff_witness :
  is_Ok (initSwing (frame_tf_ := toy_frame) toy_state stance_04_LF toy_engine) /\
  initSwing (frame_tf_ := toy_frame) toy_state stance_04_LH toy_engine
  = Undefined EndIterator.
Proof.
  split.
  - apply (proj1 (initSwing_defined_iff (frame_tf_ := toy_frame) toy_state
                    stance_04_LF toy_engine)).
    apply Forall_cons. split; [eexists; reflexivity | apply Forall_nil_2].
  - apply (proj2 (initSwing_defined_iff (frame_tf_ := toy_frame) toy_state
                    stance_04_LH toy_engine)).
    intros H. apply Forall_cons in H as [[v Hv] _]. discriminate Hv.
Defined.

(** X6 on a phase of 0.4 s in which LF swings, in full mode. *)
Lemma stance_support_constant_witness :
  exists samples e',
    stancePreview (frame_tf_ := toy_frame) [] toy_state stance_04_LF true
      toy_engine = Ok (samples, e') /\
    Forall (fun s => support_region s = support_region toy_state) samples.
Proof.
  assert (H : is_Ok_bool
                (stancePreview (frame_tf_ := toy_frame) [] toy_state
                   stance_04_LF true toy_engine) = true)
    by (vm_compute; reflexivity).
  destruct (stancePreview (frame_tf_ := toy_frame) [] toy_state stance_04_LF
              true toy_engine) as [[samples e']|f] eqn:Hrun;
    [clear H|discriminate].
  exists samples, e'. split; [reflexivity|].
  apply (stance_support_constant (frame_tf_ := toy_frame) toy_engine toy_state
           stance_04_LF true samples e').
  - exact toy_response_keeps_support.
  - reflexivity.
  - exact Hrun.
Defined.

(** X7 on a sequence STANCE, FLIGHT, STANCE of 0.4 s, 0.5 s and 0.5 s. *)
Lemma summary_preview_times_witness :
  exists samples e',
    multiPhasePreview (frame_tf_ := toy_frame) [] toy_state
      (mkPreviewControl [stance_04_LF; flight_05; stance_05]) false toy_engine
    = Ok (samples, e', []) /\
    time <$> samples
    = [0 + (2 # 5); 0 + (2 # 5) + (1 # 2); 0 + (2 # 5) + (1 # 2) + (1 # 2);
       0 + (2 # 5) + (1 # 2) + (1 # 2)]%Q /\
    length samples = 4%nat.
Proof.
  apply (summary_preview_times (frame_tf_ := toy_frame) toy_engine toy_state
           (mkPreviewControl [stance_04_LF; flight_05; stance_05]) []).
  - reflexivity.
  - exact toy_response_keeps_time.
  - reflexivity.
  - apply Forall_cons. split; [exact (toy_samplable stance_04_LF eq_refl eq_refl)|].
    apply Forall_cons. split; [exact (toy_samplable flight_05 eq_refl eq_refl)|].
    apply Forall_cons. split; [exact (toy_samplable stance_05 eq_refl eq_refl)|].
    apply Forall_nil_2.
  - discriminate.
  - vm_compute. repeat constructor.
  - exact toy_engine_feet_stance.
Defined.

(** X8 on the complete description: the time and the feet of the state are
    those the caller passed. *)
Lemma read_state_frame_witness :
  exists state' control' printed,
    readPreviewSequence toy_default_params toy_state (mkPreviewControl [])
      yaml_one_phase toy_engine = Ok (state', control', printed) /\
    time state' = time toy_state /\
    support_region state' = support_region toy_state /\
    foot_pos state' = foot_pos toy_state.
Proof.
  assert (H : is_Ok_bool
                (readPreviewSequence toy_default_params toy_state
                   (mkPreviewControl []) yaml_one_phase toy_engine) = true)
    by (vm_compute; reflexivity).
  destruct (readPreviewSequence toy_default_params toy_state
              (mkPreviewControl []) yaml_one_phase toy_engine)
    as [[[state' control'] printed]|f] eqn:Hrun; [clear H|discriminate].
  destruct (read_state_frame toy_engine toy_default_params toy_state
              (mkPreviewControl []) yaml_one_phase state' control' printed Hrun)
    as (Ht & _ & _ & _ & _ & Hs & Hf & _).
  exists state', control', printed. split; [reflexivity|].
  split; [exact Ht|]. split; [exact Hs | exact Hf].
Defined.

Lemma yaml_state_complete (r2 : YamlNamespace -> string -> option Vector2d)
    (rd : YamlNamespace -> string -> option Q)
    (ri : YamlNamespace -> string -> option Z) :
  state_complete (mkYamlWrapper yaml_state r2 rd ri).
Proof. split; [|split]; eexists; reflexivity. Defined.

(** X9 on a description that announces -1 phases and on one that announces
    one phase, read into a control that held two. *)
Lemma read_control_size_witness :
  readPreviewSequence toy_default_params toy_state
    (mkPreviewControl [stance_05; stance_05]) yaml_negative_phases toy_engine
  = Undefined LengthError /\
  exists state' control' printed,
    readPreviewSequence toy_default_params toy_state
      (mkPreviewControl [stance_05; stance_05]) yaml_one_phase toy_engine
    = Ok (state', control', printed) /\
    length (params control') = 1%nat.
Proof.
  split.
  - apply (proj1 (read_control_size toy_engine toy_default_params toy_state
                    (mkPreviewControl [stance_05; stance_05])
                    yaml_negative_phases (-1) eq_refl
                    (yaml_state_complete _ _ _) eq_refl)).
    reflexivity.
  - destruct (proj2 (read_control_size toy_engine toy_default_params toy_state
                       (mkPreviewControl [stance_05; stance_05])
                       yaml_one_phase 1 eq_refl
                       (yaml_state_complete _ _ _) eq_refl))
      as (state' & control' & printed & Hrun & Hl & _).
    + discriminate.
    + exists state', control', printed. split; [exact Hrun | exact Hl].
Defined.

(** X10 on phase 0 of the complete description: LF gets its shift and is
    marked as swinging. *)
Lemma read_phase_swing_feet_witness :
  exists p',
    read_phase yaml_one_phase toy_engine 0 toy_default_params = (p', None) /\
    Some (2 # 5)%Q = Some (duration p') /\
    isSwingFoot (phase p') "LF" = true /\
    getFootShift (phase p') "LF" = mkVector2d (1 # 10) 0.
Proof.
  assert (H : (read_phase yaml_one_phase toy_engine 0 toy_default_params).2
              = None) by (vm_compute; reflexivity).
  destruct (read_phase yaml_one_phase toy_engine 0 toy_default_params)
    as [p' o] eqn:Hrun.
  cbn [snd] in H. subst o.
  destruct (read_phase_swing_feet yaml_one_phase toy_engine 0
              toy_default_params p' Hrun) as (Hd & _ & _ & Hsw & Hsh).
  exists p'. split; [reflexivity|]. split; [exact Hd|]. split.
  - apply Hsw. right. vm_compute. apply list_elem_of_here.
  - apply Hsh; [apply list_elem_of_here | reflexivity].
Defined.

(** X11 on the complete description. *)
Lemma read_complete_description_witness :
  exists control',
    readPreviewSequence toy_default_params toy_state (mkPreviewControl [])
      yaml_one_phase toy_engine
    = Ok (set_cop Vector3d_Zero
            (set_com_vel (mkVector3d (1 # 10) 0 0)
               (set_com_pos (mkVector3d 0 0 (1 # 2)) toy_state)),
          control', []) /\
    length (params control') = 1%nat.
Proof.
  destruct (read_complete_description toy_engine toy_default_params toy_state
              (mkPreviewControl []) yaml_one_phase
              (mkVector3d 0 0 (1 # 2)) (mkVector3d (1 # 10) 0 0) Vector3d_Zero 1
              eq_refl eq_refl eq_refl eq_refl eq_refl)
    as (control' & Hrun & Hl & _).
  - discriminate.
  - intros [|k] Hk.
    + split; eexists; reflexivity.
    + exfalso. revert Hk. rewrite Nat2Z.inj_succ. unfold Z.lt.
      destruct (Z.of_nat k) eqn:Ek; cbn; try discriminate.
      * destruct p; discriminate.
      * pose proof (Nat2Z.is_nonneg k) as Hnn. rewrite Ek in Hnn.
        exfalso. apply Hnn. reflexivity.
  - exists control'. split; [exact Hrun | exact Hl].
Defined.

(** X12 on a STANCE and a FLIGHT phase of 0.05 s sampled every 0.1 s. *)
Lemma short_phases_preview_witness :
  multiPhasePreview (frame_tf_ := toy_frame) [toy_state; toy_state; toy_state]
    toy_state (mkPreviewControl [stance_005; flight_005]) true toy_engine
  = Ok ([toy_state; toy_state], set_actual_state_ toy_state toy_engine, []).
Proof.
  apply (short_phases_preview (frame_tf_ := toy_frame) toy_engine toy_state
           (mkPreviewControl [stance_005; flight_005])
           [toy_state; toy_state; toy_state]).
  - reflexivity.
  - discriminate.
  - apply Forall_cons. split; [reflexivity|].
    apply Forall_cons. split; [reflexivity | apply Forall_nil_2].
  - vm_compute. repeat constructor.
Defined.

(** X13 on a STANCE phase followed by a FLIGHT phase, both of 0.5 s. *)
Lemma full_preview_flight_undefined_witness :
  exists f,
    multiPhasePreview (frame_tf_ := toy_frame) [] toy_state
      (mkPreviewControl [stance_05; flight_05]) true toy_engine
    = Undefined f.
Proof.
  apply (full_preview_flight_undefined (frame_tf_ := toy_frame) toy_engine
           toy_state (mkPreviewControl [stance_05; flight_05]) [] flight_05).
  - reflexivity.
  - reflexivity.
  - apply list_elem_of_further, list_elem_of_here.
  - reflexivity.
  - vm_compute. discriminate.
  - reflexivity.
Defined.

(** X14 on phases of 0.05 s, 0.3 s and 0.5 s sampled every 0.1 s, the
    durations and the sample time being the nearest doubles: the initial
    state, three and six samples, and the trailing state. *)
Lemma full_preview_length_spec_witness :
  exists samples e',
    multiPhasePreview (frame_tf_ := toy_frame) [] toy_state
      (mkPreviewControl [stance_005; stance_03; stance_05]) true
      toy_engine_double
    = Ok (samples, e', []) /\
    length samples = 11%nat.
Proof.
  apply (full_preview_length_spec (frame_tf_ := toy_frame) toy_engine_double
           toy_state (mkPreviewControl [stance_005; stance_03; stance_05]) []).
  - reflexivity.
  - reflexivity.
  - apply Forall_cons. split; [left; reflexivity|].
    apply Forall_cons. split.
    { right. split; [reflexivity|].
      split; [vm_compute; reflexivity | apply Forall_nil_2]. }
    apply Forall_cons. split; [|apply Forall_nil_2].
    right. split; [reflexivity|].
    split; [vm_compute; reflexivity | apply Forall_nil_2].
  - discriminate.
  - vm_compute. repeat constructor.
  - apply Forall_cons. split; [eexists; reflexivity|].
    apply Forall_cons. split; [eexists; reflexivity | apply Forall_nil_2].
Defined.

(** X15 on a freshly constructed engine and the description of the biped. *)
Lemma reset_stance_posture_witness :
  let e' := (resetFromURDFModel toy_model
               (PreviewLocomotion_new (cart := toy_cart) (swing := toy_swing))).1 in
  robot_model_ e' = true /\
  (num_feet_ e' <= length (feet_names_ e'))%nat /\
  Forall (has_stance e') (visited_feet e').
Proof.
  destruct (reset_stance_posture toy_model
              (PreviewLocomotion_new (cart := toy_cart) (swing := toy_swing)))
    as (Hmodel & _ & _ & Hfeet & _).
  split; [exact Hmodel|]. apply Hfeet.
  - vm_compute. repeat constructor.
  - intros name Hin. change (name ∈ ["LF"; "RF"]) in Hin.
    apply elem_of_cons in Hin as [->|Hin]; [eexists; reflexivity|].
    apply elem_of_cons in Hin as [->|Hin]; [eexists; reflexivity|].
    apply elem_of_nil in Hin. contradiction.
Defined.

(** X16 on a trajectory of two states, the second one without feet. *)
Lemma toWholeBodyTrajectory_carries_state_witness :
  exists full,
    toWholeBodyTrajectory (0%Q, ∅) toy_toWholeBodyState [(1%Q, ∅)]
      [toy_state; set_time 1 ReducedBodyState_default] tt
    = Ok (full, tt) /\
    length full = 2%nat.
Proof.
  pose proof (toWholeBodyTrajectory_carries_state (0%Q, ∅) toy_toWholeBodyState
                [(1%Q, ∅)] [toy_state; set_time 1 ReducedBodyState_default] tt
                eq_refl) as H.
  cbn [converted foldM toy_toWholeBodyState mbind outcome_bind fst snd] in H.
  destruct H as (full & Hrun & Hlen & _).
  exists full. split; [exact Hrun | exact Hlen].
Defined.

(** The second whole-body state keeps the contact position that the first
    conversion wrote for LF. *)
Example whole_body_state_carried_over :
  toy_contact "LF"
    (toWholeBodyTrajectory (0%Q, ∅) toy_toWholeBodyState []
       [toy_state; set_time 1 ReducedBodyState_default] tt)
  = Ok [(0%Q, Some (mkVector3d (1 # 5) (1 # 10) (- (1 # 2))));
        (1%Q, Some (mkVector3d (1 # 5) (1 # 10) (- (1 # 2))))].
Proof. vm_compute. reflexivity. Qed.

(** * The properties of the floating-base system on the concrete system *)

(** Reading the description of the leg into a system as constructed gives
    [toy_system]. *)
Example toy_system_read :
  system_books (resetFromURDFModel_system toy_urdf toy_system_new)
  = system_books (Return toy_system).
Proof. vm_compute. reflexivity. Qed.

(** X19 on the planar system: the slide carries identifier 0 and is found
    at [rbd::LX]; no coordinate carries 7, and the value returned with the
    message is that of [rbd::AX]. *)
Lemma floating_base_joint_coordinate_sound_witness :
  carries toy_planar_system rbd_LX 0 /\
  getFloatingBaseJointCoordinate 7 toy_planar_system
  = (rbd_AX, [MSG_NOT_FLOATING 7]).
Proof.
  split.
  - apply (proj1 (floating_base_joint_coordinate_sound 0 toy_planar_system)).
    reflexivity.
  - apply (proj2 (floating_base_joint_coordinate_sound 7 toy_planar_system)).
    discriminate.
Defined.

(** X20 on the leg: the generalized state starts with the linear part of
    the base state. *)
Lemma generalized_state_round_trip_witness :
  toGeneralizedJointState [] toy_base_state [7; 8]%Q toy_system
  = Return [4; 5; 6; 1; 2; 3; 7; 8]%Q /\
  fromGeneralizedJointState Vector6d_Zero [] [4; 5; 6; 1; 2; 3; 7; 8]%Q
    toy_system
  = Return (toy_base_state, [7; 8]%Q) /\
  toGeneralizedJointState [] toy_base_state [7]%Q toy_system
  = Stopped AssertionFailure.
Proof.
  destruct (generalized_state_round_trip [] toy_base_state [7; 8]%Q toy_system)
    as (_ & Hfloat & _).
  destruct Hfloat as [Hto Hfrom];
    [reflexivity | left; reflexivity | reflexivity |].
  split; [exact Hto|]. split; [exact (Hfrom Vector6d_Zero [])|].
  apply (proj1 (generalized_state_round_trip [] toy_base_state [7]%Q
                  toy_system)).
  discriminate.
Defined.

Lemma toy_planar_indexed : virtual_base_indexed toy_planar_system.
Proof.
  split.
  - intros c Hc.
    destruct (coords_cases c Hc) as [->|[->|[->|[->|[->| ->]]]]];
      intros Ha; try discriminate Ha; split; reflexivity || discriminate.
  - intros c1 c2 Hc1 Hc2.
    destruct (coords_cases c1 Hc1) as [->|[->|[->|[->|[->| ->]]]]];
      destruct (coords_cases c2 Hc2) as [->|[->|[->|[->|[->| ->]]]]];
      intros Ha1 Ha2 Hid; try discriminate; reflexivity.
Defined.

(** X21 on the planar system: the slide and the yaw of the base state come
    back, the other coordinates are those of the base state that receives
    them. *)
Lemma virtual_base_round_trip_witness :
  exists q base_state',
    toGeneralizedJointState [] toy_base_state [9]%Q toy_planar_system
    = Return q /\
    fromGeneralizedJointState Vector6d_Zero [] q toy_planar_system
    = Return (base_state', [9]%Q) /\
    at_coord base_state' rbd_LX = 4%Q /\ at_coord base_state' rbd_AZ = 3%Q /\
    at_coord base_state' rbd_AX = 0%Q.
Proof.
  destruct (virtual_base_round_trip [] toy_base_state [9]%Q toy_planar_system)
    as (q & Hto & _ & _ & Hfrom).
  - reflexivity.
  - reflexivity.
  - discriminate.
  - reflexivity.
  - exact toy_planar_indexed.
  - destruct (Hfrom Vector6d_Zero []) as (b & Hrun & Hb).
    exists q, b. split; [exact Hto|]. split; [exact Hrun|].
    split; [|split].
    + apply (Hb rbd_LX). apply elem_of_coords. split; discriminate.
    + apply (Hb rbd_AZ). apply elem_of_coords. split; discriminate.
    + apply (Hb rbd_AX). apply elem_of_coords. split; discriminate.
Defined.

(** X22 on a second reading of the description of the leg: the foot is
    listed twice, and counted once. *)
Lemma reset_end_effector_names_witness :
  exists s',
    resetFromURDFModel_system toy_urdf toy_system = Return s' /\
    getNumberOfEndEffectors s' = 1 /\
    length (getEndEffectorNames s') = 2%nat.
Proof.
  assert (H : is_Return_bool (resetFromURDFModel_system toy_urdf toy_system)
              = true) by (vm_compute; reflexivity).
  destruct (resetFromURDFModel_system toy_urdf toy_system) as [s'|st] eqn:Hrun;
    [clear H|discriminate].
  destruct (reset_end_effector_names toy_urdf toy_system s' Hrun)
    as (_ & Hn & _ & _ & _ & Hl).
  exists s'. split; [reflexivity|]. split; [exact Hn | exact Hl].
Defined.

(** X23 on the description of the arm: two joints are counted, none is
    registered. *)
Lemma reset_fixed_base_description_witness :
  exists s',
    resetFromURDFModel_system toy_arm_urdf toy_system_new = Return s' /\
    getJointDoF s' = 2 /\ getJoints s' = ∅ /\ getJointNames s' = [] /\
    getTypeOfDynamicSystem s' = FixedBase.
Proof.
  destruct (reset_fixed_base_description toy_arm_urdf toy_system_new eq_refl)
    as (s' & Hrun & _ & Hdof & Hj & Hn & _ & Hty).
  exists s'. split; [exact Hrun|]. split; [exact Hdof|]. split; [exact Hj|].
  split; [exact Hn|]. apply Hty. reflexivity.
Defined.

(** X24 on the description of the leg. *)
Lemma reset_floating_base_description_witness :
  exists s',
    resetFromURDFModel_system toy_urdf toy_system_new = Return s' /\
    getTypeOfDynamicSystem s' = FloatingBase /\
    getSystemDoF s' = 8 /\
    getJoints s' !! "hip" = Some 1 /\ getJoints s' !! "floating_base" = None.
Proof.
  destruct (reset_floating_base_description toy_urdf toy_system_new
              "floating_base")
    as (s' & Hrun & _ & _ & Hty & Hbase & Hdof & Hsys & Hj).
  - reflexivity.
  - intros n [v Hv]. destruct (decide (n = "floating_base")) as [->|Hne].
    + eexists. reflexivity.
    + exfalso. revert Hv. cbn [floating_joint_motions_of toy_urdf].
      rewrite lookup_singleton_ne by congruence. discriminate.
  - reflexivity.
  - exists s'. split; [exact Hrun|]. split; [exact Hty|]. split; [|split].
    + rewrite Hsys, Hdof, Hbase. vm_compute. reflexivity.
    + exact (Hj "hip").
    + exact (Hj "floating_base").
Defined.

(** X25 on the leg: the branch of the shank has two joints and starts at
    coefficient 6, the base has no branch, and the climb from a body of the
    floating base reaches the root and stays there. *)
Lemma getBranch_climbs_witness :
  getBranch 5 None "shank" toy_system = Some (Return (Some 6, 2)) /\
  getBranch 5 (Some 1) "base" toy_system = Some (Return (Some 1, 0)) /\
  forall fuel, getBranch fuel None "virtual" toy_system = None.
Proof.
  split; [|split].
  - destruct (proj1 (proj2 (getBranch_climbs 5 None "shank" toy_system 8 [7]
                              eq_refl)))
      as (q & Hq & Hrun).
    + repeat split; try discriminate; eexists; reflexivity.
    + reflexivity.
    + vm_compute. repeat constructor.
    + vm_compute in Hq. injection Hq as <-. exact Hrun.
  - apply (proj1 (getBranch_climbs 5 (Some 1) "base" toy_system 6 [] eq_refl)).
    reflexivity.
  - intros fuel.
    apply (proj2 (proj2 (getBranch_climbs fuel None "virtual" toy_system 3
                           [2; 1] eq_refl)) 0).
    + discriminate.
    + eexists. reflexivity.
    + reflexivity.
    + repeat split; try discriminate; eexists; reflexivity.
Defined.

(** X26 on the leg: the state of the branch of the shank is written to the
    coefficients 6 and 7 and read back; a state of one coefficient ends the
    process. *)
Lemma branch_state_round_trip_witness :
  getBranchState 5 [0; 0; 0; 0; 0; 0; 1; 2]%Q "shank" toy_system
  = Some (Return [1; 2]%Q) /\
  setBranchState 5 [0; 0; 0; 0; 0; 0; 0; 0]%Q [1]%Q "shank" toy_system
  = Some (Stopped ExitFailure).
Proof.
  split.
  - apply (proj2 (branch_state_round_trip 5 [0; 0; 0; 0; 0; 0; 0; 0]%Q
                    [1; 2]%Q "shank" toy_system)).
    reflexivity.
  - apply (proj1 (branch_state_round_trip 5 [0; 0; 0; 0; 0; 0; 0; 0]%Q
                    [1]%Q "shank" toy_system) (Some 6) 2).
    + reflexivity.
    + discriminate.
Defined.
